(** * Engine-API test client of hive: genesis configuration and RPC adapter

    Shallow embedding of
      simulators/ethereum/engine/config/cancun/genesis.go   (package cancun)
      and of the [HiveRPCEngineClient] that follows it      (package hive_rpc).

    Conventions.
    - A Go [uint64] is an [N]; the one place where the code can overflow
      ([PreviousNonce++]) writes the wrap-around out.
    - A Go [int] and a [*big.Int] value are a [Z]; a nilable pointer is an
      [option].
    - A Go map is a [gmap]; the maps of this code are always allocated
      ([make] in the constructor, the genesis file's alloc section), so a nil
      map is not represented.
    - A Go slice is a [list]. Where a slice is encoded to JSON the nil slice,
      sent as [null], is kept apart from an allocated one, sent as an array:
      such a slice is a [slice], an [option (list T)] whose [None] is the nil
      slice. Elsewhere a nil slice and an empty one are the same list.
    - A Go [error] is an [option error] ([None] is Go's [nil]); a [panic] is
      its own outcome. *)

From Stdlib Require Import ZArith NArith Lia Ascii String List.
From Stdlib.Strings Require Import Byte.
From Stdlib Require Import DecimalString DecimalZ HexadecimalString HexadecimalN.
From stdpp Require Import base option list gmap strings fin_maps.

Abbreviation byte := Byte.byte.

Set Warnings "-register-all".

Local Open Scope string_scope.
Local Open Scope N_scope.

(** ** Values shared by both packages *)

(** [common.Address]: 20 bytes, read as a big-endian number below 2^160. *)
Abbreviation common_Address := N.
(** [common.Hash]: 32 bytes, read as a big-endian number below 2^256. *)
Abbreviation common_Hash := N.

Definition uint64_modulus : N := 2 ^ 64.
Definition address_modulus : Z := (2 ^ 160)%Z.

(** Go errors. The messages built with [fmt.Errorf] keep their arguments as
    data; an error produced by a collaborator (transport, JSON decoding, JWT
    signing, transaction encoding) is [ErrExternal]. *)
Inductive error : Type :=
  | ErrRequiresShanghai                 (* "cancun fork requires shanghai fork" *)
  | ErrMustBeAfterShanghai              (* "cancun fork must be after shanghai fork" *)
  | ErrReusedAddress (a : common_Address)      (* "reused address %s during genesis configuration for cancun" *)
  | ErrNoPreviousNonce (a : common_Address)    (* "no previous nonce for account %s" *)
  | ErrExternal (msg : string)
  | ErrWrap (cause : error) (msg : string).   (* errors.Wrap *)

(** [common.BigToAddress]: the magnitude's big-endian bytes, cropped from the
    left to the last 20. *)
Definition BigToAddress (b : Z) : common_Address :=
  Z.to_N (Z.abs b mod address_modulus).

(** [common.Hex2Bytes]: [hex.DecodeString] with the error dropped, which
    leaves the bytes decoded before the first bad character. *)
Definition hex_digit (c : ascii) : option N :=
  let n := N_of_ascii c in
  if (48 <=? n) && (n <=? 57) then Some (n - 48)
  else if (97 <=? n) && (n <=? 102) then Some (n - 87)
  else if (65 <=? n) && (n <=? 70) then Some (n - 55)
  else None.

Definition byte_of_nibbles (hi lo : N) : byte :=
  default Byte.x00 (Byte.of_N (16 * hi + lo)).

Fixpoint Hex2Bytes (s : string) : list byte :=
  match s with
  | String a (String b rest) =>
      match hex_digit a, hex_digit b with
      | Some hi, Some lo => byte_of_nibbles hi lo :: Hex2Bytes rest
      | _, _ => []
      end
  | _ => []
  end.

(** ** Package cancun: genesis configuration *)

Module cancun.

(** [core.GenesisAccount]. *)
Record GenesisAccount : Type := mkGenesisAccount {
  Code : list byte;
  Storage : gmap common_Hash common_Hash;
  Balance : option Z;
  Nonce : N;
}.

(** The two fork times of [params.ChainConfig] this file reads and writes. *)
Record ChainConfig : Type := mkChainConfig {
  ShanghaiTime : option N;
  CancunTime : option N;
}.

(** [core.Genesis], with the fields the configuration touches. *)
Record Genesis : Type := mkGenesis {
  Config : ChainConfig;
  Timestamp : N;
  BlobGasUsed : option N;
  ExcessBlobGas : option N;
  Alloc : gmap common_Address GenesisAccount;
}.

Definition set_CancunTime (t : option N) (g : Genesis) : Genesis :=
  {| Config := {| ShanghaiTime := ShanghaiTime (Config g); CancunTime := t |};
     Timestamp := Timestamp g;
     BlobGasUsed := BlobGasUsed g;
     ExcessBlobGas := ExcessBlobGas g;
     Alloc := Alloc g |}.

Definition set_BlobGasUsed (v : option N) (g : Genesis) : Genesis :=
  {| Config := Config g; Timestamp := Timestamp g; BlobGasUsed := v;
     ExcessBlobGas := ExcessBlobGas g; Alloc := Alloc g |}.

Definition set_ExcessBlobGas (v : option N) (g : Genesis) : Genesis :=
  {| Config := Config g; Timestamp := Timestamp g; BlobGasUsed := BlobGasUsed g;
     ExcessBlobGas := v; Alloc := Alloc g |}.

Definition set_Alloc (a : gmap common_Address GenesisAccount) (g : Genesis) : Genesis :=
  {| Config := Config g; Timestamp := Timestamp g; BlobGasUsed := BlobGasUsed g;
     ExcessBlobGas := ExcessBlobGas g; Alloc := a |}.

(** How a call ends: it returns its [error] result, or it panics. *)
Inductive outcome : Type :=
  | Returned (err : option error)
  | Panicked (v : error).

(** The bytecode deployed at the EIP-4788 address. *)
Definition beacon_roots_code : list byte :=
  Hex2Bytes "3373fffffffffffffffffffffffffffffffffffffffe14604d57602036146024575f5ffd5b5f35801560495762001fff810690815414603c575f5ffd5b62001fff01545f5260205ff35b5f5ffd5b62001fff42064281555f359062001fff015500".

Definition beacon_roots_account : GenesisAccount :=
  {| Code := beacon_roots_code; Storage := ∅; Balance := Some 0%Z; Nonce := 1 |}.

(** The contract of the DATAHASH fixture accounts. *)
Definition datahashCode : list byte :=
  [ Byte.x5f; Byte.x80; Byte.x49; Byte.x55;
    Byte.x60; Byte.x01; Byte.x80; Byte.x49; Byte.x55;
    Byte.x60; Byte.x02; Byte.x80; Byte.x49; Byte.x55;
    Byte.x60; Byte.x03; Byte.x80; Byte.x49; Byte.x55 ].

Definition datahash_account : GenesisAccount :=
  {| Code := datahashCode; Storage := ∅; Balance := Some 1%Z; Nonce := 0 |}.

Section Constants.
(** Package-level constants declared in a sibling file of the package. *)
Variable BEACON_ROOTS_ADDRESS : common_Address.
Variable DATAHASH_START_ADDRESS : Z.
Variable DATAHASH_ADDRESS_COUNT : Z.

(** [ConfigGenesis]: the genesis is mutated through its pointer, so the
    function returns the genesis as the call leaves it next to the error. *)
Definition ConfigGenesis (genesis : Genesis) (forkTimestamp : N)
  : Genesis * option error :=
  match ShanghaiTime (Config genesis) with
  | None => (genesis, Some ErrRequiresShanghai)
  | Some shanghai =>
      let genesis := set_CancunTime (Some forkTimestamp) genesis in
      if forkTimestamp <? shanghai then (genesis, Some ErrMustBeAfterShanghai)
      else
        let genesis :=
          if forkTimestamp <=? Timestamp genesis then
            let genesis :=
              if BlobGasUsed genesis is None
              then set_BlobGasUsed (Some 0) genesis else genesis in
            if ExcessBlobGas genesis is None
            then set_ExcessBlobGas (Some 0) genesis else genesis
          else genesis in
        let genesis :=
          set_Alloc (<[BEACON_ROOTS_ADDRESS := beacon_roots_account]> (Alloc genesis))
                    genesis in
        (genesis, None)
  end.

Definition datahash_address (i : Z) : common_Address :=
  BigToAddress (DATAHASH_START_ADDRESS + i).

(** The loop of [ConfigTestAccounts] over the indices still to visit. *)
Fixpoint datahash_loop (indices : list Z) (genesis : Genesis)
  : Genesis * outcome :=
  match indices with
  | [] => (genesis, Returned None)
  | i :: rest =>
      let address := datahash_address i in
      match Alloc genesis !! address with
      | Some _ => (genesis, Panicked (ErrReusedAddress address))
      | None =>
          datahash_loop rest
            (set_Alloc (<[address := datahash_account]> (Alloc genesis)) genesis)
      end
  end.

Definition ConfigTestAccounts (genesis : Genesis) : Genesis * outcome :=
  datahash_loop (seqZ 0 DATAHASH_ADDRESS_COUNT) genesis.

End Constants.

End cancun.

(** ** Package hive_rpc: the Engine-API client *)

Module hive_rpc.

(** A JSON document, as it travels in a JSON-RPC request or response. *)
Inductive json : Type :=
  | JNull
  | JBool (b : bool)
  | JNumber (n : Z)
  | JString (s : string)
  | JArray (items : list json)
  | JObject (members : list (string * json)).

(** Go's [json.Marshaler] and [json.Unmarshaler]: [UnmarshalJSON raw target]
    is the target after [json.Unmarshal(raw, &target)] and the error of the
    decoding; [zero] is the type's zero value, what [var x T] declares. *)
Class Marshaler (T : Type) : Type := MarshalJSON : T -> json.

Class Unmarshaler (T : Type) : Type := {
  zero : T;
  UnmarshalJSON : json -> T -> T * option error;
}.

(** A nil pointer is sent as [null]. *)
#[export] Instance option_Marshaler {T : Type} `{Marshaler T} : Marshaler (option T) :=
  fun p => match p with Some v => MarshalJSON v | None => JNull end.

#[export] Instance list_Marshaler {T : Type} `{Marshaler T} : Marshaler (list T) :=
  fun l => JArray (map MarshalJSON l).

#[export] Instance string_Marshaler : Marshaler string := JString.

(** A slice that is encoded: [None] is the nil slice, which [encoding/json]
    sends as [null]; an allocated slice, empty or not, is sent as an array. *)
Abbreviation slice T := (option (list T)).

(** A [json.RawMessage] is sent as it is. *)
#[export] Instance json_Marshaler : Marshaler json := fun j => j.

(** [typ.ExecutionPayloadEnvelope], the response of getPayload from V2 on. *)
Record ExecutionPayloadEnvelope (ED BB : Type) : Type := mkEnvelope {
  ExecutionPayload : option ED;
  BlockValue : option Z;
  BlobsBundle : option BB;
  ShouldOverrideBuilder : option bool;
}.
Arguments mkEnvelope {ED BB}.
Arguments ExecutionPayload {ED BB}.
Arguments BlockValue {ED BB}.
Arguments BlobsBundle {ED BB}.
Arguments ShouldOverrideBuilder {ED BB}.

(** What the client takes from the packages it imports (go-ethereum's [api],
    [common], [hexutil] and [types], hive's [typ]): the types it passes
    through and their encodings. *)
Class Collaborators : Type := {
  api_ForkchoiceStateV1 : Type;
  typ_PayloadAttributes : Type;
  api_ForkChoiceResponse : Type;
  api_PayloadID : Type;
  typ_ExecutableData : Type;
  typ_BlobsBundle : Type;
  api_PayloadStatusV1 : Type;
  typ_ExecutionPayloadBodyV1 : Type;
  typ_Transaction : Type;
  ForkchoiceStateV1_Marshaler :: Marshaler api_ForkchoiceStateV1;
  PayloadAttributes_Marshaler :: Marshaler typ_PayloadAttributes;
  ForkChoiceResponse_Unmarshaler :: Unmarshaler api_ForkChoiceResponse;
  PayloadID_Marshaler :: Marshaler api_PayloadID;
  ExecutableData_Marshaler :: Marshaler typ_ExecutableData;
  ExecutableData_Unmarshaler :: Unmarshaler typ_ExecutableData;
  Envelope_Unmarshaler ::
    Unmarshaler (ExecutionPayloadEnvelope typ_ExecutableData typ_BlobsBundle);
  PayloadStatusV1_Unmarshaler :: Unmarshaler api_PayloadStatusV1;
  PayloadBodies_Unmarshaler :: Unmarshaler (list (option typ_ExecutionPayloadBodyV1));
  Capabilities_Unmarshaler :: Unmarshaler (list string);
  (* common.Address and common.Hash on the wire *)
  Address_MarshalJSON : common_Address -> json;
  Hash_MarshalJSON : common_Hash -> json;
  Hash_UnmarshalJSON : json -> common_Hash -> common_Hash * option error;
  HexToHash : string -> common_Hash;
  (* hexutil *)
  hexutil_Encode : list byte -> string;
  hexutil_EncodeBig : Z -> string;
  hexutil_Uint64_MarshalJSON : N -> json;
  (* typ.Transaction *)
  MarshalBinary : typ_Transaction -> list byte * option error;
}.

(** [types.Header], with the fields the client reads. *)
Record types_Header : Type := mkHeader {
  Header_ParentHash : common_Hash;
  Header_Number : Z;
}.

(** Modelled from the spec: [client.BlockHeader] and [client.NewBlockHeader],
    declared in the client package: the header returned by the typed client
    together with the block hash fetched by the raw call, which [Hash()]
    answers. *)
Record BlockHeader : Type := mkBlockHeader {
  ParentHash : common_Hash;
  Number : Z;
  Hash : common_Hash;
}.

(** Modelled from the spec: [client.NewBlockHeader], which pairs the typed
    header with the hash recovered by the raw call. *)
Definition NewBlockHeader (h : types_Header) (blockHash : common_Hash) : BlockHeader :=
  {| ParentHash := Header_ParentHash h; Number := Header_Number h; Hash := blockHash |}.

(** [AccountTransactionInfo]. *)
Record AccountTransactionInfo : Type := mkAccountTransactionInfo {
  PreviousBlock : common_Hash;
  PreviousNonce : N;
}.

(** One message of a batch response: the remote error object, or the raw
    result. *)
Record jsonrpcMessage : Type := mkMessage {
  msg_Error : option error;
  msg_Result : json;
}.

(** What the client's connections answer. Each field is one kind of round
    trip (or, for the clock and the signer, one library call); a Go
    [(value, error)] result is a pair, the value being meaningless when the
    error is not [None]. *)
Record Network : Type := mkNetwork {
  (* time.Now(), as Unix seconds *)
  time_Now : Z;
  (* jwt.NewWithClaims(HS256, {iat}).SignedString(secret) *)
  jwt_SignedString : list byte -> Z -> string * option error;
  (* one call on the engine connection, under the Authorization header set *)
  engine_roundtrip : option string -> string -> list json -> json * option error;
  (* one batch on the eth connection: the batch's own error, and the message
     answering each element by position *)
  eth_batch : list (string * list json) -> option error * (nat -> jsonrpcMessage);
  (* the raw POST of getBlockHash: JSON-RPC method and block parameter *)
  http_getBlockHash : string -> string -> string * option error;
  (* ethclient.Client.BlockByNumber, then Header() *)
  ethclient_BlockByNumber : option Z -> types_Header * option error;
  (* ethclient.Client.NonceAt *)
  ethclient_NonceAt : common_Address -> option Z -> N * option error;
}.

(** What goes out on the wire, in order. *)
Inductive event : Type :=
  | EngineCall (authorization : option string) (method : string) (args : list json)
  | EthBatchCall (elems : list (string * list json))
  | GetBlockHashPost (method : string) (param : string)
  | EthBlockByNumber (number : option Z)
  | EthNonceAt (account : common_Address) (blockNumber : option Z).

(** [rpc.BatchElem]; [Result] points to a [common.Hash] cell, given as the
    cell's index in the store the batch call writes to. *)
Record BatchElem : Type := mkBatchElem {
  Method : string;
  Args : list json;
  Result : nat;
  Error : option error;
}.

(** The end of a call on a connection: a failed round trip leaves the
    target as it was, a raw result is decoded into it. *)
Definition decode_into {T : Type} `{Unmarshaler T} (response : json * option error)
  (result : T) : T * option error :=
  let '(raw, err) := response in
  if err is Some e then (result, Some e) else UnmarshalJSON raw result.

(** The nonce queries among the events of the wire. *)
Definition is_nonce_query (e : event) : bool :=
  match e with
  | EthNonceAt _ _ => true
  | _ => false
  end.

Definition nonce_queries (events : list event) : list event :=
  List.filter is_nonce_query events.

(** The calls on the engine connection among the events of the wire. *)
Definition is_engine_call (e : event) : bool :=
  match e with
  | EngineCall _ _ _ => true
  | _ => false
  end.

Definition engine_calls (events : list event) : list event :=
  List.filter is_engine_call events.

(** [fmt.Sprintf("%d", n)]. *)
Definition itoa (n : Z) : string :=
  DecimalString.NilZero.string_of_int (Z.to_int n).

(** The [Int64] method of a [big.Int], on a value that fits. *)
Definition Int64 (n : Z) : Z :=
  ((n + 2 ^ 63) mod 2 ^ 64 - 2 ^ 63)%Z.

Section Client.
Context `{Collaborators}.
Variable net : Network.

(** [HiveRPCEngineClient]. The connections are [net]; of the engine
    connection the client keeps the header it set. *)
Record HiveRPCEngineClient : Type := mkClient {
  JWTSecretBytes : list byte;
  Authorization : option string;
  latestFcUStateSent : option api_ForkchoiceStateV1;
  latestPAttrSent : option typ_PayloadAttributes;
  latestFcUResponse : option api_ForkChoiceResponse;
  latestPayloadSent : option typ_ExecutableData;
  latestPayloadStatusReponse : option api_PayloadStatusV1;
  accTxInfoMap : gmap common_Address (option AccountTransactionInfo);
}.

(** The client and the wire as a call finds and leaves them. *)
Record World : Type := mkWorld {
  client : HiveRPCEngineClient;
  sent : list event;
}.

Definition M (A : Type) : Type := World -> A * World.

#[export] Instance M_ret : MRet M := fun A a w => (a, w).
#[export] Instance M_bind : MBind M :=
  fun A B f m w => let '(a, w') := m w in f a w'.

Definition get_client : M HiveRPCEngineClient := fun w => (client w, w).

Definition modify_client (f : HiveRPCEngineClient -> HiveRPCEngineClient) : M unit :=
  fun w => (tt, {| client := f (client w); sent := sent w |}).

Definition emit (e : event) : M unit :=
  fun w => (tt, {| client := client w; sent := sent w ++ [e] |}).

Definition set_Authorization (v : option string) (ec : HiveRPCEngineClient) :=
  {| JWTSecretBytes := JWTSecretBytes ec; Authorization := v;
     latestFcUStateSent := latestFcUStateSent ec;
     latestPAttrSent := latestPAttrSent ec;
     latestFcUResponse := latestFcUResponse ec;
     latestPayloadSent := latestPayloadSent ec;
     latestPayloadStatusReponse := latestPayloadStatusReponse ec;
     accTxInfoMap := accTxInfoMap ec |}.

Definition set_latestFcUSent (st : option api_ForkchoiceStateV1)
  (pa : option typ_PayloadAttributes) (ec : HiveRPCEngineClient) :=
  {| JWTSecretBytes := JWTSecretBytes ec; Authorization := Authorization ec;
     latestFcUStateSent := st;
     latestPAttrSent := pa;
     latestFcUResponse := latestFcUResponse ec;
     latestPayloadSent := latestPayloadSent ec;
     latestPayloadStatusReponse := latestPayloadStatusReponse ec;
     accTxInfoMap := accTxInfoMap ec |}.

Definition set_latestFcUResponse (v : option api_ForkChoiceResponse)
  (ec : HiveRPCEngineClient) :=
  {| JWTSecretBytes := JWTSecretBytes ec; Authorization := Authorization ec;
     latestFcUStateSent := latestFcUStateSent ec;
     latestPAttrSent := latestPAttrSent ec;
     latestFcUResponse := v;
     latestPayloadSent := latestPayloadSent ec;
     latestPayloadStatusReponse := latestPayloadStatusReponse ec;
     accTxInfoMap := accTxInfoMap ec |}.

Definition set_latestPayloadSent (v : option typ_ExecutableData)
  (ec : HiveRPCEngineClient) :=
  {| JWTSecretBytes := JWTSecretBytes ec; Authorization := Authorization ec;
     latestFcUStateSent := latestFcUStateSent ec;
     latestPAttrSent := latestPAttrSent ec;
     latestFcUResponse := latestFcUResponse ec;
     latestPayloadSent := v;
     latestPayloadStatusReponse := latestPayloadStatusReponse ec;
     accTxInfoMap := accTxInfoMap ec |}.

Definition set_latestPayloadStatusReponse (v : option api_PayloadStatusV1)
  (ec : HiveRPCEngineClient) :=
  {| JWTSecretBytes := JWTSecretBytes ec; Authorization := Authorization ec;
     latestFcUStateSent := latestFcUStateSent ec;
     latestPAttrSent := latestPAttrSent ec;
     latestFcUResponse := latestFcUResponse ec;
     latestPayloadSent := latestPayloadSent ec;
     latestPayloadStatusReponse := v;
     accTxInfoMap := accTxInfoMap ec |}.

Definition set_accTxInfoMap (m : gmap common_Address (option AccountTransactionInfo))
  (ec : HiveRPCEngineClient) :=
  {| JWTSecretBytes := JWTSecretBytes ec; Authorization := Authorization ec;
     latestFcUStateSent := latestFcUStateSent ec;
     latestPAttrSent := latestPAttrSent ec;
     latestFcUResponse := latestFcUResponse ec;
     latestPayloadSent := latestPayloadSent ec;
     latestPayloadStatusReponse := latestPayloadStatusReponse ec;
     accTxInfoMap := m |}.

(** *** Block and header resolution *)

(** [getBlockHash] as its callers see it when it returns: the raw POST that
    recovers the block hash, the request body given by its method and block
    parameter, and what the function returns. What the function does with the
    response, the panics of its two type assertions included, is
    [getBlockHash_response] below, and [HeaderByNumber_ending] is
    [HeaderByNumber] with them. *)
Definition getBlockHash (method param : string) : M (string * option error) :=
  emit (GetBlockHashPost method param);;
  mret (http_getBlockHash net method param).

Definition Client_BlockByNumber (number : option Z) : M (types_Header * option error) :=
  emit (EthBlockByNumber number);;
  mret (ethclient_BlockByNumber net number).

Definition Client_NonceAt (account : common_Address) (blockNumber : option Z)
  : M (N * option error) :=
  emit (EthNonceAt account blockNumber);;
  mret (ethclient_NonceAt net account blockNumber).

(** The header the methods return next to an error (Go's nil pointer); no
    caller reads it. *)
Definition nil_header : BlockHeader :=
  {| ParentHash := 0; Number := 0%Z; Hash := 0 |}.

(** [HeaderByNumber]. *)
Definition HeaderByNumber (number : option Z) : M (BlockHeader * option error) :=
  let param := match number with
               | None => "latest"
               | Some n => itoa (Int64 n)
               end in
  '(blockHash, err) ← getBlockHash "eth_getBlockByNumber" param;
  if err is Some e then mret (nil_header, Some e) else
  '(byNumber, err) ← Client_BlockByNumber number;
  if err is Some e then mret (nil_header, Some e) else
  mret (NewBlockHeader byNumber (HexToHash blockHash), None).

(** *** Batches on the eth connection *)

Definition set_Error (err : option error) (elem : BatchElem) : BatchElem :=
  {| Method := Method elem; Args := Args elem; Result := Result elem; Error := err |}.

(** How [rpc.Client.BatchCallContext] hands the responses out: element [i]
    takes the remote error of message [i], or decodes the message's result
    into the cell its [Result] points to and keeps the decoding's error. *)
Fixpoint deliver (responses : nat -> jsonrpcMessage) (i : nat)
  (reqs : list BatchElem) (cells : list common_Hash)
  : list BatchElem * list common_Hash :=
  match reqs with
  | [] => ([], cells)
  | elem :: rest =>
      let resp := responses i in
      let '(elem', cells') :=
        match msg_Error resp with
        | Some e => (set_Error (Some e) elem, cells)
        | None =>
            let '(v, err) :=
              Hash_UnmarshalJSON (msg_Result resp) (cells !!! Result elem) in
            (set_Error err elem, <[Result elem := v]> cells)
        end in
      let '(rest', cells'') := deliver responses (S i) rest cells' in
      (elem' :: rest', cells'')
  end.

(** What one element ends with, for a cell holding [cell]: the cell's value
    and the element's error. *)
Definition element_outcome (resp : jsonrpcMessage) (cell : common_Hash)
  : common_Hash * option error :=
  match msg_Error resp with
  | Some e => (cell, Some e)
  | None => Hash_UnmarshalJSON (msg_Result resp) cell
  end.

(** [ec.cEth.BatchCallContext]: one round trip; when it fails as a whole no
    element is touched. *)
Definition BatchCallContext (reqs : list BatchElem) (cells : list common_Hash)
  : M (list BatchElem * list common_Hash * option error) :=
  let wire := map (fun elem => (Method elem, Args elem)) reqs in
  emit (EthBatchCall wire);;
  let '(err, responses) := eth_batch net wire in
  if err is Some e then mret (reqs, cells, Some e) else
  let '(reqs', cells') := deliver responses 0 reqs cells in
  mret (reqs', cells', None).

(** The request [StorageAtKeys] makes for one key. *)
Definition storage_request (account : common_Address) (blockNumberString : string)
  (key : common_Hash) (valueResult : nat) : BatchElem :=
  {| Method := "eth_getStorageAt";
     Args := [Address_MarshalJSON account; Hash_MarshalJSON key;
              JString blockNumberString];
     Result := valueResult;
     Error := None |}.

(** The first loop of [StorageAtKeys]: per key a fresh cell [valueResult], a
    request whose [Result] points to it, and [results[key] = valueResult]. *)
Fixpoint storage_requests (account : common_Address) (blockNumberString : string)
  (keys : list common_Hash) (reqs : list BatchElem)
  (results : gmap common_Hash nat) (cells : list common_Hash)
  : list BatchElem * gmap common_Hash nat * list common_Hash :=
  match keys with
  | [] => (reqs, results, cells)
  | key :: rest =>
      let valueResult := length cells in
      storage_requests account blockNumberString rest
        (reqs ++ [storage_request account blockNumberString key valueResult])
        (<[key := valueResult]> results)
        (cells ++ [0])
  end.

(** The second loop of [StorageAtKeys]: the first request that carries an
    error, with its index. *)
Fixpoint first_failed (i : nat) (reqs : list BatchElem) : option (nat * error) :=
  match reqs with
  | [] => None
  | req :: rest =>
      match Error req with
      | Some e => Some (i, e)
      | None => first_failed (S i) rest
      end
  end.

(** [StorageAtKeys]. The returned map is given with its pointers read;
    [None] is the nil map. *)
Definition StorageAtKeys (account : common_Address) (keys : list common_Hash)
  (blockNumber : option Z)
  : M (option (gmap common_Hash common_Hash) * option error) :=
  let blockNumberString := match blockNumber with
                           | None => "latest"
                           | Some n => hexutil_EncodeBig n
                           end in
  let '(reqs, results, cells) :=
    storage_requests account blockNumberString keys [] ∅ [] in
  '(reqs, cells, err) ← BatchCallContext reqs cells;
  if err is Some e then mret (None, Some e) else
  match first_failed 0 reqs with
  | Some (i, e) =>
      mret (None,
            Some (ErrWrap e ("request for storage at index "
                             ++ itoa (Z.of_nat i) ++ " failed")))
  | None => mret (Some ((fun p => cells !!! p) <$> results), None)
  end.

(** *** JWT tokens *)

(** [GetNewToken]. *)
Definition GetNewToken (jwtSecretBytes : list byte) (iat : Z) : string * option error :=
  let '(tokenString, err) := jwt_SignedString net jwtSecretBytes iat in
  if err is Some e then ("", Some e) else (tokenString, None).

(** [PrepareAuthCallToken]. *)
Definition PrepareAuthCallToken (jwtSecretBytes : list byte) (iat : Z) : M (option error) :=
  let '(newTokenString, err) := GetNewToken jwtSecretBytes iat in
  if err is Some e then mret (Some e) else
  modify_client (set_Authorization (Some ("Bearer " ++ newTokenString)));;
  mret None.

(** [PrepareDefaultAuthCallToken]: the result of [PrepareAuthCallToken] is
    not read. *)
Definition PrepareDefaultAuthCallToken : M (option error) :=
  ec ← get_client;
  _ ← PrepareAuthCallToken (JWTSecretBytes ec) (time_Now net);
  mret None.

(** *** Engine API calls *)

(** [ec.c.CallContext(ctx, &result, method, args...)]: one round trip on the
    engine connection; the raw result is decoded into [result], which stays
    as it was when the round trip fails. *)
Definition CallContext {T : Type} `{Unmarshaler T} (result : T) (method : string)
  (args : list json) : M (T * option error) :=
  ec ← get_client;
  emit (EngineCall (Authorization ec) method args);;
  mret (decode_into (engine_roundtrip net (Authorization ec) method args) result).

(** [ForkchoiceUpdated]. *)
Definition ForkchoiceUpdated (version : Z) (fcState : option api_ForkchoiceStateV1)
  (pAttributes : option typ_PayloadAttributes)
  : M (api_ForkChoiceResponse * option error) :=
  let result : api_ForkChoiceResponse := zero in
  err ← PrepareDefaultAuthCallToken;
  if err is Some e then mret (result, Some e) else
  modify_client (set_latestFcUSent fcState pAttributes);;
  '(result, err) ← CallContext result ("engine_forkchoiceUpdatedV" ++ itoa version)
                     [MarshalJSON fcState; MarshalJSON pAttributes];
  modify_client (set_latestFcUResponse (Some result));;
  mret (result, err).

(** [GetPayload]. *)
Definition GetPayload (version : Z) (payloadId : option api_PayloadID)
  : M (typ_ExecutableData * option Z * option typ_BlobsBundle * option bool
       * option error) :=
  let executableData : typ_ExecutableData := zero in
  let rpcString := "engine_getPayloadV" ++ itoa version in
  err ← PrepareDefaultAuthCallToken;
  if err is Some e then mret (executableData, None, None, None, Some e) else
  if (2 <=? version)%Z then
    '(response, err) ← CallContext
                         (zero : ExecutionPayloadEnvelope typ_ExecutableData typ_BlobsBundle)
                         rpcString [MarshalJSON payloadId];
    let executableData :=
      match ExecutionPayload response with
      | Some p => p
      | None => executableData
      end in
    mret (executableData, BlockValue response, BlobsBundle response,
          ShouldOverrideBuilder response, err)
  else
    '(executableData, err) ← CallContext executableData rpcString [MarshalJSON payloadId];
    mret (executableData, None, None, None, err).

(** [GetPayloadBodiesByRangeV1]. *)
Definition GetPayloadBodiesByRangeV1 (start count : N)
  : M (list (option typ_ExecutionPayloadBodyV1) * option error) :=
  err ← PrepareDefaultAuthCallToken;
  if err is Some e then mret ([], Some e) else
  CallContext (zero : list (option typ_ExecutionPayloadBodyV1))
    "engine_getPayloadBodiesByRangeV1"
    [hexutil_Uint64_MarshalJSON start; hexutil_Uint64_MarshalJSON count].

(** A [[]common.Hash] on the wire. *)
Definition Hashes_MarshalJSON (hashes : slice common_Hash) : json :=
  match hashes with
  | Some hs => JArray (map Hash_MarshalJSON hs)
  | None => JNull
  end.

(** [GetPayloadBodiesByHashV1]. *)
Definition GetPayloadBodiesByHashV1 (hashes : slice common_Hash)
  : M (list (option typ_ExecutionPayloadBodyV1) * option error) :=
  err ← PrepareDefaultAuthCallToken;
  if err is Some e then mret ([], Some e) else
  CallContext (zero : list (option typ_ExecutionPayloadBodyV1))
    "engine_getPayloadBodiesByHashV1"
    [Hashes_MarshalJSON hashes].

(** [NewPayload]; [payload] is any value that encodes to JSON,
    [versionedHashes] a pointer to a slice: the nil pointer is sent as [null],
    and so is a pointer to the nil slice. *)
Definition NewPayload {P : Type} `{Marshaler P} (version : Z) (payload : P)
  (versionedHashes : option (slice common_Hash)) (beaconRoot : option common_Hash)
  : M (api_PayloadStatusV1 * option error) :=
  let result : api_PayloadStatusV1 := zero in
  err ← PrepareDefaultAuthCallToken;
  if err is Some e then mret (result, Some e) else
  '(result, err) ←
    (if (3 <=? version)%Z then
       CallContext result ("engine_newPayloadV" ++ itoa version)
         [MarshalJSON payload;
          from_option Hashes_MarshalJSON JNull versionedHashes;
          from_option Hash_MarshalJSON JNull beaconRoot]
     else
       CallContext result ("engine_newPayloadV" ++ itoa version)
         [MarshalJSON payload]);
  modify_client (set_latestPayloadStatusReponse (Some result));;
  mret (result, err).

(** [NewPayloadV2] and [NewPayloadV3]. *)
Definition NewPayloadV2 (payload : option typ_ExecutableData)
  : M (api_PayloadStatusV1 * option error) :=
  modify_client (set_latestPayloadSent payload);;
  NewPayload 2 payload None None.

Definition NewPayloadV3 (payload : option typ_ExecutableData)
  (versionedHashes : option (slice common_Hash)) (beaconRoot : option common_Hash)
  : M (api_PayloadStatusV1 * option error) :=
  modify_client (set_latestPayloadSent payload);;
  NewPayload 3 payload versionedHashes beaconRoot.

(** [ExchangeCapabilities]. *)
Definition ExchangeCapabilities (clCapabilities : slice string)
  : M (list string * option error) :=
  let result : list string := zero in
  err ← PrepareDefaultAuthCallToken;
  if err is Some e then mret (result, Some e) else
  CallContext result "engine_exchangeCapabilities" [MarshalJSON clCapabilities].

(** *** Account nonces *)

(** The test both nonce accessors make on the cache: an entry for the
    account, not nil, whose block is the head's hash or the head's parent
    hash. *)
Definition up_to_date (ec : HiveRPCEngineClient) (account : common_Address)
  (head : BlockHeader) : option AccountTransactionInfo :=
  match accTxInfoMap ec !! account with
  | Some (Some accTxInfo) =>
      if (PreviousBlock accTxInfo =? Hash head)
         || (PreviousBlock accTxInfo =? ParentHash head)
      then Some accTxInfo else None
  | _ => None
  end.

(** [GetLastAccountNonce]. *)
Definition GetLastAccountNonce (account : common_Address) : M (N * option error) :=
  '(head, err) ← HeaderByNumber None;
  if err is Some e then mret (0, Some e) else
  ec ← get_client;
  match up_to_date ec account head with
  | Some accTxInfo => mret (PreviousNonce accTxInfo, None)
  | None => mret (0, Some (ErrNoPreviousNonce account))
  end.

(** [GetNextAccountNonce]. The entry is updated through its pointer, which
    only the map holds; [PreviousNonce++] wraps as a [uint64]. *)
Definition GetNextAccountNonce (account : common_Address) : M (N * option error) :=
  '(head, err) ← HeaderByNumber None;
  if err is Some e then mret (0, Some e) else
  ec ← get_client;
  match up_to_date ec account head with
  | Some accTxInfo =>
      let accTxInfo :=
        {| PreviousBlock := Hash head;
           PreviousNonce := (PreviousNonce accTxInfo + 1) mod uint64_modulus |} in
      modify_client (fun ec =>
        set_accTxInfoMap (<[account := Some accTxInfo]> (accTxInfoMap ec)) ec);;
      mret (PreviousNonce accTxInfo, None)
  | None =>
      '(nonce, err) ← Client_NonceAt account (Some (Number head));
      if err is Some e then mret (0, Some e) else
      modify_client (fun ec =>
        set_accTxInfoMap
          (<[account := Some {| PreviousBlock := Hash head; PreviousNonce := nonce |}]>
             (accTxInfoMap ec)) ec);;
      mret (nonce, None)
  end.

(** The world once the account's entry is [(block, nonce)]. *)
Definition store_nonce (account : common_Address) (block : common_Hash) (nonce : N)
  (w : World) : World :=
  {| client := set_accTxInfoMap
                 (<[account := Some {| PreviousBlock := block; PreviousNonce := nonce |}]>
                    (accTxInfoMap (client w))) (client w);
     sent := sent w |}.

(** [UpdateNonce]. *)
Definition UpdateNonce (account : common_Address) (newNonce : N) : M (option error) :=
  '(head, err) ← HeaderByNumber None;
  if err is Some e then mret (Some e) else
  modify_client (fun ec =>
    set_accTxInfoMap
      (<[account := Some {| PreviousBlock := Hash head; PreviousNonce := newNonce |}]>
         (accTxInfoMap ec)) ec);;
  mret None.

(** *** Sending transactions *)

(** The first loop of [SendTransactions]: the requests, or the first
    encoding error; request [i] points to [hashes[i]]. *)
Fixpoint transaction_requests (i : nat) (txs : list typ_Transaction)
  : list BatchElem * option error :=
  match txs with
  | [] => ([], None)
  | tx :: rest =>
      let '(data, err) := MarshalBinary tx in
      if err is Some e then ([], Some e) else
      let '(reqs, err) := transaction_requests (S i) rest in
      ({| Method := "eth_sendRawTransaction";
          Args := [JString (hexutil_Encode data)];
          Result := i;
          Error := None |} :: reqs, err)
  end.

(** [SendTransactions]. The slice [errs] is filled from the elements and
    the function returns nil. *)
Definition SendTransactions (txs : list typ_Transaction) : M (list (option error)) :=
  let hashes : list common_Hash := replicate (length txs) 0 in
  let '(reqs, err) := transaction_requests 0 txs in
  if err is Some e then mret [Some e] else
  '(reqs, hashes, err) ← BatchCallContext reqs hashes;
  if err is Some e then mret [Some e] else
  let errs : list (option error) := map Error reqs in
  mret [].

End Client.

(** *** The rest of the client *)

(** How a call that can panic ends. *)
Inductive ending (A : Type) : Type :=
  | Returns (a : A)
  | Panics (v : error).
Arguments Returns {A}.
Arguments Panics {A}.

(** [getEnodeForClient]. The byte at [len-1] is read first: on the empty
    string the index is out of range and the call panics. *)
Definition getEnodeForClient (enodeString : string) : ending string :=
  match String.get (String.length enodeString - 1)%nat enodeString with
  | None => Panics (ErrExternal "index out of range [-1]")
  | Some last =>
      let enodeString :=
        if Ascii.eqb last ","
        then substring 0 (String.length enodeString - 1)%nat enodeString
        else enodeString in
      Returns ("[" ++ enodeString ++ "]")
  end.

(** The block tags: [Head] is the nil number. *)
Definition Pending : Z := (-2)%Z.
Definition Finalized : Z := (-3)%Z.
Definition Safe : Z := (-4)%Z.

(** [hivesim.Client], with the fields the client reads. *)
Record hivesim_Client : Type := mkHivesimClient {
  Container : string;
  IP : string;
}.

(** [TD] and [TotalDifficultyHeader]: a header and, beside it, the total
    difficulty, a pointer that stays nil when the document has no such
    field. *)
Record TD : Type := mkTD {
  TotalDifficulty : option Z;
}.

Record TotalDifficultyHeader : Type := mkTotalDifficultyHeader {
  tdh_Header : types_Header;
  tdh_TD : TD;
}.

(** [HiveRPCEngineStarter]. *)
Record HiveRPCEngineStarter : Type := mkStarter {
  ClientType : string;
  ChainFile : string;
  TerminalTotalDifficulty : option Z;
  EnginePort : Z;
  EthPort : Z;
  JWTSecret : option (list byte);
}.

(** [strings.Split(s, "_")[0]]: what precedes the first underscore. *)
Fixpoint before_underscore (s : string) : string :=
  match s with
  | EmptyString => EmptyString
  | String c rest =>
      if Ascii.eqb c "_" then EmptyString else String c (before_underscore rest)
  end.

(** The loop of [StartClient] over the boot clients: the enode of each, up
    to the first that fails. *)
Fixpoint boot_enodes (bootClients : list (string * option error))
  : list string * option error :=
  match bootClients with
  | [] => ([], None)
  | (enode, err) :: rest =>
      if err is Some e then ([], Some e) else
      let '(enodes, err) := boot_enodes rest in
      (enode :: enodes, err)
  end.

(** How the HTTP exchange of [getBlockHash] goes: [http.Post] fails; or the
    body of the response is no JSON document, and the decoder reports it; or
    the body is a JSON document. *)
Inductive http_exchange : Type :=
  | PostFailed (err : error)
  | BodyUnreadable (err : error)
  | BodyDocument (doc : json).

(** [json.Decode] into a nil [map[string]interface{}]: an object gives its
    members, [null] leaves the map nil, any other document is an error. *)
Definition decode_responseData (doc : json) : list (string * json) * option error :=
  match doc with
  | JObject members => (members, None)
  | JNull => ([], None)
  | _ =>
      ([], Some (ErrExternal
                   "json: cannot unmarshal into Go value of type map[string]interface {}"))
  end.

(** Indexing the decoded map; of members of the same name the last one is
    the one the map holds. *)
Fixpoint map_index (name : string) (members : list (string * json)) : option json :=
  match members with
  | [] => None
  | (k, v) :: rest =>
      match map_index name rest with
      | Some v' => Some v'
      | None => if String.eqb k name then Some v else None
      end
  end.

(** [getBlockHash], from the exchange on. The two type assertions are
    unchecked: [responseData["result"].(map[string]interface{})] panics
    unless the response has a member [result] that is an object, and
    [blockData["hash"].(string)] unless that object has a member [hash] that
    is a string. *)
Definition getBlockHash_response (exchange : http_exchange)
  : ending (string * option error) :=
  match exchange with
  | PostFailed err => Returns ("", Some err)
  | BodyUnreadable err => Returns ("", Some err)
  | BodyDocument doc =>
      let '(responseData, err) := decode_responseData doc in
      if err is Some e then Returns ("", Some e) else
      match map_index "result" responseData with
      | Some (JObject blockData) =>
          match map_index "hash" blockData with
          | Some (JString blockHash) => Returns (blockHash, None)
          | _ => Panics (ErrExternal "interface conversion: interface {} is not string")
          end
      | _ =>
          Panics (ErrExternal
                    "interface conversion: interface {} is not map[string]interface {}")
      end
  end.

Section Rest.
Context `{Collaborators}.
Variable net : Network.

(** [HeaderByNumber], given how the exchange of its raw fetch goes: a panic
    of [getBlockHash] ends the call. *)
Definition HeaderByNumber_ending (exchange : http_exchange) (number : option Z)
  (w : World) : ending ((BlockHeader * option error) * World) :=
  let param := match number with
               | None => "latest"
               | Some n => itoa (Int64 n)
               end in
  let w := (emit (GetBlockHashPost "eth_getBlockByNumber" param) w).2 in
  match getBlockHash_response exchange with
  | Panics v => Panics v
  | Returns (blockHash, Some e) => Returns ((nil_header, Some e), w)
  | Returns (blockHash, None) =>
      let '((byNumber, err), w) := Client_BlockByNumber net number w in
      if err is Some e then Returns ((nil_header, Some e), w) else
      Returns ((NewBlockHeader byNumber (HexToHash blockHash), None), w)
  end.

(** [toBlockNumArg]. *)
Definition toBlockNumArg (number : option Z) : string :=
  match number with
  | None => "latest"
  | Some number =>
      if (number =? Pending)%Z then "pending"
      else if (number =? Finalized)%Z then "finalized"
      else if (number =? Safe)%Z then "safe"
      else hexutil_EncodeBig number
  end.

(** [GetBlobsBundleV1]; the bundle returned is never nil. *)
Definition GetBlobsBundleV1 `{Unmarshaler typ_BlobsBundle}
  (payloadId : option api_PayloadID) : M (option typ_BlobsBundle * option error) :=
  let result : typ_BlobsBundle := zero in
  err ← PrepareDefaultAuthCallToken net;
  if err is Some e then mret (None, Some e) else
  '(result, err) ← CallContext net result "engine_getBlobsBundleV1"
                     [MarshalJSON payloadId];
  mret (Some result, err).

(** [GetPayloadV1], [GetPayloadV2] and [GetPayloadV3]. *)
Definition GetPayloadV1 (payloadId : option api_PayloadID)
  : M (typ_ExecutableData * option error) :=
  '(ed, _, _, _, err) ← GetPayload net 1 payloadId;
  mret (ed, err).

Definition GetPayloadV2 (payloadId : option api_PayloadID)
  : M (typ_ExecutableData * option Z * option error) :=
  '(ed, bv, _, _, err) ← GetPayload net 2 payloadId;
  mret (ed, bv, err).

Definition GetPayloadV3 (payloadId : option api_PayloadID)
  : M (typ_ExecutableData * option Z * option typ_BlobsBundle * option bool
       * option error) :=
  GetPayload net 3 payloadId.

(** [ExchangeTransitionConfigurationV1]: no token is prepared. *)
Definition ExchangeTransitionConfigurationV1 {TC : Type} `{Marshaler TC}
  `{Unmarshaler TC} (tConf : option TC) : M (TC * option error) :=
  let result : TC := zero in
  CallContext net result "engine_exchangeTransitionConfigurationV1" [MarshalJSON tConf].

(** The accessors of the latest values kept. *)
Definition LatestForkchoiceSent (ec : HiveRPCEngineClient)
  : option api_ForkchoiceStateV1 * option typ_PayloadAttributes :=
  (latestFcUStateSent ec, latestPAttrSent ec).

Definition LatestNewPayloadSent (ec : HiveRPCEngineClient) : option typ_ExecutableData :=
  latestPayloadSent ec.

Definition LatestForkchoiceResponse (ec : HiveRPCEngineClient)
  : option api_ForkChoiceResponse :=
  latestFcUResponse ec.

Definition LatestNewPayloadResponse (ec : HiveRPCEngineClient)
  : option api_PayloadStatusV1 :=
  latestPayloadStatusReponse ec.

(** [TotalDifficultyHeader.UnmarshalJSON]: the same document is decoded into
    the header, then into the total difficulty; the two decoders are those of
    [types.Header] and of the [TD] struct. *)
Variable Header_UnmarshalJSON : json -> types_Header -> types_Header * option error.
Variable TD_UnmarshalJSON : json -> TD -> TD * option error.

Definition TotalDifficultyHeader_UnmarshalJSON (data : json)
  (tdh : TotalDifficultyHeader) : TotalDifficultyHeader * option error :=
  let '(header, err) := Header_UnmarshalJSON data (tdh_Header tdh) in
  let tdh := {| tdh_Header := header; tdh_TD := tdh_TD tdh |} in
  if err is Some e then (tdh, Some e) else
  let '(td, err) := TD_UnmarshalJSON data (tdh_TD tdh) in
  let tdh := {| tdh_Header := tdh_Header tdh; tdh_TD := td |} in
  if err is Some e then (tdh, Some e) else
  (tdh, None).

(** [json.Unmarshal] into the nil pointer [td]: [null] leaves it nil, any
    other document allocates the header and hands the document to its
    [UnmarshalJSON]. *)
Definition unmarshal_td_pointer (raw : json)
  : option TotalDifficultyHeader * option error :=
  match raw with
  | JNull => (None, None)
  | _ =>
      let '(tdh, err) :=
        TotalDifficultyHeader_UnmarshalJSON raw
          {| tdh_Header := {| Header_ParentHash := 0; Header_Number := 0%Z |};
             tdh_TD := {| TotalDifficulty := None |} |} in
      (Some tdh, err)
  end.

(** [GetTotalDifficulty], given what the eth connection answers to
    [eth_getBlockByNumber("latest", false)]. Reading the field of a nil [td]
    panics; [ToInt] of a nil total difficulty is nil. *)
Definition GetTotalDifficulty (answer : json * option error)
  : ending (option Z * option error) :=
  let '(raw, err) := answer in
  let '(td, err) :=
    if err is Some e then (None, Some e) else unmarshal_td_pointer raw in
  if err is Some e then Returns (None, Some e) else
  match td with
  | None => Panics (ErrExternal "invalid memory address or nil pointer dereference")
  | Some td => Returns (TotalDifficulty (tdh_TD td), None)
  end.

End Rest.

(** *** Construction and start *)

(** What the start of a client takes from the test harness and from the
    packages around it, for a genesis type [G] and a start option type [O]. A
    launch that fails ends the test inside the harness and is not
    represented. *)
Record Harness (G O : Type) : Type := mkHarness {
  rpc_DialOptions : string -> option error;
  globals_EnginePortHTTP : Z;
  globals_EthPortHTTP : Z;
  globals_DefaultJwtTokenSecretBytes : list byte;
  (* T.Sim.ClientTypes(): the names of the client definitions *)
  Sim_ClientTypes : list string * option error;
  (* new(big.Int).SetString(s, 10) *)
  big_SetString : string -> option Z;
  (* helper.Genesis.Difficulty and helper.GenesisStartOptionBasedOnClient *)
  Difficulty : G -> Z;
  GenesisStartOptionBasedOnClient : G -> string -> O * option error;
  (* T.StartClient(clientType, genesisStart, params, WithStaticFiles(files)) *)
  T_StartClient : string -> O -> gmap string string -> gmap string string -> hivesim_Client;
  (* CheckEthEngineLive: what the polling of the two ports ends with *)
  CheckEthEngineLive : hivesim_Client -> option error;
}.
Arguments rpc_DialOptions {G O}.
Arguments globals_EnginePortHTTP {G O}.
Arguments globals_EthPortHTTP {G O}.
Arguments globals_DefaultJwtTokenSecretBytes {G O}.
Arguments Sim_ClientTypes {G O}.
Arguments big_SetString {G O}.
Arguments Difficulty {G O}.
Arguments GenesisStartOptionBasedOnClient {G O}.
Arguments T_StartClient {G O}.
Arguments CheckEthEngineLive {G O}.

(** What [StartClient] asked the harness to launch. *)
Record Launch (O : Type) : Type := mkLaunch {
  launch_clientType : string;
  launch_genesisStart : O;
  launch_params : gmap string string;
  launch_files : gmap string string;
}.
Arguments mkLaunch {O}.
Arguments launch_clientType {O}.
Arguments launch_genesisStart {O}.
Arguments launch_params {O}.
Arguments launch_files {O}.

Section Start.
Context `{Collaborators}.
Context {G O : Type}.
Variable harness : Harness G O.

(** The client with what its constructor keeps beside it. *)
Record EngineClient : Type := mkEngineClient {
  ec_client : HiveRPCEngineClient;
  ec_h : hivesim_Client;
  ec_ttd : option Z;
}.

(** [NewHiveRPCEngineClient]: a failed dial panics. *)
Definition NewHiveRPCEngineClient (h : hivesim_Client) (enginePort ethPort : Z)
  (jwtSecretBytes : list byte) (ttd : option Z) : ending EngineClient :=
  match rpc_DialOptions harness ("http://" ++ IP h ++ ":" ++ itoa enginePort ++ "/") with
  | Some err => Panics err
  | None =>
      match rpc_DialOptions harness ("http://" ++ IP h ++ ":" ++ itoa ethPort ++ "/") with
      | Some err => Panics err
      | None =>
          Returns {| ec_client := {| JWTSecretBytes := jwtSecretBytes;
                                     Authorization := None;
                                     latestFcUStateSent := None;
                                     latestPAttrSent := None;
                                     latestFcUResponse := None;
                                     latestPayloadSent := None;
                                     latestPayloadStatusReponse := None;
                                     accTxInfoMap := ∅ |};
                     ec_h := h;
                     ec_ttd := ttd |}
      end
  end.

(** [ID], [Url] and [TerminalTotalDifficulty]. *)
Definition ID (ec : EngineClient) : string := Container (ec_h ec).

Definition Url (ec : EngineClient) : string * option error :=
  ("http://" ++ IP (ec_h ec) ++ ":8545", None).

Definition ec_TerminalTotalDifficulty (ec : EngineClient) : option Z := ec_ttd ec.

(** [HiveRPCEngineStarter.StartClient]. The result carries, beside the
    client and the error, the launch when one was asked for. An error built
    with [fmt.Errorf("...: %v", err)] is [ErrWrap err] with the text before
    the colon. *)
Definition StartClient (s : HiveRPCEngineStarter) (genesis : G)
  (ClientParams ClientFiles : gmap string string)
  (bootClients : list (string * option error))
  : ending (option (Launch O) * option EngineClient * option error) :=
  let clientType := ClientType s in
  let enginePort := EnginePort s in
  let ethPort := EthPort s in
  let jwtSecret := JWTSecret s in
  let ttd := TerminalTotalDifficulty s in
  let '(cs, err) := Sim_ClientTypes harness in
  let missing_client_type :=
    if String.eqb clientType "" then
      match err, cs with
      | Some e, _ =>
          Some (ErrWrap e "client type was not supplied and simulator returned error on trying to get all client types")
      | None, [] =>
          Some (ErrExternal "client type was not supplied and simulator returned empty client types: []")
      | None, _ :: _ => None
      end
    else None in
  if missing_client_type is Some e then Returns (None, None, Some e) else
  let clientType := if String.eqb clientType "" then default "" (head cs) else clientType in
  let enginePort :=
    if (enginePort =? 0)%Z then globals_EnginePortHTTP harness else enginePort in
  let ethPort := if (ethPort =? 0)%Z then globals_EthPortHTTP harness else ethPort in
  let jwtSecret := default (globals_DefaultJwtTokenSecretBytes harness) jwtSecret in
  let ClientFiles :=
    if String.eqb (ChainFile s) "" then ClientFiles
    else <["/chain.rlp" := "./chains/" ++ ChainFile s]> ClientFiles in
  let ttd_parsed : option Z * bool :=
    match ttd with
    | None =>
        match ClientParams !! "HIVE_TERMINAL_TOTAL_DIFFICULTY" with
        | Some ttdStr =>
            match big_SetString harness ttdStr with
            | Some v => (Some v, true)
            | None => (None, false)
            end
        | None => (None, true)
        end
    | Some _ => (Some (Difficulty harness genesis), true)
    end in
  let '(ttd, ok) := ttd_parsed in
  if negb ok
  then Returns (None, None, Some (ErrExternal "unable to parse TTD from parameters"))
  else
  let boot : gmap string string * option error :=
    match bootClients with
    | [] => (ClientParams, None)
    | _ :: _ =>
        let '(enodes, err) := boot_enodes bootClients in
        if err is Some e then (ClientParams, Some (ErrWrap e "unable to obtain bootnode"))
        else (<["HIVE_BOOTNODE" := String.concat "," enodes]> ClientParams, None)
    end in
  let '(ClientParams, err) := boot in
  if err is Some e then Returns (None, None, Some e) else
  match cs with
  | [] => Panics (ErrExternal "index out of range [0] with length 0")
  | first :: _ =>
      let clientName := before_underscore first in
      let '(genesisStart, err) :=
        GenesisStartOptionBasedOnClient harness genesis clientName in
      if err is Some e then Returns (None, None, Some e) else
      let launch := {| launch_clientType := clientType;
                       launch_genesisStart := genesisStart;
                       launch_params := ClientParams;
                       launch_files := ClientFiles |} in
      let c := T_StartClient harness clientType genesisStart ClientParams ClientFiles in
      if CheckEthEngineLive harness c is Some e
      then Returns (Some launch, None,
                    Some (ErrWrap e "Engine/Eth ports were never open for client"))
      else
      match NewHiveRPCEngineClient c enginePort ethPort jwtSecret ttd with
      | Panics v => Panics v
      | Returns ec => Returns (Some launch, Some ec, None)
      end
  end.

End Start.

End hive_rpc.

(** ** Concrete inputs used by the examples *)

Module examples.
Import cancun.

(** The EIP-4788 address and the DATAHASH range of the test suite. *)
Definition beacon_roots_address : common_Address :=
  BigToAddress 0x000F3df6D732807Ef1319fB7B8bB8522d0Beac02.
Definition datahash_start : Z := 0x100.
Definition datahash_count : Z := 1000.

Definition funded_account : GenesisAccount :=
  {| Code := []; Storage := ∅; Balance := Some 1000000%Z; Nonce := 7 |}.

Definition no_shanghai : Genesis :=
  {| Config := {| ShanghaiTime := None; CancunTime := None |};
     Timestamp := 0; BlobGasUsed := None; ExcessBlobGas := None; Alloc := ∅ |}.

Definition shanghai_at (t : N) (alloc : gmap common_Address GenesisAccount) : Genesis :=
  {| Config := {| ShanghaiTime := Some t; CancunTime := None |};
     Timestamp := 0; BlobGasUsed := None; ExcessBlobGas := None; Alloc := alloc |}.


(** A small world for the client: every passed-through type is its JSON
    document. *)
Import hive_rpc.

Fixpoint member (name : string) (members : list (string * json)) : option json :=
  match members with
  | [] => None
  | (k, v) :: rest => if String.eqb k name then Some v else member name rest
  end.

Definition accept_any : Unmarshaler json :=
  {| zero := JNull; UnmarshalJSON := fun raw _ => (raw, None) |}.

Definition decode_envelope : Unmarshaler (ExecutionPayloadEnvelope json json) :=
  {| zero := mkEnvelope None None None None;
     UnmarshalJSON := fun raw target =>
       match raw with
       | JObject members =>
           ({| ExecutionPayload := member "executionPayload" members;
               BlockValue := match member "blockValue" members with
                             | Some (JNumber n) => Some n
                             | _ => None
                             end;
               BlobsBundle := member "blobsBundle" members;
               ShouldOverrideBuilder :=
                 match member "shouldOverrideBuilder" members with
                 | Some (JBool b) => Some b
                 | _ => None
                 end |}, None)
       | _ => (target, Some (ErrExternal "json: cannot unmarshal into envelope"))
       end |}.

Definition decode_bodies : Unmarshaler (list (option json)) :=
  {| zero := [];
     UnmarshalJSON := fun raw target =>
       match raw with
       | JArray items =>
           (map (fun x => match x with JNull => None | _ => Some x end) items, None)
       | _ => (target, Some (ErrExternal "json: cannot unmarshal into bodies"))
       end |}.

Definition decode_strings : Unmarshaler (list string) :=
  {| zero := [];
     UnmarshalJSON := fun raw target =>
       match raw with
       | JArray items =>
           (omap (fun x => match x with JString s => Some s | _ => None end) items, None)
       | _ => (target, Some (ErrExternal "json: cannot unmarshal into strings"))
       end |}.

Definition hex (n : N) : string :=
  "0x" ++ HexadecimalString.NilZero.string_of_uint (N.to_hex_uint n).

Definition unhex (s : string) : option N :=
  match s with
  | String "0" (String "x" digits) =>
      N.of_hex_uint <$> HexadecimalString.NilZero.uint_of_string digits
  | _ => None
  end.

Definition decode_hash (raw : json) (target : common_Hash) : common_Hash * option error :=
  match raw with
  | JString s =>
      match unhex s with
      | Some h => (h, None)
      | None => (target, Some (ErrExternal "invalid hex string"))
      end
  | _ => (target, Some (ErrExternal "json: cannot unmarshal non-string into hash"))
  end.

Definition hex_byte (b : byte) : string :=
  let n := Byte.to_N b in
  HexadecimalString.NilZero.string_of_uint (N.to_hex_uint (n / 16))
  ++ HexadecimalString.NilZero.string_of_uint (N.to_hex_uint (n mod 16)).

(** A transaction is its encoding; [None] is one that cannot be encoded. *)
#[export] Instance json_world : Collaborators :=
  {| api_ForkchoiceStateV1 := json;
     typ_PayloadAttributes := json;
     api_ForkChoiceResponse := json;
     api_PayloadID := json;
     typ_ExecutableData := json;
     typ_BlobsBundle := json;
     api_PayloadStatusV1 := json;
     typ_ExecutionPayloadBodyV1 := json;
     typ_Transaction := option (list byte);
     ForkchoiceStateV1_Marshaler := fun j => j;
     PayloadAttributes_Marshaler := fun j => j;
     ForkChoiceResponse_Unmarshaler := accept_any;
     PayloadID_Marshaler := fun j => j;
     ExecutableData_Marshaler := fun j => j;
     ExecutableData_Unmarshaler := accept_any;
     Envelope_Unmarshaler := decode_envelope;
     PayloadStatusV1_Unmarshaler := accept_any;
     PayloadBodies_Unmarshaler := decode_bodies;
     Capabilities_Unmarshaler := decode_strings;
     Address_MarshalJSON := fun a => JString (hex a);
     Hash_MarshalJSON := fun h => JString (hex h);
     Hash_UnmarshalJSON := decode_hash;
     HexToHash := fun s => default 0 (unhex s);
     hexutil_Encode := fun data => "0x" ++ String.concat "" (map hex_byte data);
     hexutil_EncodeBig := fun z =>
       if (z <? 0)%Z then "-" ++ hex (Z.abs_N z) else hex (Z.abs_N z);
     hexutil_Uint64_MarshalJSON := fun n => JString (hex n);
     MarshalBinary := fun tx =>
       match tx with
       | Some data => (data, None)
       | None => ([], Some (ErrExternal "transaction type not supported"))
       end |}.

(** A chain  G <- P <- A <- C <- D  and the header of each block. *)
Definition hash_G : common_Hash := 0xa0.
Definition hash_P : common_Hash := 0xa1.
Definition hash_A : common_Hash := 0xa2.
Definition hash_C : common_Hash := 0xa3.
Definition hash_D : common_Hash := 0xa4.

Definition block_P : BlockHeader := {| ParentHash := hash_G; Number := 1; Hash := hash_P |}.
Definition block_A : BlockHeader := {| ParentHash := hash_P; Number := 2; Hash := hash_A |}.
Definition block_C : BlockHeader := {| ParentHash := hash_A; Number := 3; Hash := hash_C |}.
Definition block_D : BlockHeader := {| ParentHash := hash_C; Number := 4; Hash := hash_D |}.

Definition signer_ok (secret : list byte) (iat : Z) : string * option error :=
  ("token." ++ itoa iat, None).

Definition signer_failing (secret : list byte) (iat : Z) : string * option error :=
  ("", Some (ErrExternal "the requested hash function is unavailable")).

(** An engine endpoint that answers every call with the same document. *)
Definition engine_answering (doc : json) (auth : option string) (method : string)
  (args : list json) : json * option error :=
  (doc, None).

(** A batch endpoint whose round trip succeeds and answers element [i] with
    [answers i]. *)
Definition batch_answering (answers : nat -> jsonrpcMessage)
  (elems : list (string * list json)) : option error * (nat -> jsonrpcMessage) :=
  (None, answers).

Definition batch_unreachable (elems : list (string * list json))
  : option error * (nat -> jsonrpcMessage) :=
  (Some (ErrExternal "connection refused"), fun _ => mkMessage None JNull).

(** A network whose head is [head] and where every account's nonce is
    [nonce]. *)
Definition network (signer : list byte -> Z -> string * option error)
  (engine : option string -> string -> list json -> json * option error)
  (batch : list (string * list json) -> option error * (nat -> jsonrpcMessage))
  (head : BlockHeader) (nonce : N) : Network :=
  {| time_Now := 1700000000;
     jwt_SignedString := signer;
     engine_roundtrip := engine;
     eth_batch := batch;
     http_getBlockHash := fun _ _ => (hex (Hash head), None);
     ethclient_BlockByNumber := fun _ =>
       ({| Header_ParentHash := ParentHash head; Header_Number := Number head |}, None);
     ethclient_NonceAt := fun _ _ => (nonce, None) |}.

Definition fresh_client : HiveRPCEngineClient :=
  {| JWTSecretBytes := [Byte.x73; Byte.x65; Byte.x63];
     Authorization := None;
     latestFcUStateSent := None;
     latestPAttrSent := None;
     latestFcUResponse := None;
     latestPayloadSent := None;
     latestPayloadStatusReponse := None;
     accTxInfoMap := ∅ |}.

Definition alice : common_Address := 0xa11ce.

(** A client that cached nonce 5 for [alice] at block A. *)
Definition client_at_A : HiveRPCEngineClient :=
  set_accTxInfoMap
    {[ alice := Some {| PreviousBlock := hash_A; PreviousNonce := 5 |} ]} fresh_client.

Definition world_of (ec : HiveRPCEngineClient) : World :=
  {| client := ec; sent := [] |}.

Definition answers_ok (i : nat) : jsonrpcMessage :=
  mkMessage None (JString (hex (N.of_nat (100 + i)))).

(** Element 1 comes back with a remote error, the others with a value. *)
Definition answers_second_fails (msg : string) (i : nat) : jsonrpcMessage :=
  match i with
  | 1%nat => mkMessage (Some (ErrExternal msg)) JNull
  | _ => answers_ok i
  end.

(** The network with the head at [head], a working signer, and nonce 9 for
    every account. *)
Definition network_at (head : BlockHeader) : Network :=
  network signer_ok (engine_answering JNull) (batch_answering answers_ok) head 9.

Definition network_batch (batch : list (string * list json)
                                  -> option error * (nat -> jsonrpcMessage)) : Network :=
  network signer_ok (engine_answering JNull) batch block_C 9.

Definition envelope_doc : json :=
  JObject [ ("executionPayload", JString "payload");
            ("blockValue", JNumber 42);
            ("blobsBundle", JString "blobs");
            ("shouldOverrideBuilder", JBool false) ].

Definition network_engine (signer : list byte -> Z -> string * option error)
  (doc : json) : Network :=
  network signer (engine_answering doc) (batch_answering answers_ok) block_C 9.

Definition payload_id : option api_PayloadID := Some (JString "0x0000000000000001").

Definition two_transactions : list typ_Transaction :=
  [Some [Byte.x01]; Some [Byte.x02]].

(** An endpoint that is down: every fetch fails. *)
Definition network_down : Network :=
  {| time_Now := 1700000000;
     jwt_SignedString := signer_ok;
     engine_roundtrip := engine_answering JNull;
     eth_batch := batch_unreachable;
     http_getBlockHash := fun _ _ => ("", Some (ErrExternal "connection refused"));
     ethclient_BlockByNumber := fun _ =>
       ({| Header_ParentHash := 0; Header_Number := 0 |},
        Some (ErrExternal "connection refused"));
     ethclient_NonceAt := fun _ _ => (0, Some (ErrExternal "connection refused")) |}.

Definition bob : common_Address := 0xb0b.




(** A harness for the start of a client. The genesis is its difficulty and a
    start option is the name of the client it is for; the simulator lists
    [types]; every dial succeeds; the container launched is named after its
    client type; the liveness check ends with [live]. *)
Definition harness_with (types : list string) (live : option error) : Harness Z string :=
  {| rpc_DialOptions := fun _ => None;
     globals_EnginePortHTTP := 8551;
     globals_EthPortHTTP := 8545;
     globals_DefaultJwtTokenSecretBytes := [Byte.x73; Byte.x65; Byte.x63];
     Sim_ClientTypes := (types, None);
     big_SetString := fun s => Z.of_int <$> DecimalString.NilZero.int_of_string s;
     Difficulty := fun genesis => genesis;
     GenesisStartOptionBasedOnClient := fun _ name => (name, None);
     T_StartClient := fun clientType _ _ _ =>
       {| Container := clientType; IP := "172.17.0.2" |};
     CheckEthEngineLive := fun _ => live |}.

Definition container : hivesim_Client := {| Container := "c1"; IP := "172.17.0.2" |}.

(** A starter that names its client type, a chain file and a terminal total
    difficulty, and leaves the ports and the secret to the defaults. *)
Definition starter_besu : HiveRPCEngineStarter :=
  {| ClientType := "besu";
     ChainFile := "blocks.rlp";
     TerminalTotalDifficulty := Some 5%Z;
     EnginePort := 0;
     EthPort := 0;
     JWTSecret := None |}.

(** Two boot clients, by what their [EnodeURL] answers. *)
Definition two_boot_clients : list (string * option error) :=
  [("enode://a", None); ("enode://b", None)].

Definition client_types : list string := ["go-ethereum_latest"; "besu"].

Definition deadline : error := ErrExternal "context deadline exceeded".

(** What the starter above has launched, given the parameters of the launch,
    and the clients constructed for the container above and for the launched
    one. *)
Definition launch_besu (params : gmap string string) : Launch string :=
  {| launch_clientType := "besu";
     launch_genesisStart := "go-ethereum";
     launch_params := params;
     launch_files := {[ "/chain.rlp" := "./chains/blocks.rlp" ]} |}.

Definition bootnode_params : gmap string string :=
  {[ "HIVE_BOOTNODE" := "enode://a,enode://b" ]}.

Definition client_c1 : EngineClient :=
  {| ec_client := fresh_client; ec_h := container; ec_ttd := Some 5%Z |}.

Definition client_besu : EngineClient :=
  {| ec_client := fresh_client;
     ec_h := {| Container := "besu"; IP := "172.17.0.2" |};
     ec_ttd := Some 7%Z |}.

End examples.

(** ** Genesis configuration: theorems *)

Section cancun_facts.
Import cancun.
Variable BEACON_ROOTS_ADDRESS : common_Address.
Variable DATAHASH_START_ADDRESS : Z.
Variable DATAHASH_ADDRESS_COUNT : Z.

Local Abbreviation ConfigGenesis := (cancun.ConfigGenesis BEACON_ROOTS_ADDRESS).
Local Abbreviation datahash_address := (cancun.datahash_address DATAHASH_START_ADDRESS).
Local Abbreviation datahash_loop := (cancun.datahash_loop DATAHASH_START_ADDRESS).
Local Abbreviation ConfigTestAccounts :=
  (cancun.ConfigTestAccounts DATAHASH_START_ADDRESS DATAHASH_ADDRESS_COUNT).

Lemma ConfigGenesis_no_shanghai genesis forkTimestamp :
  ShanghaiTime (Config genesis) = None ->
  ConfigGenesis genesis forkTimestamp = (genesis, Some ErrRequiresShanghai).
Proof. intros Hs. unfold cancun.ConfigGenesis. now rewrite Hs. Qed.

Lemma ConfigGenesis_shanghai_later genesis forkTimestamp shanghai :
  ShanghaiTime (Config genesis) = Some shanghai ->
  forkTimestamp < shanghai ->
  ConfigGenesis genesis forkTimestamp
  = (set_CancunTime (Some forkTimestamp) genesis, Some ErrMustBeAfterShanghai).
Proof.
  intros Hs Hlt. unfold cancun.ConfigGenesis. rewrite Hs.
  apply N.ltb_lt in Hlt. now rewrite Hlt.
Qed.

Lemma ConfigGenesis_success genesis forkTimestamp shanghai :
  ShanghaiTime (Config genesis) = Some shanghai ->
  shanghai <= forkTimestamp ->
  exists genesis',
    ConfigGenesis genesis forkTimestamp = (genesis', None)
    /\ Config genesis' = {| ShanghaiTime := Some shanghai; CancunTime := Some forkTimestamp |}
    /\ Timestamp genesis' = Timestamp genesis
    /\ Alloc genesis' = <[BEACON_ROOTS_ADDRESS := beacon_roots_account]> (Alloc genesis).
Proof.
  intros Hs Hle. unfold cancun.ConfigGenesis. rewrite Hs.
  apply N.ltb_ge in Hle. rewrite Hle. cbn zeta.
  eexists. split; [reflexivity|].
  destruct genesis as [[sh ca] ts bgu ebg alloc]; cbn in *.
  destruct (forkTimestamp <=? ts); [destruct bgu, ebg|]; cbn; rewrite ?Hs; auto.
Qed.

(** The DATAHASH loop only adds entries: whatever the outcome, an entry
    present before is present, unchanged, after. *)
Lemma datahash_loop_preserves indices : forall genesis genesis' out,
  datahash_loop indices genesis = (genesis', out) ->
  forall a acct, Alloc genesis !! a = Some acct -> Alloc genesis' !! a = Some acct.
Proof.
  induction indices as [|i rest IH]; intros genesis genesis' out Hrun a acct Ha.
  - cbn in Hrun. now inversion Hrun; subst.
  - cbn [cancun.datahash_loop] in Hrun. cbn zeta in Hrun.
    destruct (Alloc genesis !! datahash_address i) eqn:Hi.
    + now inversion Hrun; subst.
    + eapply IH; [exact Hrun|]. cbn.
      rewrite lookup_insert_ne; [exact Ha|]. intros Heq. subst a. congruence.
Qed.

(** The loop panics as soon as an index it visits names an address that is
    present. *)
Lemma datahash_loop_panics indices : forall genesis i,
  i ∈ indices -> is_Some (Alloc genesis !! datahash_address i) ->
  exists genesis' j,
    datahash_loop indices genesis
    = (genesis', Panicked (ErrReusedAddress (datahash_address j)))
    /\ j ∈ indices.
Proof.
  induction indices as [|k rest IH]; intros genesis i Hin Hpresent.
  - inversion Hin.
  - cbn [cancun.datahash_loop]. cbn zeta.
    destruct (Alloc genesis !! datahash_address k) eqn:Hk.
    + exists genesis, k. split; [reflexivity|left].
    + apply elem_of_cons in Hin as [->|Hin].
      { rewrite Hk in Hpresent. now destruct Hpresent. }
      destruct (IH (set_Alloc (<[datahash_address k := datahash_account]> (Alloc genesis))
                      genesis) i Hin) as (g' & j & Hrun & Hj).
      { cbn. destruct (decide (datahash_address k = datahash_address i)) as [->|Hne].
        - rewrite lookup_insert_eq. eauto.
        - rewrite lookup_insert_ne by exact Hne. exact Hpresent. }
      exists g', j. split; [exact Hrun|now right].
Qed.

(** When no address of the range is present and the range does not wrap
    onto itself, the loop returns and adds exactly the fixture accounts. *)
Lemma datahash_loop_returns indices : forall genesis,
  NoDup (datahash_address <$> indices) ->
  (forall i, i ∈ indices -> Alloc genesis !! datahash_address i = None) ->
  exists genesis',
    datahash_loop indices genesis = (genesis', Returned None)
    /\ (forall i, i ∈ indices -> Alloc genesis' !! datahash_address i = Some datahash_account)
    /\ (forall a, a ∉ datahash_address <$> indices -> Alloc genesis' !! a = Alloc genesis !! a).
Proof.
  induction indices as [|k rest IH]; intros genesis Hnd Hfree.
  - exists genesis. cbn. repeat split; auto. intros i Hi. inversion Hi.
  - cbn [cancun.datahash_loop]. cbn zeta. rewrite (Hfree k) by left.
    rewrite fmap_cons in Hnd. apply NoDup_cons in Hnd as [Hk Hnd].
    destruct (IH (set_Alloc (<[datahash_address k := datahash_account]> (Alloc genesis))
                    genesis) Hnd) as (g' & Hrun & Hadded & Hother).
    { intros i Hi. cbn. rewrite lookup_insert_ne.
      - apply Hfree. now right.
      - intros Heq. apply Hk. rewrite Heq. now apply list_elem_of_fmap_2. }
    exists g'. split; [exact Hrun|]. split.
    + intros i Hi. apply elem_of_cons in Hi as [->|Hi]; [|now apply Hadded].
      rewrite Hother by exact Hk. cbn. now rewrite lookup_insert_eq.
    + intros a Ha. rewrite fmap_cons in Ha. apply not_elem_of_cons in Ha as [Hne Ha].
      rewrite Hother by exact Ha. cbn. now rewrite lookup_insert_ne.
Qed.

Lemma ConfigGenesis_nil_error_alloc genesis forkTimestamp :
  (ConfigGenesis genesis forkTimestamp).2 = None ->
  Alloc (ConfigGenesis genesis forkTimestamp).1
  = <[BEACON_ROOTS_ADDRESS := beacon_roots_account]> (Alloc genesis).
Proof.
  intros Hok.
  destruct (ShanghaiTime (Config genesis)) as [shanghai|] eqn:Hs.
  - destruct (N.lt_ge_cases forkTimestamp shanghai) as [Hlt|Hge].
    + rewrite (ConfigGenesis_shanghai_later _ _ _ Hs Hlt) in Hok. discriminate.
    + destruct (ConfigGenesis_success _ _ _ Hs Hge) as (g' & -> & _ & _ & Halloc).
      exact Halloc.
  - rewrite (ConfigGenesis_no_shanghai _ _ Hs) in Hok. discriminate.
Qed.

(** C8. [ConfigGenesis] returns an error when the Shanghai time is unset,
    returns an error when the Shanghai time is strictly later than the
    requested Cancun time, and otherwise returns no error and leaves the
    Cancun time set to the requested value. *)
Theorem ConfigGenesis_fork_prerequisites genesis forkTimestamp :
  (ShanghaiTime (Config genesis) = None ->
     (ConfigGenesis genesis forkTimestamp).2 = Some ErrRequiresShanghai)
  /\ (forall shanghai,
        ShanghaiTime (Config genesis) = Some shanghai -> forkTimestamp < shanghai ->
        (ConfigGenesis genesis forkTimestamp).2 = Some ErrMustBeAfterShanghai)
  /\ (forall shanghai,
        ShanghaiTime (Config genesis) = Some shanghai -> shanghai <= forkTimestamp ->
        (ConfigGenesis genesis forkTimestamp).2 = None
        /\ CancunTime (Config (ConfigGenesis genesis forkTimestamp).1) = Some forkTimestamp).
Proof.
  split; [|split].
  - intros Hs. now rewrite ConfigGenesis_no_shanghai.
  - intros shanghai Hs Hlt. now rewrite (ConfigGenesis_shanghai_later _ _ _ Hs Hlt).
  - intros shanghai Hs Hle.
    destruct (ConfigGenesis_success _ _ _ Hs Hle) as (g' & -> & Hcfg & _).
    cbn. now rewrite Hcfg.
Qed.

(** C10. On the fork-ordering error the genesis has already been written:
    the call returns the input with its Cancun time set to the requested
    value, so an input whose Cancun time was anything else comes back
    changed. *)
Theorem ConfigGenesis_fork_order_error_mutates genesis forkTimestamp shanghai :
  ShanghaiTime (Config genesis) = Some shanghai ->
  forkTimestamp < shanghai ->
  (ConfigGenesis genesis forkTimestamp).2 = Some ErrMustBeAfterShanghai
  /\ (ConfigGenesis genesis forkTimestamp).1 = set_CancunTime (Some forkTimestamp) genesis
  /\ CancunTime (Config (ConfigGenesis genesis forkTimestamp).1) = Some forkTimestamp
  /\ (CancunTime (Config genesis) <> Some forkTimestamp ->
      (ConfigGenesis genesis forkTimestamp).1 <> genesis).
Proof.
  intros Hs Hlt. rewrite (ConfigGenesis_shanghai_later _ _ _ Hs Hlt). cbn.
  repeat split. intros Hne Heq. apply Hne. rewrite <- Heq at 1. reflexivity.
Qed.

(** C9, as amended. [ConfigTestAccounts] panics with the reused-address
    error when an address of the DATAHASH range is already present, and every
    entry present before is still there, unchanged, when it does.
    [ConfigGenesis] makes no such test: whenever it returns no error the
    beacon-roots address holds the pre-deploy, whatever the allocation held
    there before. *)
Theorem fixture_addresses_checked_only_for_datahash genesis :
  (forall i, (0 <= i < DATAHASH_ADDRESS_COUNT)%Z ->
     is_Some (Alloc genesis !! datahash_address i) ->
     exists genesis' j,
       ConfigTestAccounts genesis
       = (genesis', Panicked (ErrReusedAddress (datahash_address j)))
       /\ (0 <= j < DATAHASH_ADDRESS_COUNT)%Z
       /\ forall a acct, Alloc genesis !! a = Some acct -> Alloc genesis' !! a = Some acct)
  /\ (forall forkTimestamp,
        (ConfigGenesis genesis forkTimestamp).2 = None ->
        Alloc (ConfigGenesis genesis forkTimestamp).1 !! BEACON_ROOTS_ADDRESS
        = Some beacon_roots_account).
Proof.
  split.
  - intros i Hi Hpresent.
    destruct (datahash_loop_panics (seqZ 0 DATAHASH_ADDRESS_COUNT) genesis i)
      as (g' & j & Hrun & Hj); [apply elem_of_seqZ; lia | exact Hpresent |].
    exists g', j. split; [exact Hrun|]. split; [apply elem_of_seqZ in Hj; lia|].
    exact (datahash_loop_preserves _ _ _ _ Hrun).
  - intros forkTimestamp Hok. rewrite ConfigGenesis_nil_error_alloc by exact Hok.
    apply lookup_insert_eq.
Qed.

(** X4. [ConfigTestAccounts] on a genesis that holds no address of the DATAHASH
    range, the addresses of the range being distinct: it returns nil, every
    address of the range holds the DATAHASH account, and every other address
    holds what it held. *)
Theorem ConfigTestAccounts_adds_fixtures genesis :
  NoDup (datahash_address <$> seqZ 0 DATAHASH_ADDRESS_COUNT) ->
  (forall i, (0 <= i < DATAHASH_ADDRESS_COUNT)%Z ->
     Alloc genesis !! datahash_address i = None) ->
  (ConfigTestAccounts genesis).2 = Returned None
  /\ (forall i, (0 <= i < DATAHASH_ADDRESS_COUNT)%Z ->
        Alloc (ConfigTestAccounts genesis).1 !! datahash_address i
        = Some datahash_account)
  /\ (forall a, (forall i, (0 <= i < DATAHASH_ADDRESS_COUNT)%Z -> a <> datahash_address i) ->
        Alloc (ConfigTestAccounts genesis).1 !! a = Alloc genesis !! a).
Proof.
  intros Hnd Hfree. unfold cancun.ConfigTestAccounts.
  destruct (datahash_loop_returns (seqZ 0 DATAHASH_ADDRESS_COUNT) genesis Hnd)
    as (g' & Hrun & Hadded & Hother).
  { intros i Hi. apply Hfree. apply elem_of_seqZ in Hi. lia. }
  rewrite Hrun. cbn. split; [reflexivity|]. split.
  - intros i Hi. apply Hadded. apply elem_of_seqZ. lia.
  - intros a Ha. apply Hother. intros Hin.
    apply list_elem_of_fmap in Hin as (i & -> & Hi).
    apply elem_of_seqZ in Hi. apply (Ha i); [lia | reflexivity].
Qed.

(** X5. On success [ConfigGenesis] gives a genesis whose timestamp is at or past
    the fork time its two blob-gas fields, zero where they were unset, and
    leaves them alone otherwise. *)
Theorem ConfigGenesis_blob_gas_fields genesis forkTimestamp :
  (ConfigGenesis genesis forkTimestamp).2 = None ->
  (forkTimestamp <= Timestamp genesis ->
     BlobGasUsed (ConfigGenesis genesis forkTimestamp).1
     = Some (default 0 (BlobGasUsed genesis))
     /\ ExcessBlobGas (ConfigGenesis genesis forkTimestamp).1
        = Some (default 0 (ExcessBlobGas genesis)))
  /\ (Timestamp genesis < forkTimestamp ->
      BlobGasUsed (ConfigGenesis genesis forkTimestamp).1 = BlobGasUsed genesis
      /\ ExcessBlobGas (ConfigGenesis genesis forkTimestamp).1 = ExcessBlobGas genesis).
Proof.
  unfold cancun.ConfigGenesis.
  destruct genesis as [[[shanghai|] cancun] ts used excess alloc]; cbn; [|discriminate].
  destruct (forkTimestamp <? shanghai); [discriminate|]. intros _. split.
  - intros Hle. apply N.leb_le in Hle. rewrite Hle. now destruct used, excess.
  - intros Hlt. apply N.leb_gt in Hlt. now rewrite Hlt.
Qed.

End cancun_facts.

Section cancun_examples.
Import cancun examples.

Lemma ConfigGenesis_fork_prerequisites_witness :
  (ConfigGenesis beacon_roots_address no_shanghai 10).2 = Some ErrRequiresShanghai
  /\ (ConfigGenesis beacon_roots_address (shanghai_at 20 ∅) 10).2
     = Some ErrMustBeAfterShanghai
  /\ ((ConfigGenesis beacon_roots_address (shanghai_at 5 ∅) 10).2 = None
      /\ CancunTime (Config (ConfigGenesis beacon_roots_address (shanghai_at 5 ∅) 10).1)
         = Some 10).
Proof.
  split; [|split].
  - apply (ConfigGenesis_fork_prerequisites beacon_roots_address no_shanghai 10).
    reflexivity.
  - apply (proj1 (proj2 (ConfigGenesis_fork_prerequisites
                           beacon_roots_address (shanghai_at 20 ∅) 10)) 20);
      [reflexivity | lia].
  - apply (proj2 (proj2 (ConfigGenesis_fork_prerequisites
                           beacon_roots_address (shanghai_at 5 ∅) 10)) 5);
      [reflexivity | lia].
Defined.

Lemma ConfigGenesis_fork_order_error_mutates_witness :
  (ConfigGenesis beacon_roots_address (shanghai_at 20 ∅) 10).2
  = Some ErrMustBeAfterShanghai
  /\ CancunTime (Config (shanghai_at 20 ∅)) = None
  /\ CancunTime (Config (ConfigGenesis beacon_roots_address (shanghai_at 20 ∅) 10).1)
     = Some 10
  /\ (ConfigGenesis beacon_roots_address (shanghai_at 20 ∅) 10).1 <> shanghai_at 20 ∅.
Proof.
  destruct (ConfigGenesis_fork_order_error_mutates
              beacon_roots_address (shanghai_at 20 ∅) 10 20) as (He & _ & Hc & Hne);
    [reflexivity | lia |].
  split; [exact He|]. split; [reflexivity|]. split; [exact Hc|].
  apply Hne. discriminate.
Defined.

(** C9, the claim as stated fails for the beacon-roots address: a genesis
    that already allocates that address is accepted by [ConfigGenesis], and
    the entry that was there is replaced. *)
Lemma ConfigGenesis_overwrites_present_entry :
  Alloc (shanghai_at 5 {[ beacon_roots_address := funded_account ]})
    !! beacon_roots_address = Some funded_account
  /\ (ConfigGenesis beacon_roots_address
        (shanghai_at 5 {[ beacon_roots_address := funded_account ]}) 10).2 = None
  /\ Alloc (ConfigGenesis beacon_roots_address
              (shanghai_at 5 {[ beacon_roots_address := funded_account ]}) 10).1
       !! beacon_roots_address = Some beacon_roots_account
  /\ beacon_roots_account <> funded_account.
Proof.
  split; [apply lookup_singleton_eq|].
  split; [reflexivity|].
  split; [apply lookup_insert_eq|].
  discriminate.
Qed.

Lemma fixture_addresses_checked_only_for_datahash_witness :
  (exists genesis' j,
     ConfigTestAccounts datahash_start datahash_count
       (shanghai_at 5 {[ datahash_address datahash_start 3 := funded_account ]})
     = (genesis', Panicked (ErrReusedAddress (datahash_address datahash_start j)))
     /\ (0 <= j < datahash_count)%Z
     /\ forall a acct,
          Alloc (shanghai_at 5 {[ datahash_address datahash_start 3 := funded_account ]})
            !! a = Some acct ->
          Alloc genesis' !! a = Some acct)
  /\ Alloc (ConfigGenesis beacon_roots_address
              (shanghai_at 5 {[ datahash_address datahash_start 3 := funded_account ]})
              10).1 !! beacon_roots_address = Some beacon_roots_account.
Proof.
  split.
  - apply (proj1 (fixture_addresses_checked_only_for_datahash
                    beacon_roots_address datahash_start datahash_count
                    (shanghai_at 5 {[ datahash_address datahash_start 3 := funded_account ]}))
             3%Z).
    + unfold datahash_count. lia.
    + exists funded_account. apply lookup_singleton_eq.
  - apply (proj2 (fixture_addresses_checked_only_for_datahash
                    beacon_roots_address datahash_start datahash_count
                    (shanghai_at 5 {[ datahash_address datahash_start 3 := funded_account ]}))
             10).
    reflexivity.
Defined.

Lemma ConfigTestAccounts_adds_fixtures_witness :
  (ConfigTestAccounts datahash_start 3 (shanghai_at 5 ∅)).2 = Returned None
  /\ Alloc (ConfigTestAccounts datahash_start 3 (shanghai_at 5 ∅)).1
       !! datahash_address datahash_start 2 = Some datahash_account.
Proof.
  destruct (ConfigTestAccounts_adds_fixtures datahash_start 3 (shanghai_at 5 ∅))
    as (Hret & Hadded & _).
  - apply (bool_decide_unpack _). vm_compute. reflexivity.
  - intros i _. apply lookup_empty.
  - split; [exact Hret|]. apply Hadded. lia.
Defined.

Lemma ConfigGenesis_blob_gas_fields_witness :
  BlobGasUsed (ConfigGenesis beacon_roots_address (shanghai_at 0 ∅) 0).1 = Some 0
  /\ ExcessBlobGas (ConfigGenesis beacon_roots_address (shanghai_at 0 ∅) 0).1 = Some 0.
Proof.
  apply (proj1 (ConfigGenesis_blob_gas_fields beacon_roots_address (shanghai_at 0 ∅) 0
                  eq_refl)).
  cbn. lia.
Defined.

End cancun_examples.

(** ** The Engine-API client: theorems *)

Section hive_rpc_facts.
Import hive_rpc.
Local Open Scope list_scope.
Context `{Collaborators}.
Variable net : Network.

(** Running a bind is running its two halves in turn. *)
Lemma run_bind {A B : Type} (m : M A) (f : A -> M B) (w : World) :
  (m ≫= f) w = f (m w).1 (m w).2.
Proof. unfold mbind, M_bind. now destruct (m w). Qed.

Lemma run_ret {A : Type} (a : A) (w : World) : (mret a : M A) w = (a, w).
Proof. reflexivity. Qed.

Lemma nonce_queries_app (l1 l2 : list event) :
  nonce_queries (l1 ++ l2) = nonce_queries l1 ++ nonce_queries l2.
Proof. apply List.filter_app. Qed.

Lemma engine_calls_app (l1 l2 : list event) :
  engine_calls (l1 ++ l2) = engine_calls l1 ++ engine_calls l2.
Proof. apply List.filter_app. Qed.

(** *** Fetching the head *)

(** [HeaderByNumber] leaves the client alone and only adds its own two kinds
    of events to the wire. *)
Ltac run_M :=
  unfold mbind, M_bind, mret, M_ret, emit, get_client, modify_client in *; cbn in *.

Lemma HeaderByNumber_frame (number : option Z) (w : World) :
  client (HeaderByNumber net number w).2 = client w
  /\ exists events,
       sent (HeaderByNumber net number w).2 = sent w ++ events
       /\ nonce_queries events = []
       /\ engine_calls events = [].
Proof.
  unfold HeaderByNumber, getBlockHash, Client_BlockByNumber. run_M.
  destruct (http_getBlockHash net _ _) as [blockHash [e|]]; cbn.
  - split; [reflexivity|]. eexists. split; [reflexivity|]. now split.
  - destruct (ethclient_BlockByNumber net number) as [byNumber [e|]]; cbn.
    all: split; [reflexivity|].
    all: eexists; rewrite <- app_assoc; split; [reflexivity | now split].
Qed.

Lemma up_to_date_Some (ec : HiveRPCEngineClient) account head info :
  up_to_date ec account head = Some info <->
  accTxInfoMap ec !! account = Some (Some info)
  /\ (PreviousBlock info = Hash head \/ PreviousBlock info = ParentHash head).
Proof.
  unfold up_to_date.
  destruct (accTxInfoMap ec !! account) as [[accTxInfo|]|] eqn:Hm.
  - destruct (PreviousBlock accTxInfo =? Hash head) eqn:E1;
      destruct (PreviousBlock accTxInfo =? ParentHash head) eqn:E2; cbn;
      rewrite ?N.eqb_eq, ?N.eqb_neq in *;
      (split; [intros [= <-]; auto | intros [[= <-] Hv]; try reflexivity]).
    destruct Hv; congruence.
  - split; [discriminate | intros [[=] _]].
  - split; [discriminate | intros [[=] _]].
Qed.

Lemma up_to_date_None (ec : HiveRPCEngineClient) account head :
  up_to_date ec account head = None <->
  ~ exists info,
      accTxInfoMap ec !! account = Some (Some info)
      /\ (PreviousBlock info = Hash head \/ PreviousBlock info = ParentHash head).
Proof.
  split.
  - intros Hn (info & Hinfo). apply up_to_date_Some in Hinfo. congruence.
  - intros Hn. destruct (up_to_date ec account head) as [info|] eqn:Hu; [|reflexivity].
    exfalso. apply Hn. exists info. now apply up_to_date_Some.
Qed.


(** *** The nonce accessors, as functions of the head fetched *)

Lemma GetLastAccountNonce_unfold account (w : World) :
  GetLastAccountNonce net account w
  = let '(head, err, w1) := HeaderByNumber net None w in
    match err with
    | Some e => (0, Some e, w1)
    | None =>
        match up_to_date (client w1) account head with
        | Some accTxInfo => (PreviousNonce accTxInfo, None, w1)
        | None => (0, Some (ErrNoPreviousNonce account), w1)
        end
    end.
Proof.
  unfold GetLastAccountNonce. rewrite run_bind.
  destruct (HeaderByNumber net None w) as [[head [e|]] w1]; cbn; [reflexivity|].
  rewrite run_bind. cbn. now destruct (up_to_date (client w1) account head).
Qed.

Lemma GetNextAccountNonce_unfold account (w : World) :
  GetNextAccountNonce net account w
  = let '(head, err, w1) := HeaderByNumber net None w in
    match err with
    | Some e => (0, Some e, w1)
    | None =>
        match up_to_date (client w1) account head with
        | Some accTxInfo =>
            let next := (PreviousNonce accTxInfo + 1) mod uint64_modulus in
            (next, None, store_nonce account (Hash head) next w1)
        | None =>
            let w2 := {| client := client w1;
                         sent := sent w1 ++ [EthNonceAt account (Some (Number head))] |} in
            match ethclient_NonceAt net account (Some (Number head)) with
            | (_, Some e) => (0, Some e, w2)
            | (nonce, None) => (nonce, None, store_nonce account (Hash head) nonce w2)
            end
        end
    end.
Proof.
  unfold GetNextAccountNonce. rewrite run_bind.
  destruct (HeaderByNumber net None w) as [[head [e|]] w1]; cbn; [reflexivity|].
  rewrite run_bind. cbn.
  destruct (up_to_date (client w1) account head) as [info|]; [reflexivity|].
  unfold Client_NonceAt. run_M.
  now destruct (ethclient_NonceAt net account (Some (Number head))) as [nonce [e|]].
Qed.

(** C7. [GetLastAccountNonce] leaves the client, and with it the
    account-nonce map, as it found it, issues no nonce query, and, the head
    fetched being [head], answers either the cached nonce or the
    no-previous-nonce error: the error exactly when the map has no entry for
    the account whose block is the head's hash or the head's parent hash. *)
Theorem GetLastAccountNonce_read_only account (w : World) :
  accTxInfoMap (client (GetLastAccountNonce net account w).2) = accTxInfoMap (client w)
  /\ client (GetLastAccountNonce net account w).2 = client w
  /\ nonce_queries (sent (GetLastAccountNonce net account w).2) = nonce_queries (sent w)
  /\ forall head,
       (HeaderByNumber net None w).1 = (head, None) ->
       ((GetLastAccountNonce net account w).1.2 = Some (ErrNoPreviousNonce account)
        <-> ~ exists info,
              accTxInfoMap (client w) !! account = Some (Some info)
              /\ (PreviousBlock info = Hash head \/ PreviousBlock info = ParentHash head))
       /\ (forall info,
             accTxInfoMap (client w) !! account = Some (Some info) ->
             PreviousBlock info = Hash head \/ PreviousBlock info = ParentHash head ->
             (GetLastAccountNonce net account w).1 = (PreviousNonce info, None))
       /\ ((GetLastAccountNonce net account w).1.2 = None
           \/ (GetLastAccountNonce net account w).1.2 = Some (ErrNoPreviousNonce account)).
Proof.
  rewrite GetLastAccountNonce_unfold.
  destruct (HeaderByNumber_frame None w) as [Hclient (events & Hsent & Hq & _)].
  destruct (HeaderByNumber net None w) as [[head0 err] w1]. cbn in Hclient, Hsent.
  assert (Hframe : forall r, client (r, w1).2 = client w
                             /\ nonce_queries (sent (r : N * option error, w1).2)
                                = nonce_queries (sent w)).
  { intros r. cbn. split; [exact Hclient|].
    rewrite Hsent, nonce_queries_app, Hq. apply app_nil_r. }
  assert (Hgoal : forall r : N * option error,
            accTxInfoMap (client (r, w1).2) = accTxInfoMap (client w)
            /\ client (r, w1).2 = client w
            /\ nonce_queries (sent (r, w1).2) = nonce_queries (sent w)).
  { intros r. destruct (Hframe r) as [Hc Hs]. cbn in *. now rewrite Hc. }
  destruct err as [e|].
  - destruct (Hgoal (0, Some e)) as (? & ? & ?). repeat (split; [assumption|]).
    intros head [= _ Hcontra].
  - rewrite Hclient.
    destruct (up_to_date (client w) account head0) as [info0|] eqn:Hu.
    + destruct (Hgoal (PreviousNonce info0, None)) as (? & ? & ?).
      repeat (split; [assumption|]). intros head [= <-]. cbn.
      split; [|split].
      * split; [discriminate|]. intros Hn. exfalso.
        apply up_to_date_None in Hn. congruence.
      * intros info Hm Hv.
        assert (up_to_date (client w) account head0 = Some info)
          by now apply up_to_date_Some.
        congruence.
      * now left.
    + destruct (Hgoal (0, Some (ErrNoPreviousNonce account))) as (? & ? & ?).
      repeat (split; [assumption|]). intros head [= <-]. cbn.
      split; [|split].
      * split; [intros _; now apply up_to_date_None | reflexivity].
      * intros info Hm Hv.
        assert (up_to_date (client w) account head0 = Some info)
          by now apply up_to_date_Some.
        congruence.
      * now right.
Qed.

(** The cache answers: the entry's block is the head's hash or the head's
    parent hash. *)
Lemma GetNextAccountNonce_hit account (w : World) head headA N :
  (HeaderByNumber net None w).1 = (head, None) ->
  accTxInfoMap (client w) !! account
  = Some (Some {| PreviousBlock := headA; PreviousNonce := N |}) ->
  headA = Hash head \/ headA = ParentHash head ->
  (GetNextAccountNonce net account w).1 = ((N + 1) mod uint64_modulus, None)
  /\ accTxInfoMap (client (GetNextAccountNonce net account w).2)
     = <[account := Some {| PreviousBlock := Hash head;
                            PreviousNonce := (N + 1) mod uint64_modulus |}]>
         (accTxInfoMap (client w))
  /\ nonce_queries (sent (GetNextAccountNonce net account w).2)
     = nonce_queries (sent w).
Proof.
  intros Hhead Hm Hv. rewrite GetNextAccountNonce_unfold.
  destruct (HeaderByNumber_frame None w) as [Hclient (events & Hsent & Hq & _)].
  destruct (HeaderByNumber net None w) as [[head0 err] w1].
  cbn in Hclient, Hsent, Hhead. injection Hhead as -> ->.
  unfold store_nonce. cbn [client sent]. rewrite !Hclient.
  assert (Hu : up_to_date (client w) account head
               = Some {| PreviousBlock := headA; PreviousNonce := N |})
    by now apply up_to_date_Some.
  rewrite Hu. cbn. repeat split.
  rewrite Hsent, nonce_queries_app, Hq. apply app_nil_r.
Qed.

(** The cache does not answer: one nonce query goes out, at the head's
    number, and its answer is returned and stored. *)
Lemma GetNextAccountNonce_miss account (w : World) head :
  (HeaderByNumber net None w).1 = (head, None) ->
  (~ exists info,
       accTxInfoMap (client w) !! account = Some (Some info)
       /\ (PreviousBlock info = Hash head \/ PreviousBlock info = ParentHash head)) ->
  nonce_queries (sent (GetNextAccountNonce net account w).2)
  = nonce_queries (sent w) ++ [EthNonceAt account (Some (Number head))]
  /\ forall nonce,
       ethclient_NonceAt net account (Some (Number head)) = (nonce, None) ->
       (GetNextAccountNonce net account w).1 = (nonce, None)
       /\ accTxInfoMap (client (GetNextAccountNonce net account w).2)
          = <[account := Some {| PreviousBlock := Hash head; PreviousNonce := nonce |}]>
              (accTxInfoMap (client w)).
Proof.
  intros Hhead Hnone. rewrite GetNextAccountNonce_unfold.
  destruct (HeaderByNumber_frame None w) as [Hclient (events & Hsent & Hq & _)].
  destruct (HeaderByNumber net None w) as [[head0 err] w1].
  cbn in Hclient, Hsent, Hhead. injection Hhead as -> ->.
  assert (Hqs : nonce_queries (sent w1) = nonce_queries (sent w)).
  { rewrite Hsent, nonce_queries_app, Hq. apply app_nil_r. }
  unfold store_nonce. cbn [client sent]. rewrite !Hclient.
  apply up_to_date_None in Hnone. rewrite Hnone.
  destruct (ethclient_NonceAt net account (Some (Number head))) as [n [e|]]; cbn;
    rewrite nonce_queries_app, Hqs; (split; [reflexivity|]).
  - intros nonce [=].
  - now intros nonce [= <-].
Qed.

(** C1, as amended. The head fetched being [head]: when the map holds
    [(headA, N)] for the account and [headA] is the head's hash or the head's
    parent hash, [GetNextAccountNonce] answers [N+1] (as a [uint64]), leaves
    [(Hash head, N+1)] in the map and issues no nonce query; when the map
    holds no such entry it issues one nonce query at the head's number and,
    the query answering [nonce], answers [nonce] and leaves
    [(Hash head, nonce)] in the map. *)
Theorem GetNextAccountNonce_cache_policy account (w : World) head :
  (HeaderByNumber net None w).1 = (head, None) ->
  (forall headA N,
     accTxInfoMap (client w) !! account
     = Some (Some {| PreviousBlock := headA; PreviousNonce := N |}) ->
     headA = Hash head \/ headA = ParentHash head ->
     (GetNextAccountNonce net account w).1 = ((N + 1) mod uint64_modulus, None)
     /\ accTxInfoMap (client (GetNextAccountNonce net account w).2)
        = <[account := Some {| PreviousBlock := Hash head;
                               PreviousNonce := (N + 1) mod uint64_modulus |}]>
            (accTxInfoMap (client w))
     /\ nonce_queries (sent (GetNextAccountNonce net account w).2)
        = nonce_queries (sent w))
  /\ ((~ exists info,
         accTxInfoMap (client w) !! account = Some (Some info)
         /\ (PreviousBlock info = Hash head \/ PreviousBlock info = ParentHash head)) ->
      nonce_queries (sent (GetNextAccountNonce net account w).2)
      = nonce_queries (sent w) ++ [EthNonceAt account (Some (Number head))]
      /\ forall nonce,
           ethclient_NonceAt net account (Some (Number head)) = (nonce, None) ->
           (GetNextAccountNonce net account w).1 = (nonce, None)
           /\ accTxInfoMap (client (GetNextAccountNonce net account w).2)
              = <[account := Some {| PreviousBlock := Hash head;
                                     PreviousNonce := nonce |}]>
                  (accTxInfoMap (client w))).
Proof.
  intros Hhead. split.
  - intros headA N Hm Hv. exact (GetNextAccountNonce_hit account w head headA N Hhead Hm Hv).
  - intros Hnone. exact (GetNextAccountNonce_miss account w head Hhead Hnone).
Qed.

(** What [HeaderByNumber] answers depends on the network alone. *)
Lemma HeaderByNumber_answer number (w w' : World) :
  (HeaderByNumber net number w).1 = (HeaderByNumber net number w').1.
Proof.
  unfold HeaderByNumber, getBlockHash, Client_BlockByNumber. run_M.
  destruct (http_getBlockHash net _ _) as [blockHash [e|]]; cbn; [reflexivity|].
  now destruct (ethclient_BlockByNumber net number) as [byNumber [e|]].
Qed.

(** After a [GetNextAccountNonce] that answered [nonce] with the head at
    [head], the map holds [(Hash head, nonce)] for the account. *)
Lemma GetNextAccountNonce_entry account (w : World) head nonce :
  (HeaderByNumber net None w).1 = (head, None) ->
  (GetNextAccountNonce net account w).1 = (nonce, None) ->
  accTxInfoMap (client (GetNextAccountNonce net account w).2) !! account
  = Some (Some {| PreviousBlock := Hash head; PreviousNonce := nonce |}).
Proof.
  intros Hhead. rewrite GetNextAccountNonce_unfold.
  destruct (HeaderByNumber net None w) as [[head0 err] w1].
  cbn in Hhead. injection Hhead as -> ->.
  destruct (up_to_date (client w1) account head) as [info|].
  - cbn. intros [= <-]. apply lookup_insert_eq.
  - destruct (ethclient_NonceAt net account (Some (Number head))) as [n [e|]]; cbn.
    + discriminate.
    + intros [= <-]. apply lookup_insert_eq.
Qed.

Lemma GetLastAccountNonce_hit account (w : World) head info :
  (HeaderByNumber net None w).1 = (head, None) ->
  accTxInfoMap (client w) !! account = Some (Some info) ->
  PreviousBlock info = Hash head \/ PreviousBlock info = ParentHash head ->
  (GetLastAccountNonce net account w).1 = (PreviousNonce info, None).
Proof.
  intros Hhead Hm Hv. rewrite GetLastAccountNonce_unfold.
  destruct (HeaderByNumber_frame None w) as [Hclient _].
  destruct (HeaderByNumber net None w) as [[head0 err] w1].
  cbn in Hclient, Hhead. injection Hhead as -> ->. rewrite Hclient.
  assert (Hu : up_to_date (client w) account head = Some info)
    by now apply up_to_date_Some.
  now rewrite Hu.
Qed.

Lemma UpdateNonce_entry account newNonce (w : World) head :
  (HeaderByNumber net None w).1 = (head, None) ->
  (UpdateNonce net account newNonce w).1 = None
  /\ accTxInfoMap (client (UpdateNonce net account newNonce w).2) !! account
     = Some (Some {| PreviousBlock := Hash head; PreviousNonce := newNonce |}).
Proof.
  intros Hhead. unfold UpdateNonce. rewrite run_bind.
  destruct (HeaderByNumber net None w) as [[head0 err] w1].
  cbn in Hhead. injection Hhead as -> ->. cbn. split; [reflexivity|].
  apply lookup_insert_eq.
Qed.

(** *** The auth token *)

(** [PrepareAuthCallToken] hands a signing failure back and leaves the
    header as it was. *)
Lemma PrepareAuthCallToken_signing_failure secret iat (w : World) tok e :
  jwt_SignedString net secret iat = (tok, Some e) ->
  PrepareAuthCallToken net secret iat w = (Some e, w).
Proof.
  intros Hsign. unfold PrepareAuthCallToken, GetNewToken. now rewrite Hsign.
Qed.

(** [PrepareDefaultAuthCallToken] answers nil whatever the signer did, and
    sends nothing. *)
Lemma PrepareDefaultAuthCallToken_nil (w : World) :
  (PrepareDefaultAuthCallToken net w).1 = None
  /\ sent (PrepareDefaultAuthCallToken net w).2 = sent w
  /\ accTxInfoMap (client (PrepareDefaultAuthCallToken net w).2) = accTxInfoMap (client w).
Proof.
  unfold PrepareDefaultAuthCallToken, PrepareAuthCallToken, GetNewToken. run_M.
  destruct (jwt_SignedString net _ _) as [tok [e|]]; cbn; auto.
Qed.

Lemma CallContext_run {T : Type} `{Unmarshaler T} (result : T) method args (w : World) :
  CallContext net result method args w
  = (decode_into (engine_roundtrip net (Authorization (client w)) method args) result,
     {| client := client w;
        sent := sent w ++ [EngineCall (Authorization (client w)) method args] |}).
Proof. reflexivity. Qed.

(** *** get-payload and new-payload by version *)

(** C2. From version 2 on the response of [GetPayload] is decoded as an
    envelope, and the payload (when the envelope has one), the block value,
    the blobs bundle and the override flag returned are the envelope's; at
    version 1 the response is decoded as the payload itself, and the block
    value, the blobs bundle and the override flag returned are nil. *)
Theorem GetPayload_decoding version payloadId (w : World) :
  let w1 := (PrepareDefaultAuthCallToken net w).2 in
  let response :=
    engine_roundtrip net (Authorization (client w1))
      ("engine_getPayloadV" ++ itoa version)%string [MarshalJSON payloadId] in
  ((2 <= version)%Z ->
     let envelope :=
       decode_into response
         (zero : ExecutionPayloadEnvelope typ_ExecutableData typ_BlobsBundle) in
     (GetPayload net version payloadId w).1
     = (default zero (ExecutionPayload envelope.1), BlockValue envelope.1,
        BlobsBundle envelope.1, ShouldOverrideBuilder envelope.1, envelope.2))
  /\ (version = 1%Z ->
      let payload := decode_into response (zero : typ_ExecutableData) in
      (GetPayload net version payloadId w).1 = (payload.1, None, None, None, payload.2)).
Proof.
  cbn zeta. unfold GetPayload. rewrite run_bind.
  destruct (PrepareDefaultAuthCallToken_nil w) as (Hnil & _ & _).
  destruct (PrepareDefaultAuthCallToken net w) as [err w1]. cbn in Hnil. subst err.
  cbn [fst snd]. split.
  - intros Hv. apply Z.leb_le in Hv. rewrite Hv. rewrite run_bind, CallContext_run.
    cbn [fst snd].
    now destruct (decode_into _ _) as [[payload value bundle override] err].
  - intros ->. cbn [Z.leb Z.compare Pos.compare Pos.compare_cont].
    rewrite run_bind, CallContext_run. cbn [fst snd].
    now destruct (decode_into _ _) as [payload err].
Qed.

(** C3. From version 3 on [NewPayload] sends the payload, the versioned
    hashes and the beacon root, in this order, a nil one as [null] (for the
    versioned hashes: the nil pointer, and a pointer to the nil slice); below
    version 3 it sends the payload alone. *)
Theorem NewPayload_wire_arguments {P : Type} `{Marshaler P} version (payload : P)
  versionedHashes beaconRoot (w : World) :
  let w1 := (PrepareDefaultAuthCallToken net w).2 in
  let method := ("engine_newPayloadV" ++ itoa version)%string in
  ((3 <= version)%Z ->
     sent (NewPayload net version payload versionedHashes beaconRoot w).2
     = sent w ++ [EngineCall (Authorization (client w1)) method
                    [MarshalJSON payload;
                     match versionedHashes with
                     | Some (Some hashes) => JArray (map Hash_MarshalJSON hashes)
                     | Some None | None => JNull
                     end;
                     match beaconRoot with
                     | Some root => Hash_MarshalJSON root
                     | None => JNull
                     end]])
  /\ ((version < 3)%Z ->
      sent (NewPayload net version payload versionedHashes beaconRoot w).2
      = sent w ++ [EngineCall (Authorization (client w1)) method [MarshalJSON payload]]).
Proof.
  cbn zeta. unfold NewPayload. rewrite run_bind.
  destruct (PrepareDefaultAuthCallToken_nil w) as (Hnil & Hsent & _).
  destruct (PrepareDefaultAuthCallToken net w) as [err w1]. cbn in Hnil, Hsent.
  subst err. cbn [fst snd]. rewrite <- Hsent. split.
  - intros Hv. apply Z.leb_le in Hv. rewrite Hv. rewrite run_bind, CallContext_run.
    cbn [fst snd]. destruct (decode_into _ _) as [result err].
    now destruct versionedHashes as [[hashes|]|], beaconRoot.
  - intros Hv. apply Z.leb_gt in Hv. rewrite Hv. rewrite run_bind, CallContext_run.
    cbn [fst snd]. now destruct (decode_into _ _) as [result err].
Qed.

(** *** Batches *)

Lemma storage_requests_reqs account bns keys : forall reqs results cells,
  (storage_requests account bns keys reqs results cells).1.1
  = reqs ++ imap (fun i key => storage_request account bns key (length cells + i)) keys.
Proof.
  induction keys as [|key rest IH]; intros reqs results cells; cbn.
  - now rewrite app_nil_r.
  - rewrite IH, <- app_assoc. cbn. rewrite Nat.add_0_r. do 2 f_equal.
    apply imap_ext. intros i k _. cbn. rewrite length_app. cbn. f_equal. lia.
Qed.

Lemma storage_requests_cells account bns keys : forall reqs results cells,
  (storage_requests account bns keys reqs results cells).2
  = cells ++ replicate (length keys) 0.
Proof.
  induction keys as [|key rest IH]; intros reqs results cells; cbn.
  - now rewrite app_nil_r.
  - now rewrite IH, <- app_assoc.
Qed.

Lemma storage_requests_dom account bns keys : forall reqs results cells,
  dom (storage_requests account bns keys reqs results cells).1.2
  = dom results ∪ list_to_set keys.
Proof.
  induction keys as [|key rest IH]; intros reqs results cells; cbn.
  - now rewrite (right_id_L ∅ (∪)).
  - rewrite IH, dom_insert_L.
    now rewrite (comm_L (∪) {[key]} (dom results)), (assoc_L (∪)).
Qed.

Lemma storage_requests_absent account bns keys : forall reqs results cells key,
  key ∉ keys ->
  (storage_requests account bns keys reqs results cells).1.2 !! key = results !! key.
Proof.
  induction keys as [|k rest IH]; intros reqs results cells key Hnot; cbn.
  - reflexivity.
  - apply not_elem_of_cons in Hnot as [Hne Hnot].
    rewrite IH by exact Hnot. now apply lookup_insert_ne.
Qed.

(** [results] points each key to the cell of its last occurrence. *)
Lemma storage_requests_last account bns keys : forall reqs results cells i key,
  keys !! i = Some key ->
  (forall j, (i < j)%nat -> keys !! j <> Some key) ->
  (storage_requests account bns keys reqs results cells).1.2 !! key
  = Some (length cells + i)%nat.
Proof.
  induction keys as [|k rest IH]; intros reqs results cells i key Hi Hlast.
  - discriminate.
  - cbn. destruct i as [|i]; cbn in Hi.
    + injection Hi as ->. rewrite storage_requests_absent.
      * rewrite lookup_insert_eq. f_equal. lia.
      * intros Hin. apply list_elem_of_lookup in Hin as [j Hj].
        apply (Hlast (S j)); [lia | exact Hj].
    + rewrite (IH _ _ _ i key Hi).
      * rewrite length_app. cbn. f_equal. lia.
      * intros j Hj. apply (Hlast (S j)). lia.
Qed.

Lemma element_outcome_step (resp : jsonrpcMessage) (elem : BatchElem)
  (cells : list common_Hash) :
  (Result elem < length cells)%nat ->
  match msg_Error resp with
  | Some e => (set_Error (Some e) elem, cells)
  | None =>
      let '(v, err) := Hash_UnmarshalJSON (msg_Result resp) (cells !!! Result elem) in
      (set_Error err elem, <[Result elem := v]> cells)
  end
  = (set_Error (element_outcome resp (cells !!! Result elem)).2 elem,
     <[Result elem := (element_outcome resp (cells !!! Result elem)).1]> cells).
Proof.
  intros Hlt. unfold element_outcome. destruct (msg_Error resp) as [e|]; cbn.
  - f_equal. symmetry. apply list_insert_id. now apply list_lookup_lookup_total_lt.
  - now destruct (Hash_UnmarshalJSON _ _).
Qed.

(** The elements and the cells after the responses were handed out, when
    element [k] points to cell [i + k]. *)
Lemma deliver_spec (responses : nat -> jsonrpcMessage) reqs : forall i cells,
  (forall k elem, reqs !! k = Some elem -> Result elem = (i + k)%nat) ->
  (i + length reqs <= length cells)%nat ->
  (forall k elem, reqs !! k = Some elem ->
     (deliver responses i reqs cells).1 !! k
     = Some (set_Error (element_outcome (responses (i + k)%nat)
                          (cells !!! (i + k)%nat)).2 elem))
  /\ length (deliver responses i reqs cells).1 = length reqs
  /\ length (deliver responses i reqs cells).2 = length cells
  /\ (forall p, (p < i \/ i + length reqs <= p)%nat ->
        (deliver responses i reqs cells).2 !! p = cells !! p)
  /\ (forall k, (k < length reqs)%nat ->
        (deliver responses i reqs cells).2 !! (i + k)%nat
        = Some (element_outcome (responses (i + k)%nat) (cells !!! (i + k)%nat)).1).
Proof.
  induction reqs as [|elem rest IH]; intros i cells Hptr Hlen.
  - cbn. repeat split; auto; intros; try discriminate; lia.
  - cbn [deliver]. cbn zeta.
    assert (Hres : Result elem = i) by (rewrite (Hptr 0%nat elem eq_refl); lia).
    cbn in Hlen.
    rewrite element_outcome_step by lia. rewrite Hres.
    set (v := (element_outcome (responses i) (cells !!! i)).1).
    set (err := (element_outcome (responses i) (cells !!! i)).2).
    destruct (IH (S i) (<[i := v]> cells)) as (IHreq & IHlr & IHlc & IHout & IHin).
    { intros k e Hk. rewrite (Hptr (S k) e Hk). lia. }
    { rewrite length_insert. lia. }
    destruct (deliver responses (S i) rest (<[i := v]> cells)) as [rest' cells'] eqn:Hd.
    cbn [fst snd] in *.
    assert (Hsame : forall k, (<[i := v]> cells) !!! (S i + k)%nat = cells !!! (S i + k)%nat).
    { intros k. apply list_lookup_total_insert_ne. lia. }
    split; [|split; [|split; [|split]]].
    + intros [|k] e Hk; cbn in Hk |- *.
      * injection Hk as <-. now rewrite Nat.add_0_r.
      * specialize (IHreq k e Hk). rewrite Hsame in IHreq.
        replace (i + S k)%nat with (S i + k)%nat by lia. exact IHreq.
    + cbn. now rewrite IHlr.
    + now rewrite IHlc, length_insert.
    + intros p Hp. cbn [length] in Hp.
      rewrite IHout by lia. apply list_lookup_insert_ne. lia.
    + intros [|k] Hk; cbn [length] in Hk.
      * rewrite Nat.add_0_r, IHout by lia. apply list_lookup_insert_eq. lia.
      * replace (i + S k)%nat with (S i + k)%nat by lia.
        rewrite IHin by lia. now rewrite Hsame.
Qed.

Lemma first_failed_None reqs : forall i,
  (forall k elem, reqs !! k = Some elem -> Error elem = None) ->
  first_failed i reqs = None.
Proof.
  induction reqs as [|req rest IH]; intros i Hall; cbn; [reflexivity|].
  rewrite (Hall 0%nat req eq_refl). apply IH. intros k elem Hk. exact (Hall (S k) elem Hk).
Qed.

Lemma first_failed_Some reqs : forall i k elem e,
  reqs !! k = Some elem -> Error elem = Some e ->
  (forall j elem', (j < k)%nat -> reqs !! j = Some elem' -> Error elem' = None) ->
  first_failed i reqs = Some ((i + k)%nat, e).
Proof.
  induction reqs as [|req rest IH]; intros i k elem e Hk He Hbefore; [discriminate|].
  destruct k as [|k]; cbn in Hk |- *.
  - injection Hk as ->. rewrite He. now rewrite Nat.add_0_r.
  - rewrite (Hbefore 0%nat req) by (lia || reflexivity).
    rewrite (IH (S i) k elem e Hk He).
    + do 2 f_equal. lia.
    + intros j elem' Hj Hl. apply (Hbefore (S j) elem'); [lia | exact Hl].
Qed.

Lemma storage_requests_wire account bns keys (base : nat) :
  map (fun elem => (Method elem, Args elem))
      (imap (fun i key => storage_request account bns key (base + i)) keys)
  = map (fun key => ("eth_getStorageAt",
                     [Address_MarshalJSON account; Hash_MarshalJSON key; JString bns]))
        keys.
Proof.
  revert base. induction keys as [|key rest IH]; intros base; cbn; [reflexivity|].
  f_equal. rewrite <- (IH (S base)). f_equal. apply imap_ext. intros i k _. cbn.
  f_equal. lia.
Qed.

Lemma BatchCallContext_run reqs cells (w : World) :
  BatchCallContext net reqs cells w
  = (match eth_batch net (map (fun elem => (Method elem, Args elem)) reqs) with
     | (Some e, _) => (reqs, cells, Some e)
     | (None, responses) => (deliver responses 0 reqs cells, None)
     end,
     {| client := client w;
        sent := sent w ++ [EthBatchCall (map (fun elem => (Method elem, Args elem)) reqs)] |}).
Proof.
  unfold BatchCallContext. run_M.
  destruct (eth_batch net _) as [[e|] responses]; [reflexivity|].
  now destruct (deliver responses 0 reqs cells).
Qed.

(** C4, as amended. [StorageAtKeys] answers by the batch as a whole: the
    batch's own error when the round trip fails; otherwise, when an element
    carries an error, a nil map and the error of the first such element
    wrapped with its index; and only when no element carries one a map, whose
    keys are exactly the input keys (one entry per distinct key) and which
    holds for each key the value decoded for its last request. *)
Theorem StorageAtKeys_outcomes account keys blockNumber (w : World) :
  let blockNumberString := match blockNumber with
                           | None => "latest"
                           | Some n => hexutil_EncodeBig n
                           end in
  let wire := map (fun key => ("eth_getStorageAt",
                               [Address_MarshalJSON account; Hash_MarshalJSON key;
                                JString blockNumberString])) keys in
  (forall e responses,
     eth_batch net wire = (Some e, responses) ->
     (StorageAtKeys net account keys blockNumber w).1 = (None, Some e))
  /\ (forall responses i e,
        eth_batch net wire = (None, responses) ->
        (i < length keys)%nat ->
        (element_outcome (responses i) 0).2 = Some e ->
        (forall j, (j < i)%nat -> (element_outcome (responses j) 0).2 = None) ->
        (StorageAtKeys net account keys blockNumber w).1
        = (None, Some (ErrWrap e ("request for storage at index "
                                  ++ itoa (Z.of_nat i) ++ " failed")%string)))
  /\ (forall responses,
        eth_batch net wire = (None, responses) ->
        (forall i, (i < length keys)%nat -> (element_outcome (responses i) 0).2 = None) ->
        exists m : gmap common_Hash common_Hash,
          (StorageAtKeys net account keys blockNumber w).1 = (Some m, None)
          /\ dom m = list_to_set keys
          /\ (NoDup keys -> size m = length keys)
          /\ forall i key,
               keys !! i = Some key ->
               (forall j, (i < j)%nat -> keys !! j <> Some key) ->
               m !! key = Some (element_outcome (responses i) 0).1).
Proof.
  cbn zeta. set (bns := match blockNumber with None => _ | Some n => _ end).
  unfold StorageAtKeys. fold bns.
  pose proof (storage_requests_reqs account bns keys [] ∅ []) as Hreqs.
  pose proof (storage_requests_cells account bns keys [] ∅ []) as Hcells.
  pose proof (storage_requests_dom account bns keys [] ∅ []) as Hdom.
  pose proof (fun i key => storage_requests_last account bns keys [] ∅ [] i key) as Hlast.
  destruct (storage_requests account bns keys [] ∅ []) as [[reqs results] cells].
  cbn in Hreqs, Hcells, Hdom, Hlast. subst reqs cells.
  rewrite run_bind, BatchCallContext_run. cbn [fst snd].
  pose proof (storage_requests_wire account bns keys 0) as Hwire.
  cbn [Nat.add] in Hwire. rewrite Hwire. clear Hwire.
  set (reqs := imap (fun i key => storage_request account bns key i) keys).
  set (cells := replicate (length keys) 0).
  assert (Hlr : length reqs = length keys) by apply length_imap.
  assert (Hreq : forall k elem, reqs !! k = Some elem -> Result elem = (0 + k)%nat).
  { intros k elem Hk. unfold reqs in Hk. rewrite list_lookup_imap in Hk.
    destruct (keys !! k); cbn in Hk; [|discriminate]. now injection Hk as <-. }
  assert (Hzero : forall k, (k < length keys)%nat -> cells !!! k = 0).
  { intros k Hk. now apply lookup_total_replicate_2. }
  assert (Hsome : forall k, (k < length keys)%nat -> is_Some (reqs !! k)).
  { intros k Hk. apply lookup_lt_is_Some. lia. }
  destruct (eth_batch net _) as [[e0|] rs]; cbn.
  - split; [now intros e responses [= <- _]|]. split; [intros ? ? ? [=] | intros ? [=]].
  - destruct (deliver_spec rs reqs 0%nat cells Hreq) as (Dreq & Dlr & Dlc & _ & Din).
    { unfold cells. rewrite length_replicate. cbn. lia. }
    destruct (deliver rs 0 reqs cells) as [reqs' cells'] eqn:Hd. cbn [fst snd] in *.
    assert (Herr : forall k, (k < length keys)%nat ->
              exists elem', reqs' !! k = Some elem'
                            /\ Error elem' = (element_outcome (rs k) 0).2).
    { intros k Hk. destruct (Hsome k Hk) as [elem Helem].
      eexists. split; [apply (Dreq k elem Helem)|]. cbn. now rewrite Hzero. }
    split; [intros ? ? [=]|]. split.
    + intros responses i e [= <-] Hi He Hbefore.
      destruct (Herr i Hi) as (elem' & Hl & Herror).
      rewrite (first_failed_Some reqs' 0%nat i elem' e Hl).
      * reflexivity.
      * now rewrite Herror.
      * intros j elemj Hj Hlj. destruct (Herr j) as (elemj' & Hlj' & Hej); [lia|].
        rewrite Hlj in Hlj'. injection Hlj' as <-. rewrite Hej. now apply Hbefore.
    + intros responses [= <-] Hall.
      rewrite first_failed_None.
      * eexists. split; [reflexivity|]. split; [|split].
        -- rewrite dom_fmap_L, Hdom, dom_empty_L. apply (left_id_L ∅ (∪)).
        -- intros Hnd. rewrite map_size_fmap, <- size_dom, Hdom.
           rewrite dom_empty_L, (left_id_L ∅ (∪)).
           now apply size_list_to_set.
        -- intros i key Hi Hl. rewrite lookup_fmap, (Hlast i key Hi Hl). cbn.
           assert (Hlt : (i < length keys)%nat) by now apply lookup_lt_Some in Hi.
           f_equal. apply list_lookup_total_correct.
           rewrite <- (Hzero i Hlt). exact (Din i ltac:(lia)).
      * intros k elem' Hk.
        assert (Hlt : (k < length keys)%nat).
        { apply lookup_lt_Some in Hk. lia. }
        destruct (Herr k Hlt) as (elem'' & Hl & Herror).
        rewrite Hk in Hl. injection Hl as <-. rewrite Herror. now apply Hall.
Qed.

(** [SendTransactions] answers one error, the first encoding error or the
    batch's own, or nil: what the elements carry never reaches the result. *)
Lemma SendTransactions_result txs (w : World) :
  (SendTransactions net txs w).1
  = match transaction_requests 0 txs with
    | (_, Some e) => [Some e]
    | (reqs, None) =>
        match (eth_batch net (map (fun elem => (Method elem, Args elem)) reqs)).1 with
        | Some e => [Some e]
        | None => []
        end
    end.
Proof.
  unfold SendTransactions.
  destruct (transaction_requests 0 txs) as [reqs [e|]]; [reflexivity|].
  rewrite run_bind, BatchCallContext_run. cbn [fst snd].
  destruct (eth_batch net _) as [[e|] responses]; cbn; [reflexivity|].
  now destruct (deliver responses 0 reqs _).
Qed.

(** Every authenticated call reaches the wire, whatever the signer
    answered: the prepare step never reports. *)
Lemma authenticated_calls_always_dispatch (w : World) :
  let auth := Authorization (client (PrepareDefaultAuthCallToken net w).2) in
  (forall version fcState pAttributes,
     sent (ForkchoiceUpdated net version fcState pAttributes w).2
     = sent w ++ [EngineCall auth ("engine_forkchoiceUpdatedV" ++ itoa version)%string
                    [MarshalJSON fcState; MarshalJSON pAttributes]])
  /\ (forall version payloadId,
        sent (GetPayload net version payloadId w).2
        = sent w ++ [EngineCall auth ("engine_getPayloadV" ++ itoa version)%string
                       [MarshalJSON payloadId]])
  /\ (forall clCapabilities,
        sent (ExchangeCapabilities net clCapabilities w).2
        = sent w ++ [EngineCall auth "engine_exchangeCapabilities"
                       [MarshalJSON clCapabilities]])
  /\ (forall start count,
        sent (GetPayloadBodiesByRangeV1 net start count w).2
        = sent w ++ [EngineCall auth "engine_getPayloadBodiesByRangeV1"
                       [hexutil_Uint64_MarshalJSON start; hexutil_Uint64_MarshalJSON count]])
  /\ (forall hashes,
        sent (GetPayloadBodiesByHashV1 net hashes w).2
        = sent w ++ [EngineCall auth "engine_getPayloadBodiesByHashV1"
                       [Hashes_MarshalJSON hashes]]).
Proof.
  cbn zeta.
  unfold ForkchoiceUpdated, GetPayload, ExchangeCapabilities,
    GetPayloadBodiesByRangeV1, GetPayloadBodiesByHashV1.
  destruct (PrepareDefaultAuthCallToken_nil w) as (Hnil & Hsent & _).
  repeat split; intros; rewrite run_bind;
    destruct (PrepareDefaultAuthCallToken net w) as [err w1];
    cbn in Hnil, Hsent; subst err; cbn [fst snd]; rewrite <- Hsent.
  - rewrite !run_bind, CallContext_run. cbn [fst snd modify_client client sent].
    now match goal with |- context [decode_into ?r ?z] => destruct (decode_into r z) end.
  - destruct (2 <=? version)%Z; rewrite run_bind, CallContext_run; cbn [fst snd];
      now match goal with |- context [decode_into ?r ?z] => destruct (decode_into r z) end.
  - now rewrite CallContext_run.
  - now rewrite CallContext_run.
  - now rewrite CallContext_run.
Qed.

End hive_rpc_facts.

(** *** Calls in sequence, each meeting its own network *)

Section hive_rpc_sequences.
Import hive_rpc.
Local Open Scope list_scope.
Context `{Collaborators}.

(** X1. Two calls in a row. When [GetNextAccountNonce] answered [nonce] with
    the head at [head1], and the next call finds the head at [head1] still or at
    a child of [head1], the next call answers [nonce + 1] (as a [uint64])
    and queries no nonce. *)
Theorem GetNextAccountNonce_consecutive net1 net2 account (w : World) head1 head2 nonce :
  (HeaderByNumber net1 None w).1 = (head1, None) ->
  (GetNextAccountNonce net1 account w).1 = (nonce, None) ->
  (HeaderByNumber net2 None w).1 = (head2, None) ->
  Hash head1 = Hash head2 \/ Hash head1 = ParentHash head2 ->
  (GetNextAccountNonce net2 account (GetNextAccountNonce net1 account w).2).1
  = ((nonce + 1) mod uint64_modulus, None)
  /\ nonce_queries
       (sent (GetNextAccountNonce net2 account (GetNextAccountNonce net1 account w).2).2)
     = nonce_queries (sent (GetNextAccountNonce net1 account w).2).
Proof.
  intros Hh1 Hn Hh2 Hv.
  pose proof (GetNextAccountNonce_entry net1 account w head1 nonce Hh1 Hn) as Hentry.
  set (w1 := (GetNextAccountNonce net1 account w).2) in *.
  rewrite (HeaderByNumber_answer net2 None w w1) in Hh2.
  destruct (GetNextAccountNonce_hit net2 account w1 head2 (Hash head1) nonce Hh2 Hentry Hv)
    as (Hr & _ & Hq).
  now split.
Qed.

(** X2. [UpdateNonce] then [GetLastAccountNonce]: with the head at [head1] at
    the update and at [head1] still, or at a child of it, at the read, the
    read answers the nonce that was set. *)
Theorem UpdateNonce_then_GetLastAccountNonce net1 net2 account newNonce (w : World)
  head1 head2 :
  (HeaderByNumber net1 None w).1 = (head1, None) ->
  (HeaderByNumber net2 None w).1 = (head2, None) ->
  Hash head1 = Hash head2 \/ Hash head1 = ParentHash head2 ->
  (UpdateNonce net1 account newNonce w).1 = None
  /\ (GetLastAccountNonce net2 account (UpdateNonce net1 account newNonce w).2).1
     = (newNonce, None).
Proof.
  intros Hh1 Hh2 Hv.
  destruct (UpdateNonce_entry net1 account newNonce w head1 Hh1) as [Hnil Hentry].
  split; [exact Hnil|].
  set (w1 := (UpdateNonce net1 account newNonce w).2) in *.
  rewrite (HeaderByNumber_answer net2 None w w1) in Hh2.
  exact (GetLastAccountNonce_hit net2 account w1 head2 _ Hh2 Hentry Hv).
Qed.

(** X3. [ForkchoiceUpdated] keeps what it sent and what it got, whether the call
    failed or not: the state and attributes passed, and the result it
    returns. *)
Theorem ForkchoiceUpdated_records net version fcState pAttributes (w : World) :
  latestFcUStateSent (client (ForkchoiceUpdated net version fcState pAttributes w).2)
  = fcState
  /\ latestPAttrSent (client (ForkchoiceUpdated net version fcState pAttributes w).2)
     = pAttributes
  /\ latestFcUResponse (client (ForkchoiceUpdated net version fcState pAttributes w).2)
     = Some (ForkchoiceUpdated net version fcState pAttributes w).1.1.
Proof.
  unfold ForkchoiceUpdated. rewrite run_bind.
  destruct (PrepareDefaultAuthCallToken_nil net w) as (Hnil & _ & _).
  destruct (PrepareDefaultAuthCallToken net w) as [err w1]. cbn in Hnil. subst err.
  cbn [fst snd]. rewrite !run_bind, CallContext_run.
  cbn [fst snd modify_client client sent].
  match goal with |- context [decode_into ?r ?z] => destruct (decode_into r z) end.
  cbn. now repeat split.
Qed.

End hive_rpc_sequences.

Section hive_rpc_examples.
Import hive_rpc examples.
Local Open Scope list_scope.

(** C1, the claim as stated fails in both directions. The client cached
    nonce 5 for the account at block A. When the head fetched is P, the
    direct parent of A, the cache is not used: the nonce is queried at P and
    the answer, 9, is returned. When the head fetched is C, which is neither
    A nor the parent of A (it is the child of A), the cache is used: 6 is
    returned and no nonce is queried. *)
Lemma GetNextAccountNonce_tolerates_child_not_parent :
  accTxInfoMap (client (world_of client_at_A)) !! alice
  = Some (Some {| PreviousBlock := Hash block_A; PreviousNonce := 5 |})
  /\ (Hash block_P = ParentHash block_A
      /\ (HeaderByNumber (network_at block_P) None (world_of client_at_A)).1
         = (block_P, None)
      /\ (GetNextAccountNonce (network_at block_P) alice (world_of client_at_A)).1
         = (9, None)
      /\ nonce_queries
           (sent (GetNextAccountNonce (network_at block_P) alice (world_of client_at_A)).2)
         = [EthNonceAt alice (Some 1%Z)])
  /\ (Hash block_C <> Hash block_A
      /\ Hash block_C <> ParentHash block_A
      /\ (HeaderByNumber (network_at block_C) None (world_of client_at_A)).1
         = (block_C, None)
      /\ (GetNextAccountNonce (network_at block_C) alice (world_of client_at_A)).1
         = (6, None)
      /\ nonce_queries
           (sent (GetNextAccountNonce (network_at block_C) alice (world_of client_at_A)).2)
         = []).
Proof.
  split; [reflexivity|]. split.
  - repeat split; reflexivity.
  - repeat split; try reflexivity; discriminate.
Qed.

Lemma GetNextAccountNonce_cache_policy_witness :
  ((GetNextAccountNonce (network_at block_C) alice (world_of client_at_A)).1
   = ((5 + 1) mod uint64_modulus, None)
   /\ accTxInfoMap
        (client (GetNextAccountNonce (network_at block_C) alice (world_of client_at_A)).2)
      = <[alice := Some {| PreviousBlock := Hash block_C;
                           PreviousNonce := (5 + 1) mod uint64_modulus |}]>
          (accTxInfoMap (client (world_of client_at_A)))
   /\ nonce_queries
        (sent (GetNextAccountNonce (network_at block_C) alice (world_of client_at_A)).2)
      = nonce_queries (sent (world_of client_at_A)))
  /\ ((GetNextAccountNonce (network_at block_D) alice (world_of client_at_A)).1
      = (9, None)
      /\ accTxInfoMap
           (client (GetNextAccountNonce (network_at block_D) alice (world_of client_at_A)).2)
         = <[alice := Some {| PreviousBlock := Hash block_D; PreviousNonce := 9 |}]>
             (accTxInfoMap (client (world_of client_at_A)))).
Proof.
  split.
  - apply (proj1 (GetNextAccountNonce_cache_policy
                    (network_at block_C) alice (world_of client_at_A) block_C eq_refl)
             hash_A 5).
    + reflexivity.
    + right. reflexivity.
  - apply (proj2 (GetNextAccountNonce_cache_policy
                    (network_at block_D) alice (world_of client_at_A) block_D eq_refl)).
    + intros (info & Hinfo & Hv).
      change (accTxInfoMap (client (world_of client_at_A)) !! alice)
        with (Some (Some {| PreviousBlock := hash_A; PreviousNonce := 5 |})) in Hinfo.
      injection Hinfo as <-. destruct Hv as [Hv|Hv]; discriminate Hv.
    + reflexivity.
Defined.

Lemma GetLastAccountNonce_read_only_witness :
  ((GetLastAccountNonce (network_at block_C) alice (world_of client_at_A)).1 = (5, None)
   /\ accTxInfoMap
        (client (GetLastAccountNonce (network_at block_C) alice (world_of client_at_A)).2)
      = accTxInfoMap (client (world_of client_at_A)))
  /\ (GetLastAccountNonce (network_at block_D) alice (world_of client_at_A)).1.2
     = Some (ErrNoPreviousNonce alice).
Proof.
  split; [split|].
  - apply (proj1 (proj2 (proj2 (proj2 (proj2
             (GetLastAccountNonce_read_only
                (network_at block_C) alice (world_of client_at_A))))
             block_C eq_refl)))
      with (info := {| PreviousBlock := hash_A; PreviousNonce := 5 |}).
    + reflexivity.
    + right. reflexivity.
  - apply (GetLastAccountNonce_read_only (network_at block_C) alice (world_of client_at_A)).
  - apply (proj1 (proj2 (proj2 (proj2
             (GetLastAccountNonce_read_only
                (network_at block_D) alice (world_of client_at_A))))
             block_D eq_refl)).
    intros (info & Hinfo & Hv).
    change (accTxInfoMap (client (world_of client_at_A)) !! alice)
      with (Some (Some {| PreviousBlock := hash_A; PreviousNonce := 5 |})) in Hinfo.
    injection Hinfo as <-. destruct Hv as [Hv|Hv]; discriminate Hv.
Defined.


Lemma GetPayload_decoding_witness :
  (GetPayload (network_engine signer_ok envelope_doc) 3 payload_id
     (world_of fresh_client)).1
  = (JString "payload", Some 42%Z, Some (JString "blobs"), Some false, None)
  /\ (GetPayload (network_engine signer_ok (JString "payload")) 1 payload_id
        (world_of fresh_client)).1
     = (JString "payload", None, None, None, None).
Proof.
  split.
  - apply (proj1 (GetPayload_decoding (network_engine signer_ok envelope_doc) 3
                    payload_id (world_of fresh_client))).
    lia.
  - apply (proj2 (GetPayload_decoding (network_engine signer_ok (JString "payload")) 1
                    payload_id (world_of fresh_client))).
    reflexivity.
Defined.

Lemma NewPayload_wire_arguments_witness :
  sent (NewPayload (network_at block_C) 3 (JString "payload") None None
          (world_of fresh_client)).2
  = [EngineCall (Some "Bearer token.1700000000") "engine_newPayloadV3"
       [JString "payload"; JNull; JNull]]
  /\ sent (NewPayload (network_at block_C) 3 (JString "payload") (Some None)
             (Some hash_P) (world_of fresh_client)).2
     = [EngineCall (Some "Bearer token.1700000000") "engine_newPayloadV3"
          [JString "payload"; JNull; JString "0xa1"]]
  /\ sent (NewPayload (network_at block_C) 3 (JString "payload") (Some (Some []))
             (Some hash_P) (world_of fresh_client)).2
     = [EngineCall (Some "Bearer token.1700000000") "engine_newPayloadV3"
          [JString "payload"; JArray []; JString "0xa1"]]
  /\ sent (NewPayload (network_at block_C) 2 (JString "payload") (Some (Some [hash_A]))
             (Some hash_P) (world_of fresh_client)).2
     = [EngineCall (Some "Bearer token.1700000000") "engine_newPayloadV2"
          [JString "payload"]].
Proof.
  split; [|split; [|split]].
  - exact (proj1 (NewPayload_wire_arguments (network_at block_C) 3 (JString "payload")
                    None None (world_of fresh_client))
             ltac:(lia)).
  - exact (proj1 (NewPayload_wire_arguments (network_at block_C) 3 (JString "payload")
                    (Some None) (Some hash_P) (world_of fresh_client))
             ltac:(lia)).
  - exact (proj1 (NewPayload_wire_arguments (network_at block_C) 3 (JString "payload")
                    (Some (Some [])) (Some hash_P) (world_of fresh_client))
             ltac:(lia)).
  - exact (proj2 (NewPayload_wire_arguments (network_at block_C) 2 (JString "payload")
                    (Some (Some [hash_A])) (Some hash_P) (world_of fresh_client))
             ltac:(lia)).
Defined.

(** C4, the claim as stated fails. Of three keys the second comes back with
    an element error: the call returns no map and an error. And of two equal
    keys, all answered, the map returned has one entry. *)
Lemma StorageAtKeys_element_error_fails_the_call :
  (StorageAtKeys (network_batch (batch_answering (answers_second_fails "header not found")))
     alice [1; 2; 3] None (world_of fresh_client)).1
  = (None, Some (ErrWrap (ErrExternal "header not found")
                   "request for storage at index 1 failed"))
  /\ exists m : gmap common_Hash common_Hash,
       (StorageAtKeys (network_batch (batch_answering answers_ok))
          alice [7; 7] None (world_of fresh_client)).1 = (Some m, None)
       /\ size m = 1%nat.
Proof.
  split; [reflexivity|]. eexists. split; [reflexivity|]. reflexivity.
Qed.

Lemma StorageAtKeys_outcomes_witness :
  (StorageAtKeys (network_batch batch_unreachable) alice [1; 2; 3] None
     (world_of fresh_client)).1
  = (None, Some (ErrExternal "connection refused"))
  /\ (StorageAtKeys (network_batch (batch_answering (answers_second_fails "header not found")))
        alice [1; 2; 3] None (world_of fresh_client)).1
     = (None, Some (ErrWrap (ErrExternal "header not found")
                      ("request for storage at index " ++ itoa (Z.of_nat 1) ++ " failed")%string))
  /\ exists m : gmap common_Hash common_Hash,
       (StorageAtKeys (network_batch (batch_answering answers_ok))
          alice [1; 2; 3] None (world_of fresh_client)).1 = (Some m, None)
       /\ dom m = list_to_set [1; 2; 3]
       /\ (NoDup [1; 2; 3] -> size m = length [1; 2; 3])
       /\ forall i key,
            [1; 2; 3] !! i = Some key ->
            (forall j, (i < j)%nat -> [1; 2; 3] !! j <> Some key) ->
            m !! key = Some (element_outcome (answers_ok i) 0).1.
Proof.
  split; [|split].
  - apply (proj1 (StorageAtKeys_outcomes (network_batch batch_unreachable)
                    alice [1; 2; 3] None (world_of fresh_client))
             (ErrExternal "connection refused") (fun _ => mkMessage None JNull)).
    reflexivity.
  - apply (proj1 (proj2 (StorageAtKeys_outcomes
                           (network_batch (batch_answering
                                             (answers_second_fails "header not found")))
                           alice [1; 2; 3] None (world_of fresh_client)))
             (answers_second_fails "header not found") 1%nat
             (ErrExternal "header not found")).
    + reflexivity.
    + cbn. lia.
    + reflexivity.
    + intros j Hj. assert (j = 0%nat) as -> by lia. reflexivity.
  - apply (proj2 (proj2 (StorageAtKeys_outcomes
                           (network_batch (batch_answering answers_ok))
                           alice [1; 2; 3] None (world_of fresh_client)))
             answers_ok).
    + reflexivity.
    + intros i Hi. cbn in Hi. destruct i as [|[|[|i]]]; [reflexivity..|lia].
Defined.

(** C5: two transactions, the second refused by the node with an element
    error; the batch itself went through. [SendTransactions] returns nil:
    the element's error reaches no one. *)
Lemma SendTransactions_drops_element_errors :
  msg_Error (answers_second_fails "nonce too low" 1) = Some (ErrExternal "nonce too low")
  /\ (SendTransactions (network_batch (batch_answering (answers_second_fails "nonce too low")))
        two_transactions (world_of fresh_client)).1 = []
  /\ (SendTransactions (network_batch batch_unreachable)
        two_transactions (world_of fresh_client)).1
     = [Some (ErrExternal "connection refused")].
Proof. repeat split; reflexivity. Qed.

(** C6: the signer fails. [PrepareAuthCallToken] returns its error;
    [PrepareDefaultAuthCallToken] returns nil; [GetPayload] goes on to
    dispatch, with no Authorization header set, and returns no error. *)
Lemma signing_failure_does_not_stop_the_call :
  (PrepareAuthCallToken (network_engine signer_failing (JString "payload"))
     (JWTSecretBytes fresh_client) 1700000000 (world_of fresh_client)).1
  = Some (ErrExternal "the requested hash function is unavailable")
  /\ (PrepareDefaultAuthCallToken (network_engine signer_failing (JString "payload"))
        (world_of fresh_client)).1 = None
  /\ (GetPayload (network_engine signer_failing (JString "payload")) 1 payload_id
        (world_of fresh_client)).1
     = (JString "payload", None, None, None, None)
  /\ sent (GetPayload (network_engine signer_failing (JString "payload")) 1 payload_id
             (world_of fresh_client)).2
     = [EngineCall None "engine_getPayloadV1" [JString "0x0000000000000001"]].
Proof. repeat split; reflexivity. Qed.

Lemma GetNextAccountNonce_consecutive_witness :
  (GetNextAccountNonce (network_at block_C) alice
     (GetNextAccountNonce (network_at block_A) alice (world_of fresh_client)).2).1
  = ((9 + 1) mod uint64_modulus, None)
  /\ nonce_queries
       (sent (GetNextAccountNonce (network_at block_C) alice
                (GetNextAccountNonce (network_at block_A) alice (world_of fresh_client)).2).2)
     = nonce_queries
         (sent (GetNextAccountNonce (network_at block_A) alice (world_of fresh_client)).2).
Proof.
  apply (GetNextAccountNonce_consecutive (network_at block_A) (network_at block_C) alice
           (world_of fresh_client) block_A block_C 9); try reflexivity.
  right. reflexivity.
Defined.

Lemma UpdateNonce_then_GetLastAccountNonce_witness :
  (UpdateNonce (network_at block_A) alice 33 (world_of fresh_client)).1 = None
  /\ (GetLastAccountNonce (network_at block_C) alice
        (UpdateNonce (network_at block_A) alice 33 (world_of fresh_client)).2).1
     = (33, None).
Proof.
  apply (UpdateNonce_then_GetLastAccountNonce (network_at block_A) (network_at block_C)
           alice 33 (world_of fresh_client) block_A block_C); try reflexivity.
  right. reflexivity.
Defined.

End hive_rpc_examples.

(** ** Genesis configuration: runs in sequence *)

Section cancun_sequences.
Import cancun.
Variable BEACON_ROOTS_ADDRESS : common_Address.
Variable DATAHASH_START_ADDRESS : Z.
Variable DATAHASH_ADDRESS_COUNT : Z.

Local Abbreviation ConfigGenesis := (cancun.ConfigGenesis BEACON_ROOTS_ADDRESS).
Local Abbreviation datahash_address := (cancun.datahash_address DATAHASH_START_ADDRESS).
Local Abbreviation datahash_loop := (cancun.datahash_loop DATAHASH_START_ADDRESS).
Local Abbreviation ConfigTestAccounts :=
  (cancun.ConfigTestAccounts DATAHASH_START_ADDRESS DATAHASH_ADDRESS_COUNT).

(** X6. A second [ConfigGenesis] with the same fork time, after one that
    succeeded, succeeds and changes nothing. *)
Theorem ConfigGenesis_idempotent genesis forkTimestamp :
  (ConfigGenesis genesis forkTimestamp).2 = None ->
  ConfigGenesis (ConfigGenesis genesis forkTimestamp).1 forkTimestamp
  = ((ConfigGenesis genesis forkTimestamp).1, None).
Proof.
  unfold cancun.ConfigGenesis.
  destruct genesis as [[[shanghai|] cancun] ts used excess alloc]; cbn; [|discriminate].
  destruct (forkTimestamp <? shanghai) eqn:Hlt; [discriminate|]. intros _.
  destruct (forkTimestamp <=? ts) eqn:Hle; [destruct used, excess|]; cbn;
    rewrite ?Hlt; cbn; rewrite ?Hle; cbn; unfold set_Alloc; cbn;
    now rewrite insert_insert_eq.
Qed.

(** X7. Whatever the outcome, [ConfigGenesis] leaves the Shanghai time, the
    genesis timestamp, every blob-gas field that was set and every
    allocation other than the beacon-roots address as they were. *)
Theorem ConfigGenesis_frame genesis forkTimestamp :
  ShanghaiTime (Config (ConfigGenesis genesis forkTimestamp).1)
  = ShanghaiTime (Config genesis)
  /\ Timestamp (ConfigGenesis genesis forkTimestamp).1 = Timestamp genesis
  /\ (forall v, BlobGasUsed genesis = Some v ->
        BlobGasUsed (ConfigGenesis genesis forkTimestamp).1 = Some v)
  /\ (forall v, ExcessBlobGas genesis = Some v ->
        ExcessBlobGas (ConfigGenesis genesis forkTimestamp).1 = Some v)
  /\ (forall a, a <> BEACON_ROOTS_ADDRESS ->
        Alloc (ConfigGenesis genesis forkTimestamp).1 !! a = Alloc genesis !! a).
Proof.
  unfold cancun.ConfigGenesis.
  destruct genesis as [[[shanghai|] cancun] ts used excess alloc]; cbn;
    [|now repeat split].
  destruct (forkTimestamp <? shanghai); cbn; [now repeat split|].
  destruct (forkTimestamp <=? ts); [destruct used, excess|]; cbn;
    repeat split; try congruence; try discriminate;
    intros a Ha; now apply lookup_insert_ne.
Qed.

Lemma datahash_loop_returned_present indices : forall genesis genesis',
  datahash_loop indices genesis = (genesis', Returned None) ->
  forall i, i ∈ indices -> is_Some (Alloc genesis' !! datahash_address i).
Proof.
  induction indices as [|k rest IH]; intros genesis genesis' Hrun i Hi.
  - inversion Hi.
  - cbn [cancun.datahash_loop] in Hrun. cbn zeta in Hrun.
    destruct (Alloc genesis !! datahash_address k) eqn:Hk; [discriminate|].
    apply elem_of_cons in Hi as [->|Hi]; [|exact (IH _ _ Hrun i Hi)].
    exists datahash_account.
    apply (datahash_loop_preserves DATAHASH_START_ADDRESS _ _ _ _ Hrun).
    cbn. apply lookup_insert_eq.
Qed.

(** X8. [ConfigTestAccounts] cannot be run twice: after a run that returned,
    and the range not being empty, a second run panics on the first address
    of the range and leaves the genesis as the first run left it. *)
Theorem ConfigTestAccounts_second_run_panics genesis :
  (0 < DATAHASH_ADDRESS_COUNT)%Z ->
  (ConfigTestAccounts genesis).2 = Returned None ->
  ConfigTestAccounts (ConfigTestAccounts genesis).1
  = ((ConfigTestAccounts genesis).1, Panicked (ErrReusedAddress (datahash_address 0))).
Proof.
  intros Hpos Hret. unfold cancun.ConfigTestAccounts in *.
  destruct (cancun.datahash_loop _ (seqZ 0 DATAHASH_ADDRESS_COUNT) genesis)
    as [g1 out] eqn:Hrun.
  cbn in Hret. subst out. cbn [fst].
  destruct (datahash_loop_returned_present _ _ _ Hrun 0%Z) as [acct Hacct].
  { apply elem_of_seqZ. lia. }
  assert (Hseq : seqZ 0 DATAHASH_ADDRESS_COUNT
                 = 0%Z :: seqZ 1 (DATAHASH_ADDRESS_COUNT - 1)).
  { replace DATAHASH_ADDRESS_COUNT with (Z.succ (DATAHASH_ADDRESS_COUNT - 1)) at 1 by lia.
    rewrite seqZ_cons by lia. do 2 f_equal; lia. }
  rewrite Hseq. cbn [cancun.datahash_loop]. cbn zeta. now rewrite Hacct.
Qed.

Lemma BigToAddress_in_range b :
  (0 <= b < address_modulus)%Z -> BigToAddress b = Z.to_N b.
Proof.
  intros Hb. unfold BigToAddress. rewrite Z.abs_eq by lia.
  now rewrite Z.mod_small.
Qed.

Lemma datahash_addresses_distinct indices :
  (0 <= DATAHASH_START_ADDRESS)%Z ->
  NoDup indices ->
  (forall i, i ∈ indices -> (0 <= i /\ DATAHASH_START_ADDRESS + i < address_modulus)%Z) ->
  NoDup (datahash_address <$> indices).
Proof.
  intros Hstart Hnd Hrange. apply NoDup_fmap_2_strong; [|exact Hnd].
  intros i j Hi Hj. unfold cancun.datahash_address.
  pose proof (Hrange i Hi) as Hri. pose proof (Hrange j Hj) as Hrj.
  rewrite !BigToAddress_in_range by lia.
  intros Heq. apply Z2N.inj in Heq; lia.
Qed.

Lemma datahash_loop_size indices : forall genesis genesis',
  datahash_loop indices genesis = (genesis', Returned None) ->
  size (Alloc genesis') = (size (Alloc genesis) + length indices)%nat.
Proof.
  induction indices as [|k rest IH]; intros genesis genesis' Hrun.
  - cbn in Hrun. injection Hrun as <-. cbn. lia.
  - cbn [cancun.datahash_loop] in Hrun. cbn zeta in Hrun.
    destruct (Alloc genesis !! datahash_address k) eqn:Hk; [discriminate|].
    rewrite (IH _ _ Hrun). cbn. rewrite map_size_insert_None by exact Hk. lia.
Qed.

(** X9. With a start address that is not negative and a range that ends
    within the 160 bits of an address, [ConfigTestAccounts] on a genesis that
    holds no address of the range returns nil and has added exactly
    [DATAHASH_ADDRESS_COUNT] accounts. *)
Theorem ConfigTestAccounts_adds_count genesis :
  (0 <= DATAHASH_START_ADDRESS)%Z ->
  (DATAHASH_START_ADDRESS + DATAHASH_ADDRESS_COUNT <= address_modulus)%Z ->
  (forall i, (0 <= i < DATAHASH_ADDRESS_COUNT)%Z ->
     Alloc genesis !! datahash_address i = None) ->
  (ConfigTestAccounts genesis).2 = Returned None
  /\ size (Alloc (ConfigTestAccounts genesis).1)
     = (size (Alloc genesis) + Z.to_nat DATAHASH_ADDRESS_COUNT)%nat.
Proof.
  intros Hstart Hend Hfree. unfold cancun.ConfigTestAccounts.
  destruct (datahash_loop_returns DATAHASH_START_ADDRESS
              (seqZ 0 DATAHASH_ADDRESS_COUNT) genesis) as (g' & Hrun & _).
  - apply datahash_addresses_distinct; [exact Hstart | apply NoDup_seqZ |].
    intros i Hi. apply elem_of_seqZ in Hi. lia.
  - intros i Hi. apply Hfree. apply elem_of_seqZ in Hi. lia.
  - rewrite Hrun. cbn. split; [reflexivity|].
    rewrite (datahash_loop_size _ _ _ Hrun). now rewrite length_seqZ.
Qed.

(** X10. [ConfigTestAccounts] after a [ConfigGenesis] that succeeded: the
    beacon-roots pre-deploy is still in place afterwards, whatever the
    outcome; and when the beacon-roots address lies in the DATAHASH range the
    outcome is a panic. *)
Theorem ConfigTestAccounts_after_ConfigGenesis genesis forkTimestamp :
  (ConfigGenesis genesis forkTimestamp).2 = None ->
  Alloc (ConfigTestAccounts (ConfigGenesis genesis forkTimestamp).1).1
    !! BEACON_ROOTS_ADDRESS = Some beacon_roots_account
  /\ (forall i, (0 <= i < DATAHASH_ADDRESS_COUNT)%Z ->
        datahash_address i = BEACON_ROOTS_ADDRESS ->
        exists a, (ConfigTestAccounts (ConfigGenesis genesis forkTimestamp).1).2
                  = Panicked (ErrReusedAddress a)).
Proof.
  intros Hok.
  pose proof (ConfigGenesis_nil_error_alloc BEACON_ROOTS_ADDRESS genesis forkTimestamp Hok)
    as Halloc.
  set (g1 := (ConfigGenesis genesis forkTimestamp).1) in *.
  assert (Hpre : Alloc g1 !! BEACON_ROOTS_ADDRESS = Some beacon_roots_account).
  { rewrite Halloc. apply lookup_insert_eq. }
  unfold cancun.ConfigTestAccounts. split.
  - destruct (cancun.datahash_loop _ _ g1) as [g2 out] eqn:Hrun.
    exact (datahash_loop_preserves DATAHASH_START_ADDRESS _ _ _ _ Hrun _ _ Hpre).
  - intros i Hi Heq.
    destruct (datahash_loop_panics DATAHASH_START_ADDRESS
                (seqZ 0 DATAHASH_ADDRESS_COUNT) g1 i) as (g2 & j & Hrun & _).
    + apply elem_of_seqZ. lia.
    + rewrite Heq, Hpre. eauto.
    + rewrite Hrun. eauto.
Qed.

End cancun_sequences.

Section cancun_sequences_examples.
Import cancun examples.

Lemma ConfigGenesis_idempotent_witness :
  ConfigGenesis beacon_roots_address
    (ConfigGenesis beacon_roots_address (shanghai_at 5 ∅) 10).1 10
  = ((ConfigGenesis beacon_roots_address (shanghai_at 5 ∅) 10).1, None).
Proof.
  apply (ConfigGenesis_idempotent beacon_roots_address (shanghai_at 5 ∅) 10).
  reflexivity.
Defined.

Lemma ConfigTestAccounts_second_run_panics_witness :
  ConfigTestAccounts datahash_start 3
    (ConfigTestAccounts datahash_start 3 (shanghai_at 5 ∅)).1
  = ((ConfigTestAccounts datahash_start 3 (shanghai_at 5 ∅)).1,
     Panicked (ErrReusedAddress (datahash_address datahash_start 0))).
Proof.
  apply (ConfigTestAccounts_second_run_panics datahash_start 3 (shanghai_at 5 ∅));
    [lia | vm_compute; reflexivity].
Defined.

Lemma ConfigTestAccounts_adds_count_witness :
  (ConfigTestAccounts datahash_start datahash_count (shanghai_at 5 ∅)).2 = Returned None
  /\ size (Alloc (ConfigTestAccounts datahash_start datahash_count (shanghai_at 5 ∅)).1)
     = (size (Alloc (shanghai_at 5 ∅)) + Z.to_nat datahash_count)%nat.
Proof.
  apply (ConfigTestAccounts_adds_count datahash_start datahash_count (shanghai_at 5 ∅)).
  - unfold datahash_start. lia.
  - apply Z.leb_le. vm_compute. reflexivity.
  - intros i _. apply lookup_empty.
Defined.

Lemma ConfigTestAccounts_after_ConfigGenesis_witness :
  Alloc (ConfigTestAccounts datahash_start 3
           (ConfigGenesis beacon_roots_address (shanghai_at 5 ∅) 10).1).1
    !! beacon_roots_address = Some beacon_roots_account
  /\ exists a,
       (ConfigTestAccounts (Z.of_N beacon_roots_address - 1) 3
          (ConfigGenesis beacon_roots_address (shanghai_at 5 ∅) 10).1).2
       = Panicked (ErrReusedAddress a).
Proof.
  split.
  - apply (proj1 (ConfigTestAccounts_after_ConfigGenesis beacon_roots_address
                    datahash_start 3 (shanghai_at 5 ∅) 10 eq_refl)).
  - apply (proj2 (ConfigTestAccounts_after_ConfigGenesis beacon_roots_address
                    (Z.of_N beacon_roots_address - 1) 3 (shanghai_at 5 ∅) 10 eq_refl)
             1%Z); [lia | vm_compute; reflexivity].
Defined.

End cancun_sequences_examples.

(** ** The Engine-API client: what the calls leave alone, and the wire *)

Section hive_rpc_frames.
Import hive_rpc.
Local Open Scope list_scope.
Context `{Collaborators}.
Variable net : Network.

Ltac run_M :=
  unfold mbind, M_bind, mret, M_ret, emit, get_client, modify_client in *; cbn in *.

(** [HeaderByNumber] is [HeaderByNumber_ending] where [getBlockHash]
    returns. *)
Lemma HeaderByNumber_ending_returns exchange number (w : World) :
  let param := match number with None => "latest" | Some n => itoa (Int64 n) end in
  getBlockHash_response exchange
  = Returns (http_getBlockHash net "eth_getBlockByNumber" param) ->
  HeaderByNumber_ending net exchange number w = Returns (HeaderByNumber net number w).
Proof.
  cbn zeta. intros Hraw.
  unfold HeaderByNumber_ending, HeaderByNumber, getBlockHash, Client_BlockByNumber.
  rewrite Hraw. run_M.
  destruct (http_getBlockHash net _ _) as [blockHash [e1|]]; cbn; [reflexivity|].
  now destruct (ethclient_BlockByNumber net number) as [byNumber [e2|]].
Qed.


(** X12. Whenever [GetNextAccountNonce] returns an error (the head could not
    be fetched, or the nonce query failed), the nonce it returns is 0 and the
    client, with its account-nonce map, is as it was. *)
Theorem GetNextAccountNonce_error_keeps_cache account (w : World) e :
  (GetNextAccountNonce net account w).1.2 = Some e ->
  (GetNextAccountNonce net account w).1.1 = 0
  /\ client (GetNextAccountNonce net account w).2 = client w.
Proof.
  rewrite GetNextAccountNonce_unfold.
  destruct (HeaderByNumber_frame net None w) as [Hclient _].
  destruct (HeaderByNumber net None w) as [[head [e0|]] w1]; cbn in Hclient |- *.
  - intros _. now split.
  - destruct (up_to_date (client w1) account head) as [info|]; cbn; [discriminate|].
    destruct (ethclient_NonceAt net account (Some (Number head))) as [n [e1|]]; cbn.
    + intros _. now split.
    + discriminate.
Qed.

(** X13. [GetNextAccountNonce] and [UpdateNonce] for one account leave the
    entry of every other account as it was. *)
Theorem nonce_tracker_other_accounts account other (w : World) newNonce :
  other <> account ->
  accTxInfoMap (client (GetNextAccountNonce net account w).2) !! other
  = accTxInfoMap (client w) !! other
  /\ accTxInfoMap (client (UpdateNonce net account newNonce w).2) !! other
     = accTxInfoMap (client w) !! other.
Proof.
  intros Hne. destruct (HeaderByNumber_frame net None w) as [Hclient _]. split.
  - rewrite GetNextAccountNonce_unfold.
    destruct (HeaderByNumber net None w) as [[head [e0|]] w1]; cbn in Hclient |- *;
      [now rewrite Hclient|].
    unfold store_nonce.
    destruct (up_to_date (client w1) account head) as [info|]; cbn.
    + rewrite <- Hclient. apply lookup_insert_ne. congruence.
    + destruct (ethclient_NonceAt net account (Some (Number head))) as [n [e1|]]; cbn;
        rewrite <- Hclient; [reflexivity|]. apply lookup_insert_ne. congruence.
  - unfold UpdateNonce. rewrite run_bind.
    destruct (HeaderByNumber net None w) as [[head [e0|]] w1]; cbn in Hclient |- *;
      [now rewrite Hclient|].
    rewrite <- Hclient. apply lookup_insert_ne. congruence.
Qed.

(** X14. The authenticated Engine-API calls never touch the account-nonce
    map and never query a nonce. *)
Theorem engine_calls_leave_nonces_alone (w : World) :
  (forall version fcState pAttributes,
     accTxInfoMap (client (ForkchoiceUpdated net version fcState pAttributes w).2)
     = accTxInfoMap (client w)
     /\ nonce_queries (sent (ForkchoiceUpdated net version fcState pAttributes w).2)
        = nonce_queries (sent w))
  /\ (forall version payloadId,
        accTxInfoMap (client (GetPayload net version payloadId w).2)
        = accTxInfoMap (client w)
        /\ nonce_queries (sent (GetPayload net version payloadId w).2)
           = nonce_queries (sent w))
  /\ (forall version (payload : option typ_ExecutableData) versionedHashes beaconRoot,
        accTxInfoMap
          (client (NewPayload net version payload versionedHashes beaconRoot w).2)
        = accTxInfoMap (client w)
        /\ nonce_queries
             (sent (NewPayload net version payload versionedHashes beaconRoot w).2)
           = nonce_queries (sent w)).
Proof.
  destruct (PrepareDefaultAuthCallToken_nil net w) as (Hnil & Hsent & Hmap).
  unfold ForkchoiceUpdated, GetPayload, NewPayload.
  split; [|split]; intros; rewrite run_bind;
    destruct (PrepareDefaultAuthCallToken net w) as [err w1];
    cbn in Hnil, Hsent, Hmap; subst err; cbn [fst snd]; rewrite <- Hsent, <- Hmap.
  - rewrite !run_bind, CallContext_run. cbn [fst snd modify_client client sent].
    match goal with |- context [decode_into ?r ?z] => destruct (decode_into r z) end.
    run_M. now rewrite nonce_queries_app, app_nil_r.
  - destruct (2 <=? version)%Z; rewrite run_bind, CallContext_run; cbn [fst snd];
      match goal with |- context [decode_into ?r ?z] => destruct (decode_into r z) end;
      run_M; now rewrite nonce_queries_app, app_nil_r.
  - destruct (3 <=? version)%Z; rewrite !run_bind, CallContext_run; cbn [fst snd];
      match goal with |- context [decode_into ?r ?z] => destruct (decode_into r z) end;
      run_M; now rewrite nonce_queries_app, app_nil_r.
Qed.

(** A signed token becomes the bearer header. *)
Lemma PrepareDefaultAuthCallToken_signed (w : World) tok :
  jwt_SignedString net (JWTSecretBytes (client w)) (time_Now net) = (tok, None) ->
  PrepareDefaultAuthCallToken net w
  = (None, {| client := set_Authorization (Some ("Bearer " ++ tok)%string) (client w);
              sent := sent w |}).
Proof.
  intros Hsign. unfold PrepareDefaultAuthCallToken, PrepareAuthCallToken, GetNewToken.
  run_M. now rewrite Hsign.
Qed.

(** The prepare step changes nothing of the client but the header. *)
Lemma PrepareDefaultAuthCallToken_fields (w : World) :
  exists auth,
    client (PrepareDefaultAuthCallToken net w).2 = set_Authorization auth (client w).
Proof.
  unfold PrepareDefaultAuthCallToken, PrepareAuthCallToken, GetNewToken. run_M.
  destruct (jwt_SignedString net _ _) as [tok [e|]]; cbn.
  - exists (Authorization (client w)). now destruct (client w).
  - eauto.
Qed.

Lemma GetPayload_client version payloadId (w : World) :
  client (GetPayload net version payloadId w).2
  = client (PrepareDefaultAuthCallToken net w).2.
Proof.
  unfold GetPayload. rewrite run_bind.
  destruct (PrepareDefaultAuthCallToken_nil net w) as (Hnil & _ & _).
  destruct (PrepareDefaultAuthCallToken net w) as [err w1]. cbn in Hnil. subst err.
  cbn [fst snd].
  destruct (2 <=? version)%Z; rewrite run_bind, CallContext_run; cbn [fst snd];
    now match goal with |- context [decode_into ?r ?z] => destruct (decode_into r z) end.
Qed.

(** X15. [ExchangeTransitionConfigurationV1] prepares no token: the client is
    left as it was and the call goes out under the Authorization header the
    client holds; so after an authenticated call whose token was signed, it
    goes out under that call's bearer token. *)
Theorem ExchangeTransitionConfigurationV1_reuses_header {TC : Type} `{Marshaler TC}
  `{Unmarshaler TC} (tConf : option TC) (w : World) :
  client (ExchangeTransitionConfigurationV1 net tConf w).2 = client w
  /\ sent (ExchangeTransitionConfigurationV1 net tConf w).2
     = sent w ++ [EngineCall (Authorization (client w))
                    "engine_exchangeTransitionConfigurationV1" [MarshalJSON tConf]]
  /\ forall version payloadId tok,
       jwt_SignedString net (JWTSecretBytes (client w)) (time_Now net) = (tok, None) ->
       sent (ExchangeTransitionConfigurationV1 net tConf
               (GetPayload net version payloadId w).2).2
       = sent (GetPayload net version payloadId w).2
         ++ [EngineCall (Some ("Bearer " ++ tok)%string)
               "engine_exchangeTransitionConfigurationV1" [MarshalJSON tConf]].
Proof.
  unfold ExchangeTransitionConfigurationV1.
  split; [now rewrite CallContext_run|]. split; [now rewrite CallContext_run|].
  intros version payloadId tok Hsign. rewrite CallContext_run. cbn [snd sent].
  now rewrite GetPayload_client, (PrepareDefaultAuthCallToken_signed w tok Hsign).
Qed.

Lemma NewPayload_client {P : Type} `{Marshaler P} version (payload : P) versionedHashes
  beaconRoot (w : World) :
  exists auth,
    client (NewPayload net version payload versionedHashes beaconRoot w).2
    = set_latestPayloadStatusReponse
        (Some (NewPayload net version payload versionedHashes beaconRoot w).1.1)
        (set_Authorization auth (client w)).
Proof.
  destruct (PrepareDefaultAuthCallToken_fields w) as [auth Hauth]. exists auth.
  unfold NewPayload. rewrite run_bind.
  destruct (PrepareDefaultAuthCallToken_nil net w) as (Hnil & _ & _).
  destruct (PrepareDefaultAuthCallToken net w) as [err w1].
  cbn in Hnil, Hauth. subst err. cbn [fst snd].
  destruct (3 <=? version)%Z; rewrite !run_bind, CallContext_run; cbn [fst snd];
    match goal with |- context [decode_into ?r ?z] => destruct (decode_into r z) end;
    run_M; now rewrite Hauth.
Qed.

(** X16. [NewPayloadV2] and [NewPayloadV3] keep what they sent and what they got,
    whether the call failed or not. *)
Theorem NewPayload_records payload versionedHashes beaconRoot (w : World) :
  (LatestNewPayloadSent (client (NewPayloadV2 net payload w).2) = payload
   /\ LatestNewPayloadResponse (client (NewPayloadV2 net payload w).2)
      = Some (NewPayloadV2 net payload w).1.1)
  /\ (LatestNewPayloadSent
        (client (NewPayloadV3 net payload versionedHashes beaconRoot w).2) = payload
      /\ LatestNewPayloadResponse
           (client (NewPayloadV3 net payload versionedHashes beaconRoot w).2)
         = Some (NewPayloadV3 net payload versionedHashes beaconRoot w).1.1).
Proof.
  unfold NewPayloadV2, NewPayloadV3, LatestNewPayloadSent, LatestNewPayloadResponse.
  split; rewrite run_bind; cbn [fst snd modify_client];
    match goal with
    | |- context [NewPayload net ?v payload ?vh ?br ?w0] =>
        destruct (NewPayload_client v payload vh br w0) as [auth ->]
    end; now split.
Qed.

(** The decimal text of a number determines the number. *)
Lemma itoa_inj (a b : Z) : itoa a = itoa b -> a = b.
Proof.
  unfold itoa. intros Heq.
  assert (Hnz : forall z, Z.to_int z <> Decimal.Pos Decimal.Nil
                          /\ Z.to_int z <> Decimal.Neg Decimal.Nil).
  { intros z. split; intros Hz; pose proof (f_equal Z.of_int Hz) as Hz0;
      rewrite DecimalZ.of_to in Hz0; cbn in Hz0; subst z; discriminate Hz. }
  assert (Hinv : forall z,
            DecimalString.NilZero.int_of_string
              (DecimalString.NilZero.string_of_int (Z.to_int z))
            = Some (Z.to_int z)).
  { intros z. apply DecimalString.NilZero.isi; apply Hnz. }
  assert (Hab : Some (Z.to_int a) = Some (Z.to_int b)).
  { rewrite <- (Hinv a), <- (Hinv b). now rewrite Heq. }
  apply DecimalZ.to_int_inj. congruence.
Qed.

Lemma append_inj_l (p s1 s2 : string) : (p ++ s1 = p ++ s2)%string -> s1 = s2.
Proof. induction p as [|c p IH]; cbn; [auto|]. intros [= Heq]. auto. Qed.

(** X17. Calls of different versions go out under different method names: what
    [GetPayload], [NewPayload] and [ForkchoiceUpdated] put on the wire for
    one version is never what they put for another. *)
Theorem versions_differ_on_the_wire v1 v2 (w : World) :
  v1 <> v2 ->
  (forall payloadId,
     sent (GetPayload net v1 payloadId w).2 <> sent (GetPayload net v2 payloadId w).2)
  /\ (forall fcState pAttributes,
        sent (ForkchoiceUpdated net v1 fcState pAttributes w).2
        <> sent (ForkchoiceUpdated net v2 fcState pAttributes w).2)
  /\ (forall (payload : option typ_ExecutableData) versionedHashes beaconRoot,
        sent (NewPayload net v1 payload versionedHashes beaconRoot w).2
        <> sent (NewPayload net v2 payload versionedHashes beaconRoot w).2).
Proof.
  intros Hne.
  destruct (authenticated_calls_always_dispatch net w) as (Hfcu & Hgp & _).
  split; [|split].
  - intros payloadId. rewrite !Hgp. intros Heq. apply app_inv_head in Heq.
    injection Heq as Heq. apply append_inj_l, itoa_inj in Heq. contradiction.
  - intros fcState pAttributes. rewrite !Hfcu. intros Heq. apply app_inv_head in Heq.
    injection Heq as Heq. apply append_inj_l, itoa_inj in Heq. contradiction.
  - intros payload versionedHashes beaconRoot Heq.
    assert (Hshape : forall v, exists auth args,
              sent (NewPayload net v payload versionedHashes beaconRoot w).2
              = sent w ++ [EngineCall auth ("engine_newPayloadV" ++ itoa v)%string args]).
    { intros v. unfold NewPayload. rewrite run_bind.
      destruct (PrepareDefaultAuthCallToken_nil net w) as (Hnil & Hsent & _).
      destruct (PrepareDefaultAuthCallToken net w) as [err w1].
      cbn in Hnil, Hsent. subst err. cbn [fst snd]. rewrite <- Hsent.
      destruct (3 <=? v)%Z; rewrite !run_bind, CallContext_run; cbn [fst snd];
        match goal with |- context [decode_into ?r ?z] => destruct (decode_into r z) end;
        run_M; eauto. }
    destruct (Hshape v1) as (a1 & args1 & H1). destruct (Hshape v2) as (a2 & args2 & H2).
    rewrite H1, H2 in Heq. apply app_inv_head in Heq.
    injection Heq as _ Heq _. apply append_inj_l, itoa_inj in Heq. contradiction.
Qed.

(** The requests of [SendTransactions] when every transaction encodes. *)
Lemma transaction_requests_ok txs : forall i,
  (forall tx, tx ∈ txs -> (MarshalBinary tx).2 = None) ->
  (transaction_requests i txs).2 = None
  /\ map (fun elem => (Method elem, Args elem)) (transaction_requests i txs).1
     = map (fun tx => ("eth_sendRawTransaction",
                       [JString (hexutil_Encode (MarshalBinary tx).1)])) txs.
Proof.
  induction txs as [|tx rest IH]; intros i Hall; [now split|].
  cbn [transaction_requests].
  pose proof (Hall tx ltac:(left)) as Htx.
  destruct (MarshalBinary tx) as [data err] eqn:Hm. cbn in Htx. subst err.
  destruct (IH (S i)) as [He Hw]; [intros t Ht; apply Hall; now right|].
  destruct (transaction_requests (S i) rest) as [reqs err]. cbn in He, Hw. subst err.
  cbn. split; [reflexivity|]. now rewrite Hw, Hm.
Qed.

(** The first transaction that does not encode ends the loop. *)
Lemma transaction_requests_fail good : forall i tx rest e,
  (forall t, t ∈ good -> (MarshalBinary t).2 = None) ->
  (MarshalBinary tx).2 = Some e ->
  (transaction_requests i (good ++ tx :: rest)).2 = Some e.
Proof.
  induction good as [|t good IH]; intros i tx rest e Hgood Htx.
  - cbn. destruct (MarshalBinary tx) as [data err]. cbn in Htx. now subst err.
  - cbn [app transaction_requests].
    pose proof (Hgood t ltac:(left)) as Ht.
    destruct (MarshalBinary t) as [data err]. cbn in Ht. subst err.
    specialize (IH (S i) tx rest e ltac:(intros; apply Hgood; now right) Htx).
    now destruct (transaction_requests (S i) (good ++ tx :: rest)) as [reqs err].
Qed.

(** X18. [SendTransactions] on the wire. When every transaction encodes, one
    batch goes out with one [eth_sendRawTransaction] per transaction, in
    order, each carrying the hex of the encoding. When one does not encode,
    the error of the first such transaction is the result and nothing goes
    out, not even for the transactions before it. *)
Theorem SendTransactions_wire (w : World) :
  (forall txs,
     (forall tx, tx ∈ txs -> (MarshalBinary tx).2 = None) ->
     sent (SendTransactions net txs w).2
     = sent w ++ [EthBatchCall
                    (map (fun tx => ("eth_sendRawTransaction",
                                     [JString (hexutil_Encode (MarshalBinary tx).1)]))
                       txs)])
  /\ (forall good tx rest e,
        (forall t, t ∈ good -> (MarshalBinary t).2 = None) ->
        (MarshalBinary tx).2 = Some e ->
        SendTransactions net (good ++ tx :: rest) w = ([Some e], w)).
Proof.
  split.
  - intros txs Hall. unfold SendTransactions.
    destruct (transaction_requests_ok txs 0 Hall) as [He Hw].
    destruct (transaction_requests 0 txs) as [reqs err]. cbn in He, Hw. subst err.
    rewrite run_bind, BatchCallContext_run. cbn [fst snd]. rewrite Hw.
    destruct (eth_batch net _) as [[e|] responses]; cbn; [reflexivity|].
    now destruct (deliver responses 0 reqs _).
  - intros good tx rest e Hgood Htx. unfold SendTransactions.
    pose proof (transaction_requests_fail good 0 tx rest e Hgood Htx) as Hfail.
    destruct (transaction_requests 0 (good ++ tx :: rest)) as [reqs err].
    cbn in Hfail. now subst err.
Qed.

(** X19. [StorageAtKeys] on the wire: whatever the answer, exactly one batch goes
    out, with one [eth_getStorageAt] per key, in the order of the keys and
    with equal keys repeated, at ["latest"] when no block number is given;
    and the client is left as it was. *)
Theorem StorageAtKeys_wire account keys blockNumber (w : World) :
  let blockNumberString := match blockNumber with
                           | None => "latest"
                           | Some n => hexutil_EncodeBig n
                           end in
  sent (StorageAtKeys net account keys blockNumber w).2
  = sent w ++ [EthBatchCall
                 (map (fun key => ("eth_getStorageAt",
                                   [Address_MarshalJSON account; Hash_MarshalJSON key;
                                    JString blockNumberString])) keys)]
  /\ client (StorageAtKeys net account keys blockNumber w).2 = client w.
Proof.
  cbn zeta. set (bns := match blockNumber with None => _ | Some n => _ end).
  unfold StorageAtKeys. fold bns.
  pose proof (storage_requests_reqs account bns keys [] ∅ []) as Hreqs.
  destruct (storage_requests account bns keys [] ∅ []) as [[reqs results] cells].
  cbn in Hreqs. subst reqs.
  rewrite run_bind, BatchCallContext_run. cbn [fst snd].
  pose proof (storage_requests_wire account bns keys 0) as Hwire.
  cbn [Nat.add] in Hwire. rewrite Hwire.
  destruct (eth_batch net _) as [[e|] responses]; cbn; [now split|].
  destruct (deliver responses 0 _ cells) as [reqs' cells']. cbn.
  now destruct (first_failed 0 reqs') as [[i e]|].
Qed.

End hive_rpc_frames.

(** ** The Engine-API client: construction, start and the rest *)

Section hive_rpc_construction.
Import hive_rpc.
Local Open Scope list_scope.
Context `{Collaborators}.

(** X20. [UpdateNonce] then [GetNextAccountNonce]: with the head at [head1] at
    the update and at [head1] still, or at a child of it, at the call, the
    call answers the nonce after the one that was set, and queries none. *)
Theorem UpdateNonce_then_GetNextAccountNonce net1 net2 account newNonce (w : World)
  head1 head2 :
  (HeaderByNumber net1 None w).1 = (head1, None) ->
  (HeaderByNumber net2 None w).1 = (head2, None) ->
  Hash head1 = Hash head2 \/ Hash head1 = ParentHash head2 ->
  (GetNextAccountNonce net2 account (UpdateNonce net1 account newNonce w).2).1
  = ((newNonce + 1) mod uint64_modulus, None)
  /\ nonce_queries
       (sent (GetNextAccountNonce net2 account (UpdateNonce net1 account newNonce w).2).2)
     = nonce_queries (sent (UpdateNonce net1 account newNonce w).2).
Proof.
  intros Hh1 Hh2 Hv.
  destruct (UpdateNonce_entry net1 account newNonce w head1 Hh1) as [_ Hentry].
  set (w1 := (UpdateNonce net1 account newNonce w).2) in *.
  rewrite (HeaderByNumber_answer net2 None w w1) in Hh2.
  destruct (GetNextAccountNonce_hit net2 account w1 head2 (Hash head1) newNonce
              Hh2 Hentry Hv) as (Hr & _ & Hq).
  now split.
Qed.

Lemma GetLastAccountNonce_miss net account (w : World) head :
  (HeaderByNumber net None w).1 = (head, None) ->
  (~ exists info,
       accTxInfoMap (client w) !! account = Some (Some info)
       /\ (PreviousBlock info = Hash head \/ PreviousBlock info = ParentHash head)) ->
  (GetLastAccountNonce net account w).1 = (0, Some (ErrNoPreviousNonce account)).
Proof.
  intros Hhead Hnone. rewrite GetLastAccountNonce_unfold.
  destruct (HeaderByNumber_frame net None w) as [Hclient _].
  destruct (HeaderByNumber net None w) as [[head0 err] w1].
  cbn in Hhead, Hclient. injection Hhead as -> ->. rewrite Hclient.
  apply up_to_date_None in Hnone. now rewrite Hnone.
Qed.

(** X21. A client just constructed knows no nonce: for every account,
    [GetLastAccountNonce] answers the no-previous-nonce error and
    [GetNextAccountNonce] queries the nonce at the head; and it holds the
    secret and the total difficulty it was constructed with. *)
Theorem NewHiveRPCEngineClient_fresh {G O : Type} (harness : Harness G O) h enginePort
  ethPort jwtSecretBytes ttd ec net account head :
  NewHiveRPCEngineClient harness h enginePort ethPort jwtSecretBytes ttd = Returns ec ->
  (HeaderByNumber net None {| client := ec_client ec; sent := [] |}).1 = (head, None) ->
  (GetLastAccountNonce net account {| client := ec_client ec; sent := [] |}).1
  = (0, Some (ErrNoPreviousNonce account))
  /\ nonce_queries
       (sent (GetNextAccountNonce net account {| client := ec_client ec; sent := [] |}).2)
     = [EthNonceAt account (Some (Number head))]
  /\ JWTSecretBytes (ec_client ec) = jwtSecretBytes
  /\ ec_TerminalTotalDifficulty ec = ttd.
Proof.
  intros Hnew Hhead. unfold NewHiveRPCEngineClient in Hnew.
  destruct (rpc_DialOptions harness _); [discriminate|].
  destruct (rpc_DialOptions harness _); [discriminate|].
  injection Hnew as <-. cbn [ec_client] in *.
  set (w := {| client := _; sent := [] |}) in *.
  assert (Hnone : ~ exists info,
            accTxInfoMap (client w) !! account = Some (Some info)
            /\ (PreviousBlock info = Hash head \/ PreviousBlock info = ParentHash head)).
  { intros (info & Hinfo & _). cbn in Hinfo. now rewrite lookup_empty in Hinfo. }
  split; [|split; [|now split]].
  - exact (GetLastAccountNonce_miss net account w head Hhead Hnone).
  - destruct (GetNextAccountNonce_miss net account w head Hhead Hnone) as [Hq _].
    exact Hq.
Qed.

End hive_rpc_construction.

Section getEnodeForClient_facts.
Import hive_rpc.

Lemma append_cons (a : ascii) (s t : string) :
  (String a s ++ t = String a (s ++ t))%string.
Proof. reflexivity. Qed.

Lemma length_app_one (s : string) (c : ascii) :
  String.length (s ++ String c "") = S (String.length s).
Proof.
  induction s as [|a s IH]; [reflexivity|].
  rewrite append_cons. cbn [String.length]. now rewrite IH.
Qed.

Lemma get_length_app (s : string) (c : ascii) :
  String.get (String.length s) (s ++ String c "") = Some c.
Proof. induction s as [|a s IH]; [reflexivity | exact IH]. Qed.

Lemma substring_init_app (s t : string) :
  substring 0 (String.length s) (s ++ t) = s.
Proof.
  induction s as [|a s IH]; [now destruct t|].
  rewrite append_cons. cbn [String.length substring]. now rewrite IH.
Qed.

Lemma append_assoc (s t u : string) : ((s ++ t) ++ u = s ++ t ++ u)%string.
Proof.
  induction s as [|a s IH]; [reflexivity|]. rewrite !append_cons. now rewrite IH.
Qed.

(** X22. [getEnodeForClient] panics on the empty string; otherwise it puts the
    string between brackets, less one trailing comma when the string ends
    with a comma, and only that one. *)
Theorem getEnodeForClient_cases :
  (exists v, getEnodeForClient "" = Panics v)
  /\ (forall body, getEnodeForClient (body ++ ",") = Returns ("[" ++ body ++ "]")%string)
  /\ (forall body last,
        last <> ","%char ->
        getEnodeForClient (body ++ String last "")
        = Returns ("[" ++ body ++ String last "" ++ "]")%string).
Proof.
  split; [eexists; reflexivity|]. split.
  - intros body. unfold getEnodeForClient.
    rewrite length_app_one, Nat.sub_succ, Nat.sub_0_r, get_length_app.
    cbn [Ascii.eqb Bool.eqb]. now rewrite substring_init_app.
  - intros body last Hlast. unfold getEnodeForClient.
    rewrite length_app_one, Nat.sub_succ, Nat.sub_0_r, get_length_app.
    destruct (Ascii.eqb_spec last ","); [contradiction|].
    now rewrite append_assoc.
Qed.

End getEnodeForClient_facts.

Section StartClient_facts.
Import hive_rpc.
Local Open Scope list_scope.
Context `{Collaborators}.
Context {G O : Type}.
Variable harness : Harness G O.

Lemma boot_enodes_ok bootClients enodes :
  boot_enodes bootClients = (enodes, None) ->
  enodes = map fst bootClients /\ Forall (fun b => b.2 = None) bootClients.
Proof.
  revert enodes. induction bootClients as [|[enode err] rest IH]; intros enodes Hb.
  - injection Hb as <-. now split.
  - cbn in Hb. destruct err as [e|]; [discriminate|].
    destruct (boot_enodes rest) as [enodes' err']. injection Hb as <- ->.
    destruct (IH enodes' eq_refl) as [-> Hall]. split; [reflexivity|].
    now constructor.
Qed.

Lemma NewHiveRPCEngineClient_Returns h enginePort ethPort jwtSecretBytes ttd ec :
  NewHiveRPCEngineClient harness h enginePort ethPort jwtSecretBytes ttd = Returns ec ->
  JWTSecretBytes (ec_client ec) = jwtSecretBytes /\ ec_h ec = h /\ ec_ttd ec = ttd.
Proof.
  unfold NewHiveRPCEngineClient. repeat case_match; try discriminate.
  now intros [= <-].
Qed.

(** How [StartClient] can end: with an error and nothing launched, with a
    panic, or past the launch, whose arguments are then as given here. *)
Lemma StartClient_cases s genesis ClientParams ClientFiles bootClients :
  (exists e, StartClient harness s genesis ClientParams ClientFiles bootClients
             = Returns (None, None, Some e))
  \/ (exists v, StartClient harness s genesis ClientParams ClientFiles bootClients
                = Panics v)
  \/ exists first rest l,
       (Sim_ClientTypes harness).1 = first :: rest
       /\ launch_clientType l
          = (if String.eqb (ClientType s) "" then first else ClientType s)
       /\ GenesisStartOptionBasedOnClient harness genesis (before_underscore first)
          = (launch_genesisStart l, None)
       /\ launch_files l
          = (if String.eqb (ChainFile s) "" then ClientFiles
             else <["/chain.rlp" := ("./chains/" ++ ChainFile s)%string]> ClientFiles)
       /\ launch_params l
          = match bootClients with
            | [] => ClientParams
            | _ :: _ =>
                <["HIVE_BOOTNODE" := String.concat "," (map fst bootClients)]> ClientParams
            end
       /\ Forall (fun b => b.2 = None) bootClients
       /\ ((exists cause,
              CheckEthEngineLive harness
                (T_StartClient harness (launch_clientType l) (launch_genesisStart l)
                   (launch_params l) (launch_files l)) = Some cause
              /\ StartClient harness s genesis ClientParams ClientFiles bootClients
                 = Returns (Some l, None,
                            Some (ErrWrap cause
                                    "Engine/Eth ports were never open for client")))
           \/ (exists ec,
                 StartClient harness s genesis ClientParams ClientFiles bootClients
                 = Returns (Some l, Some ec, None)
                 /\ CheckEthEngineLive harness
                      (T_StartClient harness (launch_clientType l) (launch_genesisStart l)
                         (launch_params l) (launch_files l)) = None
                 /\ ec_h ec = T_StartClient harness (launch_clientType l)
                                (launch_genesisStart l) (launch_params l) (launch_files l)
                 /\ JWTSecretBytes (ec_client ec)
                    = default (globals_DefaultJwtTokenSecretBytes harness) (JWTSecret s)
                 /\ ec_ttd ec
                    = match TerminalTotalDifficulty s with
                      | Some _ => Some (Difficulty harness genesis)
                      | None =>
                          ClientParams !! "HIVE_TERMINAL_TOTAL_DIFFICULTY"
                            ≫= big_SetString harness
                      end)
           \/ (exists v,
                 CheckEthEngineLive harness
                   (T_StartClient harness (launch_clientType l) (launch_genesisStart l)
                      (launch_params l) (launch_files l)) = None
                 /\ StartClient harness s genesis ClientParams ClientFiles bootClients
                    = Panics v)).
Proof.
  unfold StartClient.
  destruct (Sim_ClientTypes harness) as [cs err]. cbn [fst].
  destruct (String.eqb (ClientType s) "") eqn:Htype;
    [destruct err as [e|]; [eauto|]; destruct cs as [|first rest]; [eauto|]|]; cbn.
  all: destruct (TerminalTotalDifficulty s) as [t|] eqn:Httd; cbn;
    [|destruct (ClientParams !! "HIVE_TERMINAL_TOTAL_DIFFICULTY") as [ttdStr|] eqn:Hp;
      cbn; [destruct (big_SetString harness ttdStr) as [v|] eqn:Hparse; cbn; [|eauto]|]].
  all: destruct bootClients as [|b bs];
    [|destruct (boot_enodes (b :: bs)) as [enodes [e|]] eqn:Hboot; [eauto|];
      apply boot_enodes_ok in Hboot as [-> Hall]].
  all: try (destruct cs as [|first rest]; [eauto|]).
  all: destruct (GenesisStartOptionBasedOnClient harness genesis (before_underscore first))
         as [genesisStart [e|]] eqn:Hgen; [eauto|].
  all: right; right; eexists first, rest, (mkLaunch _ _ _ _); cbn.
  all: repeat (split; [reflexivity || exact Hgen || exact Hall || constructor|]).
  all: destruct (CheckEthEngineLive harness _) as [cause|] eqn:Hlive; [left; eauto|].
  all: match goal with
       | |- context [NewHiveRPCEngineClient harness ?c ?p1 ?p2 ?j ?t] =>
           destruct (NewHiveRPCEngineClient harness c p1 p2 j t) as [ec|pv] eqn:Hnew
       end.
  all: first [ apply NewHiveRPCEngineClient_Returns in Hnew as (Hj & Hh & Ht);
               right; left; exists ec; rewrite Hj, Hh, Ht; now repeat split
             | right; right; eauto ].
Qed.

(** X23. [StartClient] returns a client exactly when it returns no error; a
    client returned was launched and passed the liveness check; and an error
    returned after the launch is the error the liveness check gave for the
    launched client, wrapped. *)
Theorem StartClient_result_shape s genesis ClientParams ClientFiles bootClients
  launch client err :
  StartClient harness s genesis ClientParams ClientFiles bootClients
  = Returns (launch, client, err) ->
  (is_Some client <-> err = None)
  /\ (is_Some client ->
      exists l,
        launch = Some l
        /\ CheckEthEngineLive harness
             (T_StartClient harness (launch_clientType l) (launch_genesisStart l)
                (launch_params l) (launch_files l)) = None)
  /\ (forall l e,
        launch = Some l -> err = Some e ->
        exists cause,
          CheckEthEngineLive harness
            (T_StartClient harness (launch_clientType l) (launch_genesisStart l)
               (launch_params l) (launch_files l)) = Some cause
          /\ e = ErrWrap cause "Engine/Eth ports were never open for client").
Proof.
  intros Hrun.
  destruct (StartClient_cases s genesis ClientParams ClientFiles bootClients)
    as [[e He]|[[v Hv]|(first & rest & l & _ & _ & _ & _ & _ & _ &
                        [(cause & Hlive & Hc)|[(ec & Hc & Hlive & _)|(v & _ & Hc)]])]];
    rewrite Hrun in *; simplify_eq.
  - split; [split; [intros [? [=]]|intros [=]]|].
    split; [intros [? [=]]|intros ? ? [=]].
  - split; [split; [intros [? [=]]|intros [=]]|].
    split; [intros [? [=]]|]. intros l' e [= <-] [= <-]. eauto.
  - split; [split; eauto|]. split; [eauto|]. intros l' e _ [=].
Qed.

(** X24. What [StartClient] launches. The client type is the one of the starter,
    or the first the simulator lists when the starter names none; the genesis
    start option is always the one of the first listed type, cut at its first
    underscore, also when the starter names another type; the files gain
    [/chain.rlp] when the starter has a chain file; the parameters gain
    [HIVE_BOOTNODE], the enodes of the boot clients joined by commas, when
    there are boot clients, each of which gave its enode. *)
Theorem StartClient_launch_arguments s genesis ClientParams ClientFiles bootClients
  l client err :
  StartClient harness s genesis ClientParams ClientFiles bootClients
  = Returns (Some l, client, err) ->
  exists first rest,
    (Sim_ClientTypes harness).1 = first :: rest
    /\ launch_clientType l
       = (if String.eqb (ClientType s) "" then first else ClientType s)
    /\ GenesisStartOptionBasedOnClient harness genesis (before_underscore first)
       = (launch_genesisStart l, None)
    /\ launch_files l
       = (if String.eqb (ChainFile s) "" then ClientFiles
          else <["/chain.rlp" := ("./chains/" ++ ChainFile s)%string]> ClientFiles)
    /\ launch_params l
       = match bootClients with
         | [] => ClientParams
         | _ :: _ =>
             <["HIVE_BOOTNODE" := String.concat "," (map fst bootClients)]> ClientParams
         end
    /\ Forall (fun b => b.2 = None) bootClients.
Proof.
  intros Hrun.
  destruct (StartClient_cases s genesis ClientParams ClientFiles bootClients)
    as [[e He]|[[v Hv]|(first & rest & l0 & Hcs & Htype & Hgen & Hfiles & Hparams & Hall
                        & [(cause & _ & Hc)|[(ec & Hc & _)|(v & _ & Hc)]])]];
    rewrite Hrun in *; simplify_eq; now exists first, rest.
Qed.

(** X25. The client [StartClient] returns talks to the launched container, signs
    with the starter's secret, or the default one when the starter has none,
    and has as its terminal total difficulty: the difficulty of the genesis
    when the starter gives a terminal total difficulty, whatever the value
    given; else the number parsed from [HIVE_TERMINAL_TOTAL_DIFFICULTY], or
    nil when the parameters have no such entry. *)
Theorem StartClient_client_fields s genesis ClientParams ClientFiles bootClients
  l ec err :
  StartClient harness s genesis ClientParams ClientFiles bootClients
  = Returns (Some l, Some ec, err) ->
  ID ec = Container (T_StartClient harness (launch_clientType l) (launch_genesisStart l)
                       (launch_params l) (launch_files l))
  /\ JWTSecretBytes (ec_client ec)
     = default (globals_DefaultJwtTokenSecretBytes harness) (JWTSecret s)
  /\ ec_TerminalTotalDifficulty ec
     = match TerminalTotalDifficulty s with
       | Some _ => Some (Difficulty harness genesis)
       | None => ClientParams !! "HIVE_TERMINAL_TOTAL_DIFFICULTY" ≫= big_SetString harness
       end.
Proof.
  intros Hrun. unfold ID, ec_TerminalTotalDifficulty.
  destruct (StartClient_cases s genesis ClientParams ClientFiles bootClients)
    as [[e He]|[[v Hv]|(first & rest & l0 & _ & _ & _ & _ & _ & _
                        & [(cause & _ & Hc)|[(ec0 & Hc & _ & Hh & Hj & Ht)|(v & _ & Hc)]])]];
    rewrite Hrun in *; simplify_eq. now rewrite Hh.
Qed.

(** X26. When the simulator lists no client type nothing is launched, whether the
    starter names a client type or not; and when the starter names one, the
    start does not end with an error for the missing list: having got past
    the parameters it panics on the first element of the empty list. *)
Theorem StartClient_no_client_types s genesis ClientParams ClientFiles bootClients :
  (Sim_ClientTypes harness).1 = [] ->
  (forall l client err,
     StartClient harness s genesis ClientParams ClientFiles bootClients
     <> Returns (Some l, client, err))
  /\ (ClientType s <> "" ->
      (TerminalTotalDifficulty s = None ->
       forall ttdStr, ClientParams !! "HIVE_TERMINAL_TOTAL_DIFFICULTY" = Some ttdStr ->
                      is_Some (big_SetString harness ttdStr)) ->
      Forall (fun b => b.2 = None) bootClients ->
      StartClient harness s genesis ClientParams ClientFiles bootClients
      = Panics (ErrExternal "index out of range [0] with length 0")).
Proof.
  intros Hcs. split.
  - intros l client err Hrun.
    destruct (StartClient_cases s genesis ClientParams ClientFiles bootClients)
      as [[e He]|[[v Hv]|(first & rest & l0 & Hcs' & _)]];
      rewrite ?Hrun in *; simplify_eq. rewrite Hcs in Hcs'. discriminate.
  - intros Htype Hparse Hboot. unfold StartClient.
    destruct (Sim_ClientTypes harness) as [cs err]. cbn in Hcs. subst cs.
    apply String.eqb_neq in Htype. rewrite Htype.
    assert (Hb : match bootClients with
                 | [] => True
                 | _ :: _ => boot_enodes bootClients = (map fst bootClients, None)
                 end).
    { destruct bootClients as [|b bs]; [exact I|]. clear -Hboot.
      induction Hboot as [|[enode e] rest He _ IH]; [reflexivity|].
      cbn in He. subst e. cbn. now rewrite IH. }
    destruct (TerminalTotalDifficulty s) as [t|]; cbn.
    + destruct bootClients as [|b bs]; [reflexivity|]. now rewrite Hb.
    + destruct (ClientParams !! "HIVE_TERMINAL_TOTAL_DIFFICULTY") as [ttdStr|] eqn:Hp; cbn.
      * destruct (Hparse eq_refl ttdStr eq_refl) as [v ->]. cbn.
        destruct bootClients as [|b bs]; [reflexivity|]. now rewrite Hb.
      * destruct bootClients as [|b bs]; [reflexivity|]. now rewrite Hb.
Qed.

End StartClient_facts.

Section rest_facts.
Import hive_rpc.
Local Open Scope list_scope.
Context `{Collaborators}.
Variable Header_UnmarshalJSON : json -> types_Header -> types_Header * option error.
Variable TD_UnmarshalJSON : json -> TD -> TD * option error.

Local Abbreviation GetTotalDifficulty :=
  (hive_rpc.GetTotalDifficulty Header_UnmarshalJSON TD_UnmarshalJSON).

(** X27. [GetTotalDifficulty] panics exactly when the call succeeds with the
    document [null] (no such block); an error of the call, or of either of
    the two decoders, is returned with a nil number; a number is returned
    only with a nil error, and it is the total difficulty the second decoder
    read, nil when it read none. *)
Theorem GetTotalDifficulty_outcomes (answer : json * option error) :
  ((exists v, GetTotalDifficulty answer = Panics v) <-> answer = (JNull, None))
  /\ (forall e, answer.2 = Some e -> GetTotalDifficulty answer = Returns (None, Some e))
  /\ (forall td e, GetTotalDifficulty answer = Returns (td, Some e) -> td = None)
  /\ (forall td, GetTotalDifficulty answer = Returns (td, None) ->
      exists header header' td',
        Header_UnmarshalJSON answer.1 header = (header', None)
        /\ TD_UnmarshalJSON answer.1 {| TotalDifficulty := None |} = (td', None)
        /\ td = TotalDifficulty td').
Proof.
  destruct answer as [raw [e0|]]; unfold hive_rpc.GetTotalDifficulty; cbn.
  { split; [split; [intros [v [=]]|intros [=]]|].
    split; [now intros e [= <-]|]. split; [now intros td e [= <-]|intros td [=]]. }
  unfold unmarshal_td_pointer, TotalDifficultyHeader_UnmarshalJSON.
  destruct raw; cbn;
    try (split; [split; eauto|];
         split; [intros e [=]|]; split; [intros td e [=]|intros td [=]]);
    match goal with
    | |- context [Header_UnmarshalJSON ?r ?h] =>
        destruct (Header_UnmarshalJSON r h) as [header' [e1|]] eqn:Hh; cbn;
        [|destruct (TD_UnmarshalJSON r {| TotalDifficulty := None |})
            as [td' [e2|]] eqn:Ht; cbn]
    end;
    (split; [split; [intros [v [=]]|intros [=]]|]);
    (split; [intros e [=]|]);
    (split; [intros td e [=]; congruence|]);
    intros td [=]; subst; eauto 10.
Qed.

Lemma toBlockNumArg_inj (a b : option Z) :
  (forall x y, hexutil_EncodeBig x = hexutil_EncodeBig y -> x = y) ->
  (forall x, exists c rest,
     hexutil_EncodeBig x = String c rest /\ (c = "0" \/ c = "-")%char) ->
  toBlockNumArg a = toBlockNumArg b -> a = b.
Proof.
  intros Hinj Hshape.
  assert (Htag : forall x tag c rest,
            tag = String c rest -> c <> "0"%char -> c <> "-"%char ->
            hexutil_EncodeBig x <> tag).
  { intros x tag c rest -> H0 Hm Heq.
    destruct (Hshape x) as (c' & rest' & Hx & Hc). rewrite Hx in Heq.
    injection Heq as -> _. tauto. }
  unfold toBlockNumArg, Pending, Finalized, Safe.
  destruct a as [a|], b as [b|]; [| | |reflexivity];
    repeat match goal with
           | |- context [(?x =? ?y)%Z] => destruct (Z.eqb_spec x y)
           end; subst; try reflexivity; try discriminate; intros Heq;
    try (now apply Hinj in Heq; subst);
    exfalso;
    first [ eapply Htag; [reflexivity| | |exact Heq]; discriminate
          | symmetry in Heq; eapply Htag; [reflexivity| | |exact Heq]; discriminate ].
Qed.

(** X28. [toBlockNumArg] renders nil as [latest], -2 as [pending], -3 as
    [finalized], -4 as [safe] and every other number through
    [hexutil.EncodeBig]. When [hexutil.EncodeBig] keeps numbers apart (it is
    injective, and what it yields starts with [0] or [-], as a hex quantity
    does), each tag is the argument of that one number only, and two
    different numbers, nil among them, never get the same argument. *)
Theorem toBlockNumArg_tags_and_injective (a b : option Z) :
  (forall x y, hexutil_EncodeBig x = hexutil_EncodeBig y -> x = y) ->
  (forall x, exists c rest,
     hexutil_EncodeBig x = String c rest /\ (c = "0" \/ c = "-")%char) ->
  (toBlockNumArg a = "latest" <-> a = None)
  /\ (toBlockNumArg a = "pending" <-> a = Some (-2)%Z)
  /\ (toBlockNumArg a = "finalized" <-> a = Some (-3)%Z)
  /\ (toBlockNumArg a = "safe" <-> a = Some (-4)%Z)
  /\ (forall n, a = Some n -> n <> (-2)%Z -> n <> (-3)%Z -> n <> (-4)%Z ->
        toBlockNumArg a = hexutil_EncodeBig n)
  /\ (a <> b -> toBlockNumArg a <> toBlockNumArg b).
Proof.
  intros Hinj Hshape.
  assert (Htag : forall c, toBlockNumArg a = toBlockNumArg c <-> a = c).
  { intros c. split; [now apply toBlockNumArg_inj | now intros ->]. }
  split; [exact (Htag None)|].
  split; [exact (Htag (Some (-2)%Z))|].
  split; [exact (Htag (Some (-3)%Z))|].
  split; [exact (Htag (Some (-4)%Z))|].
  split.
  - intros n -> H2 H3 H4. unfold toBlockNumArg, Pending, Finalized, Safe.
    destruct (Z.eqb_spec n (-2)); [contradiction|].
    destruct (Z.eqb_spec n (-3)); [contradiction|].
    now destruct (Z.eqb_spec n (-4)).
  - intros Hne Heq. apply Hne. now apply toBlockNumArg_inj.
Qed.

End rest_facts.

Section hive_rpc_more_examples.
Import hive_rpc examples.
Local Open Scope list_scope.


Lemma GetNextAccountNonce_error_keeps_cache_witness :
  (GetNextAccountNonce network_down alice (world_of client_at_A)).1.1 = 0
  /\ client (GetNextAccountNonce network_down alice (world_of client_at_A)).2
     = client_at_A.
Proof.
  apply (GetNextAccountNonce_error_keeps_cache network_down alice (world_of client_at_A)
           (ErrExternal "connection refused")).
  reflexivity.
Defined.

Lemma nonce_tracker_other_accounts_witness :
  accTxInfoMap
    (client (GetNextAccountNonce (network_at block_C) bob (world_of client_at_A)).2)
    !! alice
  = accTxInfoMap client_at_A !! alice
  /\ accTxInfoMap
       (client (UpdateNonce (network_at block_C) bob 33 (world_of client_at_A)).2)
       !! alice
     = accTxInfoMap client_at_A !! alice.
Proof.
  apply (nonce_tracker_other_accounts (network_at block_C) bob alice
           (world_of client_at_A) 33).
  intros Heq. vm_compute in Heq. discriminate Heq.
Defined.

Lemma versions_differ_on_the_wire_witness :
  (forall payloadId,
     sent (GetPayload (network_at block_C) 1 payloadId (world_of fresh_client)).2
     <> sent (GetPayload (network_at block_C) 2 payloadId (world_of fresh_client)).2)
  /\ (forall fcState pAttributes,
        sent (ForkchoiceUpdated (network_at block_C) 1 fcState pAttributes
                (world_of fresh_client)).2
        <> sent (ForkchoiceUpdated (network_at block_C) 2 fcState pAttributes
                   (world_of fresh_client)).2)
  /\ (forall (payload : option typ_ExecutableData) versionedHashes beaconRoot,
        sent (NewPayload (network_at block_C) 1 payload versionedHashes beaconRoot
                (world_of fresh_client)).2
        <> sent (NewPayload (network_at block_C) 2 payload versionedHashes beaconRoot
                   (world_of fresh_client)).2).
Proof.
  apply (versions_differ_on_the_wire (network_at block_C) 1 2 (world_of fresh_client)).
  lia.
Defined.

Lemma UpdateNonce_then_GetNextAccountNonce_witness :
  (GetNextAccountNonce (network_at block_C) alice
     (UpdateNonce (network_at block_A) alice 33 (world_of fresh_client)).2).1
  = ((33 + 1) mod uint64_modulus, None)
  /\ nonce_queries
       (sent (GetNextAccountNonce (network_at block_C) alice
                (UpdateNonce (network_at block_A) alice 33 (world_of fresh_client)).2).2)
     = nonce_queries
         (sent (UpdateNonce (network_at block_A) alice 33 (world_of fresh_client)).2).
Proof.
  apply (UpdateNonce_then_GetNextAccountNonce (network_at block_A) (network_at block_C)
           alice 33 (world_of fresh_client) block_A block_C); try reflexivity.
  right. reflexivity.
Defined.

Lemma NewHiveRPCEngineClient_fresh_witness :
  NewHiveRPCEngineClient (harness_with [] None) container 8551 8545
    [Byte.x73; Byte.x65; Byte.x63] (Some 5%Z) = Returns client_c1
  /\ (GetLastAccountNonce (network_at block_C) alice
        {| client := ec_client client_c1; sent := [] |}).1
     = (0, Some (ErrNoPreviousNonce alice))
  /\ nonce_queries
       (sent (GetNextAccountNonce (network_at block_C) alice
                {| client := ec_client client_c1; sent := [] |}).2)
     = [EthNonceAt alice (Some (Number block_C))]
  /\ JWTSecretBytes (ec_client client_c1) = [Byte.x73; Byte.x65; Byte.x63]
  /\ ec_TerminalTotalDifficulty client_c1 = Some 5%Z.
Proof.
  split; [reflexivity|].
  apply (NewHiveRPCEngineClient_fresh (harness_with [] None) container 8551 8545
           [Byte.x73; Byte.x65; Byte.x63] (Some 5%Z) client_c1 (network_at block_C)
           alice block_C); reflexivity.
Defined.

Lemma StartClient_result_shape_witness :
  StartClient (harness_with client_types (Some deadline)) starter_besu 7%Z ∅ ∅ []
  = Returns (Some (launch_besu ∅), None,
             Some (ErrWrap deadline "Engine/Eth ports were never open for client"))
  /\ exists cause,
       CheckEthEngineLive (harness_with client_types (Some deadline))
         (T_StartClient (harness_with client_types (Some deadline))
            (launch_clientType (launch_besu ∅)) (launch_genesisStart (launch_besu ∅))
            (launch_params (launch_besu ∅)) (launch_files (launch_besu ∅)))
       = Some cause
       /\ ErrWrap deadline "Engine/Eth ports were never open for client"
          = ErrWrap cause "Engine/Eth ports were never open for client".
Proof.
  assert (Hrun : StartClient (harness_with client_types (Some deadline)) starter_besu
                   7%Z ∅ ∅ []
                 = Returns (Some (launch_besu ∅), None,
                            Some (ErrWrap deadline
                                    "Engine/Eth ports were never open for client")))
    by (vm_compute; reflexivity).
  split; [exact Hrun|].
  exact (proj2 (proj2 (StartClient_result_shape
                         (harness_with client_types (Some deadline)) starter_besu
                         7%Z ∅ ∅ [] _ _ _ Hrun))
           (launch_besu ∅) _ eq_refl eq_refl).
Defined.

Lemma StartClient_launch_arguments_witness :
  StartClient (harness_with client_types None) starter_besu 7%Z ∅ ∅ two_boot_clients
  = Returns (Some (launch_besu bootnode_params), Some client_besu, None)
  /\ exists first rest,
       (Sim_ClientTypes (harness_with client_types None)).1 = first :: rest
       /\ launch_clientType (launch_besu bootnode_params)
          = (if String.eqb (ClientType starter_besu) "" then first
             else ClientType starter_besu)
       /\ GenesisStartOptionBasedOnClient (harness_with client_types None) 7%Z
            (before_underscore first)
          = (launch_genesisStart (launch_besu bootnode_params), None)
       /\ launch_files (launch_besu bootnode_params)
          = (if String.eqb (ChainFile starter_besu) "" then ∅
             else <["/chain.rlp" := ("./chains/" ++ ChainFile starter_besu)%string]> ∅)
       /\ launch_params (launch_besu bootnode_params)
          = <["HIVE_BOOTNODE" := String.concat "," (map fst two_boot_clients)]> ∅
       /\ Forall (fun b => b.2 = None) two_boot_clients.
Proof.
  assert (Hrun : StartClient (harness_with client_types None) starter_besu 7%Z ∅ ∅
                   two_boot_clients
                 = Returns (Some (launch_besu bootnode_params), Some client_besu, None))
    by (vm_compute; reflexivity).
  split; [exact Hrun|].
  exact (StartClient_launch_arguments (harness_with client_types None) starter_besu
           7%Z ∅ ∅ two_boot_clients _ _ _ Hrun).
Defined.

Lemma StartClient_client_fields_witness :
  StartClient (harness_with client_types None) starter_besu 7%Z ∅ ∅ []
  = Returns (Some (launch_besu ∅), Some client_besu, None)
  /\ ID client_besu = "besu"%string
  /\ JWTSecretBytes (ec_client client_besu) = [Byte.x73; Byte.x65; Byte.x63]
  /\ ec_TerminalTotalDifficulty client_besu = Some 7%Z.
Proof.
  assert (Hrun : StartClient (harness_with client_types None) starter_besu 7%Z ∅ ∅ []
                 = Returns (Some (launch_besu ∅), Some client_besu, None))
    by (vm_compute; reflexivity).
  split; [exact Hrun|].
  exact (StartClient_client_fields (harness_with client_types None) starter_besu
           7%Z ∅ ∅ [] _ _ _ Hrun).
Defined.

Lemma StartClient_no_client_types_witness :
  StartClient (harness_with [] None) starter_besu 7%Z ∅ ∅ []
  = Panics (ErrExternal "index out of range [0] with length 0").
Proof.
  apply (proj2 (StartClient_no_client_types (harness_with [] None) starter_besu 7%Z
                  ∅ ∅ [] eq_refl)).
  - discriminate.
  - discriminate.
  - constructor.
Defined.

Lemma hex_unhex (n : N) : unhex (hex n) = Some n.
Proof.
  change (N.of_hex_uint
            <$> HexadecimalString.NilZero.uint_of_string
                  (HexadecimalString.NilZero.string_of_uint (N.to_hex_uint n))
          = Some n).
  rewrite HexadecimalString.NilZero.usu.
  - cbn. now rewrite HexadecimalN.Unsigned.of_to.
  - intros Hnil. pose proof (HexadecimalN.Unsigned.of_to n) as Hn.
    rewrite Hnil in Hn. cbn in Hn. subst n. discriminate Hnil.
Qed.

Lemma hex_inj (n m : N) : hex n = hex m -> n = m.
Proof.
  intros Heq. pose proof (hex_unhex n) as Hn. rewrite Heq, hex_unhex in Hn. congruence.
Qed.

Lemma EncodeBig_inj (x y : Z) :
  hexutil_EncodeBig x = hexutil_EncodeBig y -> x = y.
Proof.
  cbn.
  destruct (Z.ltb_spec x 0), (Z.ltb_spec y 0); intros Heq.
  - apply (append_inj_l "-"), hex_inj in Heq. lia.
  - discriminate Heq.
  - discriminate Heq.
  - apply (hex_inj (Z.abs_N x) (Z.abs_N y)) in Heq. lia.
Qed.

Lemma toBlockNumArg_tags_and_injective_witness :
  (toBlockNumArg (Some (-2)%Z) = "pending"%string <-> Some (-2)%Z = Some (-2)%Z)
  /\ (toBlockNumArg (Some (-3)%Z) = "finalized"%string <-> Some (-3)%Z = Some (-3)%Z)
  /\ (toBlockNumArg (Some (-4)%Z) = "safe"%string <-> Some (-4)%Z = Some (-4)%Z)
  /\ (toBlockNumArg (Some 2%Z) = "latest"%string <-> Some 2%Z = None)
  /\ toBlockNumArg (Some 2%Z) = "0x2"%string
  /\ toBlockNumArg (Some (-2)%Z) <> toBlockNumArg (Some 2%Z)
  /\ toBlockNumArg None <> toBlockNumArg (Some 0%Z).
Proof.
  assert (Hshape : forall x, exists c rest,
            hexutil_EncodeBig x = String c rest /\ (c = "0" \/ c = "-")%char).
  { intros x. cbn. unfold hex. destruct (x <? 0)%Z; eauto. }
  pose proof (fun a b => toBlockNumArg_tags_and_injective a b EncodeBig_inj Hshape)
    as Htags.
  split; [exact (proj1 (proj2 (Htags (Some (-2)%Z) None)))|].
  split; [exact (proj1 (proj2 (proj2 (Htags (Some (-3)%Z) None))))|].
  split; [exact (proj1 (proj2 (proj2 (proj2 (Htags (Some (-4)%Z) None)))))|].
  split; [exact (proj1 (Htags (Some 2%Z) None))|].
  split.
  - exact (proj1 (proj2 (proj2 (proj2 (proj2 (Htags (Some 2%Z) None))))) 2%Z eq_refl
             ltac:(lia) ltac:(lia) ltac:(lia)).
  - split.
    + apply (proj2 (proj2 (proj2 (proj2 (proj2 (Htags (Some (-2)%Z) (Some 2%Z))))))).
      discriminate.
    + apply (proj2 (proj2 (proj2 (proj2 (proj2 (Htags None (Some 0%Z))))))).
      discriminate.
Defined.

End hive_rpc_more_examples.
